(** * Terminal Pulse: the record store and the session/access layer

    A shallow embedding of [services/localStorage.ts] (the
    [LocalStorageService] class) and [context/AuthContext.tsx] (the
    [AuthProvider] component), with the properties of the access-control
    and persistence layer proved over it.

    Modelling conventions.
    - A TypeScript string-literal union is an inductive type; an optional
      property ([p?: T]) and a nullable one ([T | null]) are an [option].
    - A [number] that counts is a [Z]; one that measures (uptime,
      coordinates, averages) is a [Q].  Rounding of doubles is not modelled.
    - A [Date] is kept as the instant it was built from: a literal handed to
      the [Date] constructor, or a number of milliseconds.
    - [localStorage] holds one JSON text per key.  Every key of the service
      is written with a value of one TypeScript type only, so the backing
      store is a record with one typed slot per key and [JSON.stringify] /
      [JSON.parse] are the identity on it.  A slot is empty (no item) or
      holds a value of its type: an item whose text does not parse, or
      parses to [null], which [getItem] would read as a missing item, is
      none of the stores described here.
    - The browser (clock, random source, storage quota, number and date
      formatting) is a record of oracles; the code runs in a state monad
      over a [World] that also carries exceptions, since
      [localStorage.setItem] may throw ([QuotaExceededError]).  The other
      two methods of the Storage interface, [getItem] and [removeItem],
      do not throw, and [JSON.parse] does not fail on a text that
      [JSON.stringify] wrote, so the [catch] branches around them are never
      taken. *)

From Stdlib Require Import ZArith QArith Qround String Ascii List Lia Lqa.
From stdpp Require Import base option list strings pretty gmap.

Local Open Scope string_scope.
Local Open Scope Z_scope.

(** ** Array and string methods of the host language *)

Module Array.
Section Methods.
Context {A : Type}.

(** [arr.find(p)] *)
Fixpoint find (p : A -> bool) (arr : list A) : option A :=
  match arr with
  | [] => None
  | x :: rest => if p x then Some x else find p rest
  end.

(** [arr.findIndex(p)]: the first index whose element satisfies [p],
    [-1] when there is none. *)
Fixpoint findIndex (p : A -> bool) (arr : list A) : Z :=
  match arr with
  | [] => -1
  | x :: rest =>
      if p x then 0
      else let i := findIndex p rest in
           if i =? -1 then -1 else i + 1
  end.

(** [arr.filter(p)] *)
Definition filter (p : A -> bool) (arr : list A) : list A := List.filter p arr.

(** [arr.push(x)], as the new contents of the array *)
Definition push (arr : list A) (x : A) : list A := arr ++ [x].

(** [arr[i] = x] for an index that [findIndex] returned *)
Definition set (arr : list A) (i : Z) (x : A) : list A := <[Z.to_nat i := x]> arr.

(** [arr[i]] *)
Definition get (arr : list A) (i : Z) : option A := arr !! Z.to_nat i.

(** [arr.length] *)
Definition length (arr : list A) : Z := Z.of_nat (List.length arr).
End Methods.

(** [arr.includes(x)] on an array of strings *)
Definition includes (arr : list string) (x : string) : bool :=
  existsb (String.eqb x) arr.
End Array.

Module Str.
(** [s.substr(from, len)] *)
Definition substr (from len : nat) (s : string) : string := substring from len s.

Definition upper (c : ascii) : ascii :=
  let n := nat_of_ascii c in
  if ((97 <=? n)%nat && (n <=? 122)%nat)%bool then ascii_of_nat (n - 32) else c.

(** [s.toUpperCase()] on the ASCII range *)
Fixpoint toUpperCase (s : string) : string :=
  match s with
  | EmptyString => EmptyString
  | String c rest => String (upper c) (toUpperCase rest)
  end.
End Str.

(** ** Data model ([types/index.ts]) *)

Inductive Date : Type :=
| DateOf (literal : string)   (* new Date('2025-01-01') *)
| DateAt (ms : Z).            (* new Date(), new Date(ms) *)

Inductive UserRole := Administrator | SupportAgent | ServiceDeskManager | Merchant.
Inductive UserStatus := Active | Locked.
Inductive TerminalStatus := Online | Offline | Maintenance | Error.
Inductive TicketStatus := Open | InProgress | Resolved | Closed | Scheduled.
Inductive TicketPriority := Low | Medium | High | Critical.
Inductive TicketSource := SourceSystem | SourceMerchant | CustomerCall | WhatsApp | Email.
Inductive NetworkType := WiFi | Ethernet | Net4G | Net3G.
Inductive AlertType := TerminalDown | SLABreach | HighPriorityTicket | SystemError.

(** The string each role is at run time (the key of [ROLE_PERMISSIONS]). *)
Definition role_name (r : UserRole) : string :=
  match r with
  | Administrator => "Administrator"
  | SupportAgent => "Support Agent"
  | ServiceDeskManager => "Service Desk Manager"
  | Merchant => "Merchant"
  end.

Definition status_name (s : UserStatus) : string :=
  match s with Active => "Active" | Locked => "Locked" end.

(** [role === name] and [status === name] *)
Definition role_is (r : UserRole) (name : string) : bool := String.eqb (role_name r) name.
Definition status_is (s : UserStatus) (name : string) : bool := String.eqb (status_name s) name.

Module User.
Record t := mk {
  id : string;
  fullName : string;
  username : string;
  email : string;
  password : string;
  role : UserRole;
  status : UserStatus;
  failedLoginAttempts : Z;
  lastLogin : option Date;
  createdAt : Date;
  updatedAt : Date;
  assignedTerminals : option (list string);
  permissions : option (list string)
}.

(** [Omit<User, 'id' | 'createdAt' | 'updatedAt'>] *)
Module Draft.
Record t := mk {
  fullName : string;
  username : string;
  email : string;
  password : string;
  role : UserRole;
  status : UserStatus;
  failedLoginAttempts : Z;
  lastLogin : option Date;
  assignedTerminals : option (list string);
  permissions : option (list string)
}.
End Draft.

(** [Partial<User>]: a field is [None] when the object does not have it. *)
Module Partial.
Record t := mk {
  id : option string;
  fullName : option string;
  username : option string;
  email : option string;
  password : option string;
  role : option UserRole;
  status : option UserStatus;
  failedLoginAttempts : option Z;
  lastLogin : option (option Date);
  createdAt : option Date;
  updatedAt : option Date;
  assignedTerminals : option (option (list string));
  permissions : option (option (list string))
}.

(** [{}] *)
Definition empty : t :=
  mk None None None None None None None None None None None None None.

(** [{ ...p, status: v }], [{ ...p, failedLoginAttempts: v }],
    [{ ...p, lastLogin: v }] *)
Definition with_status (v : UserStatus) (p : t) : t :=
  mk (id p) (fullName p) (username p) (email p) (password p) (role p) (Some v)
     (failedLoginAttempts p) (lastLogin p) (createdAt p) (updatedAt p)
     (assignedTerminals p) (permissions p).
Definition with_failedLoginAttempts (v : Z) (p : t) : t :=
  mk (id p) (fullName p) (username p) (email p) (password p) (role p) (status p)
     (Some v) (lastLogin p) (createdAt p) (updatedAt p)
     (assignedTerminals p) (permissions p).
Definition with_lastLogin (v : option Date) (p : t) : t :=
  mk (id p) (fullName p) (username p) (email p) (password p) (role p) (status p)
     (failedLoginAttempts p) (Some v) (createdAt p) (updatedAt p)
     (assignedTerminals p) (permissions p).
End Partial.

(** [{ id, ...userData, createdAt, updatedAt }] *)
Definition create (new_id : string) (d : Draft.t) (created updated : Date) : t :=
  {| id := new_id;
     fullName := Draft.fullName d;
     username := Draft.username d;
     email := Draft.email d;
     password := Draft.password d;
     role := Draft.role d;
     status := Draft.status d;
     failedLoginAttempts := Draft.failedLoginAttempts d;
     lastLogin := Draft.lastLogin d;
     createdAt := created;
     updatedAt := updated;
     assignedTerminals := Draft.assignedTerminals d;
     permissions := Draft.permissions d |}.

(** [{ ...u, ...updates, updatedAt: now }] *)
Definition assign (u : t) (updates : Partial.t) (now : Date) : t :=
  {| id := default (id u) (Partial.id updates);
     fullName := default (fullName u) (Partial.fullName updates);
     username := default (username u) (Partial.username updates);
     email := default (email u) (Partial.email updates);
     password := default (password u) (Partial.password updates);
     role := default (role u) (Partial.role updates);
     status := default (status u) (Partial.status updates);
     failedLoginAttempts :=
       default (failedLoginAttempts u) (Partial.failedLoginAttempts updates);
     lastLogin := default (lastLogin u) (Partial.lastLogin updates);
     createdAt := default (createdAt u) (Partial.createdAt updates);
     updatedAt := now;
     assignedTerminals :=
       default (assignedTerminals u) (Partial.assignedTerminals updates);
     permissions := default (permissions u) (Partial.permissions updates) |}.

(** The record with its [updatedAt] replaced and nothing else. *)
Definition touch (u : t) (now : Date) : t :=
  {| id := id u; fullName := fullName u; username := username u;
     email := email u; password := password u; role := role u;
     status := status u; failedLoginAttempts := failedLoginAttempts u;
     lastLogin := lastLogin u; createdAt := createdAt u; updatedAt := now;
     assignedTerminals := assignedTerminals u; permissions := permissions u |}.
End User.

Record Coordinates := { lat : Q; lng : Q }.

Module Terminal.
Record t := mk {
  id : string;
  location : string;
  merchant : string;
  status : TerminalStatus;
  lastSeen : Date;
  coordinates : Coordinates;
  model : option string;
  serialNumber : option string;
  firmwareVersion : option string;
  networkType : option NetworkType;
  uptime : Q;
  transactionsToday : Z;
  lastTransaction : option Date;
  lastMaintenance : option Date;
  nextMaintenance : option Date;
  createdAt : Date;
  updatedAt : Date
}.

Module Partial.
Record t := mk {
  id : option string;
  location : option string;
  merchant : option string;
  status : option TerminalStatus;
  lastSeen : option Date;
  coordinates : option Coordinates;
  model : option (option string);
  serialNumber : option (option string);
  firmwareVersion : option (option string);
  networkType : option (option NetworkType);
  uptime : option Q;
  transactionsToday : option Z;
  lastTransaction : option (option Date);
  lastMaintenance : option (option Date);
  nextMaintenance : option (option Date);
  createdAt : option Date;
  updatedAt : option Date
}.

Definition empty : t :=
  mk None None None None None None None None None None None None None None
     None None None.

(** [{ status, lastSeen }] *)
Definition status_lastSeen (s : TerminalStatus) (seen : Date) : t :=
  mk None None None (Some s) (Some seen) None None None None None None None
     None None None None None.
End Partial.

Definition assign (x : t) (updates : Partial.t) (now : Date) : t :=
  {| id := default (id x) (Partial.id updates);
     location := default (location x) (Partial.location updates);
     merchant := default (merchant x) (Partial.merchant updates);
     status := default (status x) (Partial.status updates);
     lastSeen := default (lastSeen x) (Partial.lastSeen updates);
     coordinates := default (coordinates x) (Partial.coordinates updates);
     model := default (model x) (Partial.model updates);
     serialNumber := default (serialNumber x) (Partial.serialNumber updates);
     firmwareVersion := default (firmwareVersion x) (Partial.firmwareVersion updates);
     networkType := default (networkType x) (Partial.networkType updates);
     uptime := default (uptime x) (Partial.uptime updates);
     transactionsToday :=
       default (transactionsToday x) (Partial.transactionsToday updates);
     lastTransaction := default (lastTransaction x) (Partial.lastTransaction updates);
     lastMaintenance := default (lastMaintenance x) (Partial.lastMaintenance updates);
     nextMaintenance := default (nextMaintenance x) (Partial.nextMaintenance updates);
     createdAt := default (createdAt x) (Partial.createdAt updates);
     updatedAt := now |}.

Definition touch (x : t) (now : Date) : t :=
  {| id := id x; location := location x; merchant := merchant x;
     status := status x; lastSeen := lastSeen x; coordinates := coordinates x;
     model := model x; serialNumber := serialNumber x;
     firmwareVersion := firmwareVersion x; networkType := networkType x;
     uptime := uptime x; transactionsToday := transactionsToday x;
     lastTransaction := lastTransaction x; lastMaintenance := lastMaintenance x;
     nextMaintenance := nextMaintenance x; createdAt := createdAt x;
     updatedAt := now |}.
End Terminal.

Module SupportTicket.
Record t := mk {
  id : string;
  title : string;
  description : string;
  terminalId : string;
  priority : TicketPriority;
  status : TicketStatus;
  source : TicketSource;
  reportedBy : string;
  assignedTo : option string;
  createdAt : Date;
  updatedAt : Date;
  resolvedAt : option Date;
  slaTarget : Date;
  slaBreach : bool;
  slaBreachDuration : Z;
  resolution : option string;
  resolutionTime : option Z;
  satisfactionRating : option Z;
  feedback : option string
}.

(** [Omit<SupportTicket, 'id' | 'createdAt' | 'updatedAt'>] *)
Module Draft.
Record t := mk {
  title : string;
  description : string;
  terminalId : string;
  priority : TicketPriority;
  status : TicketStatus;
  source : TicketSource;
  reportedBy : string;
  assignedTo : option string;
  resolvedAt : option Date;
  slaTarget : Date;
  slaBreach : bool;
  slaBreachDuration : Z;
  resolution : option string;
  resolutionTime : option Z;
  satisfactionRating : option Z;
  feedback : option string
}.
End Draft.

Module Partial.
Record t := mk {
  id : option string;
  title : option string;
  description : option string;
  terminalId : option string;
  priority : option TicketPriority;
  status : option TicketStatus;
  source : option TicketSource;
  reportedBy : option string;
  assignedTo : option (option string);
  createdAt : option Date;
  updatedAt : option Date;
  resolvedAt : option (option Date);
  slaTarget : option Date;
  slaBreach : option bool;
  slaBreachDuration : option Z;
  resolution : option (option string);
  resolutionTime : option (option Z);
  satisfactionRating : option (option Z);
  feedback : option (option string)
}.

Definition empty : t :=
  mk None None None None None None None None None None None None None None
     None None None None None.
End Partial.

Definition create (new_id : string) (d : Draft.t) (created updated : Date) : t :=
  {| id := new_id;
     title := Draft.title d;
     description := Draft.description d;
     terminalId := Draft.terminalId d;
     priority := Draft.priority d;
     status := Draft.status d;
     source := Draft.source d;
     reportedBy := Draft.reportedBy d;
     assignedTo := Draft.assignedTo d;
     createdAt := created;
     updatedAt := updated;
     resolvedAt := Draft.resolvedAt d;
     slaTarget := Draft.slaTarget d;
     slaBreach := Draft.slaBreach d;
     slaBreachDuration := Draft.slaBreachDuration d;
     resolution := Draft.resolution d;
     resolutionTime := Draft.resolutionTime d;
     satisfactionRating := Draft.satisfactionRating d;
     feedback := Draft.feedback d |}.

Definition assign (x : t) (updates : Partial.t) (now : Date) : t :=
  {| id := default (id x) (Partial.id updates);
     title := default (title x) (Partial.title updates);
     description := default (description x) (Partial.description updates);
     terminalId := default (terminalId x) (Partial.terminalId updates);
     priority := default (priority x) (Partial.priority updates);
     status := default (status x) (Partial.status updates);
     source := default (source x) (Partial.source updates);
     reportedBy := default (reportedBy x) (Partial.reportedBy updates);
     assignedTo := default (assignedTo x) (Partial.assignedTo updates);
     createdAt := default (createdAt x) (Partial.createdAt updates);
     updatedAt := now;
     resolvedAt := default (resolvedAt x) (Partial.resolvedAt updates);
     slaTarget := default (slaTarget x) (Partial.slaTarget updates);
     slaBreach := default (slaBreach x) (Partial.slaBreach updates);
     slaBreachDuration :=
       default (slaBreachDuration x) (Partial.slaBreachDuration updates);
     resolution := default (resolution x) (Partial.resolution updates);
     resolutionTime := default (resolutionTime x) (Partial.resolutionTime updates);
     satisfactionRating :=
       default (satisfactionRating x) (Partial.satisfactionRating updates);
     feedback := default (feedback x) (Partial.feedback updates) |}.

Definition touch (x : t) (now : Date) : t :=
  {| id := id x; title := title x; description := description x;
     terminalId := terminalId x; priority := priority x; status := status x;
     source := source x; reportedBy := reportedBy x; assignedTo := assignedTo x;
     createdAt := createdAt x; updatedAt := now; resolvedAt := resolvedAt x;
     slaTarget := slaTarget x; slaBreach := slaBreach x;
     slaBreachDuration := slaBreachDuration x; resolution := resolution x;
     resolutionTime := resolutionTime x;
     satisfactionRating := satisfactionRating x; feedback := feedback x |}.
End SupportTicket.

Module TicketComment.
Record t := mk {
  id : string;
  ticketId : string;
  userId : string;
  comment : string;
  isInternal : bool;
  createdAt : Date
}.
End TicketComment.

Module SystemAlert.
Record t := mk {
  id : string;
  type : AlertType;
  message : string;
  severity : TicketPriority;
  terminalId : option string;
  ticketId : option string;
  acknowledged : bool;
  acknowledgedBy : option string;
  createdAt : Date;
  acknowledgedAt : option Date
}.

(** [Omit<SystemAlert, 'id' | 'createdAt'>] *)
Module Draft.
Record t := mk {
  type : AlertType;
  message : string;
  severity : TicketPriority;
  terminalId : option string;
  ticketId : option string;
  acknowledged : bool;
  acknowledgedBy : option string;
  acknowledgedAt : option Date
}.
End Draft.

Definition create (new_id : string) (d : Draft.t) (created : Date) : t :=
  {| id := new_id;
     type := Draft.type d;
     message := Draft.message d;
     severity := Draft.severity d;
     terminalId := Draft.terminalId d;
     ticketId := Draft.ticketId d;
     acknowledged := Draft.acknowledged d;
     acknowledgedBy := Draft.acknowledgedBy d;
     createdAt := created;
     acknowledgedAt := Draft.acknowledgedAt d |}.
End SystemAlert.

Module PerformanceMetrics.
Record t := mk {
  date : string;
  totalTerminals : Z;
  onlineTerminals : Z;
  offlineTerminals : Z;
  maintenanceTerminals : Z;
  errorTerminals : Z;
  averageUptime : Q;
  totalTickets : Z;
  openTickets : Z;
  resolvedTickets : Z;
  averageResolutionTime : Q;
  slaCompliance : Q;
  customerSatisfaction : Q
}.
End PerformanceMetrics.

(** ** The browser: backing store, console, clock, random source *)

(** The property names of [STORAGE_KEYS]. *)
Inductive StorageKey :=
| USERS | TERMINALS | TICKETS | COMMENTS | ALERTS | METRICS | CURRENT_USER.

(** [STORAGE_KEYS]: the [localStorage] key behind each property. *)
Definition STORAGE_KEYS (k : StorageKey) : string :=
  match k with
  | USERS => "terminal_pulse_users"
  | TERMINALS => "terminal_pulse_terminals"
  | TICKETS => "terminal_pulse_tickets"
  | COMMENTS => "terminal_pulse_comments"
  | ALERTS => "terminal_pulse_alerts"
  | METRICS => "terminal_pulse_metrics"
  | CURRENT_USER => "terminal_pulse_current_user"
  end.

(** [Object.values(this.STORAGE_KEYS)], in property order. *)
Definition STORAGE_KEYS_values : list StorageKey :=
  [USERS; TERMINALS; TICKETS; COMMENTS; ALERTS; METRICS; CURRENT_USER].

(** The type of the value the service keeps under each key. *)
Definition payload (k : StorageKey) : Type :=
  match k with
  | USERS => list User.t
  | TERMINALS => list Terminal.t
  | TICKETS => list SupportTicket.t
  | COMMENTS => list TicketComment.t
  | ALERTS => list SystemAlert.t
  | METRICS => list PerformanceMetrics.t
  | CURRENT_USER => User.t
  end.

(** [localStorage], restricted to the keys of the service. *)
Record Storage := {
  users_item : option (list User.t);
  terminals_item : option (list Terminal.t);
  tickets_item : option (list SupportTicket.t);
  comments_item : option (list TicketComment.t);
  alerts_item : option (list SystemAlert.t);
  metrics_item : option (list PerformanceMetrics.t);
  current_user_item : option User.t
}.

Definition item (s : Storage) (k : StorageKey) : option (payload k) :=
  match k with
  | USERS => users_item s
  | TERMINALS => terminals_item s
  | TICKETS => tickets_item s
  | COMMENTS => comments_item s
  | ALERTS => alerts_item s
  | METRICS => metrics_item s
  | CURRENT_USER => current_user_item s
  end.

Definition put_item (s : Storage) (k : StorageKey) : option (payload k) -> Storage :=
  match k with
  | USERS => fun v =>
      Build_Storage v (terminals_item s) (tickets_item s) (comments_item s)
                    (alerts_item s) (metrics_item s) (current_user_item s)
  | TERMINALS => fun v =>
      Build_Storage (users_item s) v (tickets_item s) (comments_item s)
                    (alerts_item s) (metrics_item s) (current_user_item s)
  | TICKETS => fun v =>
      Build_Storage (users_item s) (terminals_item s) v (comments_item s)
                    (alerts_item s) (metrics_item s) (current_user_item s)
  | COMMENTS => fun v =>
      Build_Storage (users_item s) (terminals_item s) (tickets_item s) v
                    (alerts_item s) (metrics_item s) (current_user_item s)
  | ALERTS => fun v =>
      Build_Storage (users_item s) (terminals_item s) (tickets_item s)
                    (comments_item s) v (metrics_item s) (current_user_item s)
  | METRICS => fun v =>
      Build_Storage (users_item s) (terminals_item s) (tickets_item s)
                    (comments_item s) (alerts_item s) v (current_user_item s)
  | CURRENT_USER => fun v =>
      Build_Storage (users_item s) (terminals_item s) (tickets_item s)
                    (comments_item s) (alerts_item s) (metrics_item s) v
  end.

Definition empty_storage : Storage :=
  Build_Storage None None None None None None None.

(** What the page cannot decide: the readings of the clock, the draws of
    [Math.random()], how the host prints a number in base 36 and a date as
    [YYYY-MM-DD], and whether the n-th [localStorage.setItem] is accepted
    (it throws otherwise, [QuotaExceededError] for a full store). *)
Record Env := {
  clock : nat -> Z;
  random : nat -> Q;
  radix36 : Q -> string;
  isoDate : Z -> string;
  accepts : nat -> bool
}.

(** State of the [AuthProvider] reducer. *)
Record AuthState := {
  currentUser : option User.t;
  loading : bool;
  error : option string
}.

Inductive AuthAction :=
| LOGIN_START
| LOGIN_SUCCESS (payload : User.t)
| LOGIN_FAILURE (payload : string)
| LOGOUT
| UPDATE_USER (payload : User.t)
| CLEAR_ERROR.

Inductive AccessKind := GetItem | SetItem | RemoveItem.

(** One call of a [localStorage] method: which one, on which key. *)
Definition Access : Type := AccessKind * string.

Record World := {
  env : Env;
  localStorage : Storage;
  console : list string;     (* lines of console.error, latest first *)
  accesses : list Access;    (* calls of localStorage methods, latest first *)
  state : AuthState;         (* the reducer state of AuthProvider *)
  ticks : nat;               (* clock readings taken so far *)
  draws : nat;               (* Math.random() calls so far *)
  writes : nat               (* localStorage.setItem calls so far *)
}.

(** ** Computations: state and exceptions *)

Inductive Completion (A : Type) :=
| Normal (a : A)
| Thrown (exn : string).
Arguments Normal {A} a.
Arguments Thrown {A} exn.

Definition M (A : Type) : Type := World -> Completion A * World.

Definition ret {A} (a : A) : M A := fun w => (Normal a, w).

Definition bind {A B} (m : M A) (k : A -> M B) : M B :=
  fun w =>
    match m w with
    | (Normal a, w') => k a w'
    | (Thrown e, w') => (Thrown e, w')
    end.

Definition throw {A} (e : string) : M A := fun w => (Thrown e, w).

(** [try { body } catch (error) { handler }] *)
Definition try_catch {A} (body : M A) (handler : string -> M A) : M A :=
  fun w =>
    match body w with
    | (Normal a, w') => (Normal a, w')
    | (Thrown e, w') => handler e w'
    end.

#[export] Instance M_ret : MRet M := @ret.
#[export] Instance M_bind : MBind M := fun A B k m => bind m k.

Fixpoint mapM {A B} (f : A -> M B) (l : list A) : M (list B) :=
  match l with
  | [] => ret []
  | x :: rest => y ← f x; ys ← mapM f rest; ret (y :: ys)
  end.

(** The value a computation completes with, and the world it leaves. *)
Definition result {A} (m : M A) (w : World) : Completion A := fst (m w).
Definition after {A} (m : M A) (w : World) : World := snd (m w).

(** *** World updates *)

Definition with_storage (s : Storage) (w : World) : World :=
  Build_World (env w) s (console w) (accesses w) (state w) (ticks w) (draws w) (writes w).
Definition with_console (c : list string) (w : World) : World :=
  Build_World (env w) (localStorage w) c (accesses w) (state w) (ticks w) (draws w) (writes w).
Definition with_accesses (a : list Access) (w : World) : World :=
  Build_World (env w) (localStorage w) (console w) a (state w) (ticks w) (draws w) (writes w).
Definition with_state (s : AuthState) (w : World) : World :=
  Build_World (env w) (localStorage w) (console w) (accesses w) s (ticks w) (draws w) (writes w).
Definition with_ticks (n : nat) (w : World) : World :=
  Build_World (env w) (localStorage w) (console w) (accesses w) (state w) n (draws w) (writes w).
Definition with_draws (n : nat) (w : World) : World :=
  Build_World (env w) (localStorage w) (console w) (accesses w) (state w) (ticks w) n (writes w).
Definition with_writes (n : nat) (w : World) : World :=
  Build_World (env w) (localStorage w) (console w) (accesses w) (state w) (ticks w) (draws w) n.
Definition with_env (e : Env) (w : World) : World :=
  Build_World e (localStorage w) (console w) (accesses w) (state w) (ticks w) (draws w) (writes w).

Definition touched (kind : AccessKind) (k : StorageKey) (w : World) : World :=
  with_accesses ((kind, STORAGE_KEYS k) :: accesses w) w.

(** *** Host primitives *)

(** [localStorage.getItem(key)], already parsed *)
Definition localStorage_getItem (k : StorageKey) : M (option (payload k)) :=
  fun w => (Normal (item (localStorage w) k), touched GetItem k w).

(** [localStorage.setItem(key, JSON.stringify(data))] *)
Definition localStorage_setItem (k : StorageKey) (data : payload k) : M unit :=
  fun w =>
    let w1 := with_writes (S (writes w)) (touched SetItem k w) in
    if accepts (env w) (writes w)
    then (Normal tt, with_storage (put_item (localStorage w) k (Some data)) w1)
    else (Thrown "QuotaExceededError", w1).

(** [localStorage.removeItem(key)] *)
Definition localStorage_removeItem (k : StorageKey) : M unit :=
  fun w => (Normal tt, with_storage (put_item (localStorage w) k None) (touched RemoveItem k w)).

(** [console.error(msg, error)] *)
Definition console_error (msg : string) : M unit :=
  fun w => (Normal tt, with_console (msg :: console w) w).

(** [Date.now()] *)
Definition Date_now : M Z :=
  fun w => (Normal (clock (env w) (ticks w)), with_ticks (S (ticks w)) w).

(** [new Date()] *)
Definition new_Date : M Date := ms ← Date_now; ret (DateAt ms).

(** [Math.random()] *)
Definition Math_random : M Q :=
  fun w => (Normal (random (env w) (draws w)), with_draws (S (draws w)) w).

(** [n.toString(36)] *)
Definition toString36 (n : Q) : M string := fun w => (Normal (radix36 (env w) n), w).

(** [date.toISOString().split('T')[0]] for a date given in milliseconds *)
Definition toISODate (ms : Z) : M string := fun w => (Normal (isoDate (env w) ms), w).

(** [Math.floor(x)] *)
Definition Math_floor (x : Q) : Z := Qfloor x.

(** [arr.forEach(f)] *)
Fixpoint forEach {A} (arr : list A) (f : A -> M unit) : M unit :=
  match arr with
  | [] => ret tt
  | x :: rest => f x;; forEach rest f
  end.

(** ** [LocalStorageService] ([services/localStorage.ts]) *)

(** *** Generic storage methods *)

Definition setItem (k : StorageKey) (data : payload k) : M unit :=
  try_catch (localStorage_setItem k data)
            (fun error => console_error "Error saving to localStorage:").

Definition getItem (k : StorageKey) : M (option (payload k)) :=
  try_catch (data ← localStorage_getItem k; ret data)
            (fun error => console_error "Error reading from localStorage:";; ret None).

Definition removeItem (k : StorageKey) : M unit :=
  try_catch (localStorage_removeItem k)
            (fun error => console_error "Error removing from localStorage:").

(** *** Sample data *)

(** The four records of [generateSampleUsers]. *)
Definition sample_admin : User.t :=
  {| User.id := "user-admin-001";
     User.fullName := "Tendai Mukamuri";
     User.username := "admin.mukamuri";
     User.email := "admin.mukamuri@stanbic.co.zw";
     User.password := "admin123";
     User.role := Administrator;
     User.status := Active;
     User.failedLoginAttempts := 0;
     User.lastLogin := Some (DateOf "2025-09-03T19:05:13");
     User.createdAt := DateOf "2025-01-01";
     User.updatedAt := DateOf "2025-09-03T19:05:13";
     User.assignedTerminals := None;
     User.permissions := None |}.

Definition sample_support : User.t :=
  {| User.id := "user-support-001";
     User.fullName := "Chipo Nhongo";
     User.username := "support.nhongo";
     User.email := "support.nhongo@stanbic.co.zw";
     User.password := "support123";
     User.role := SupportAgent;
     User.status := Active;
     User.failedLoginAttempts := 0;
     User.lastLogin := Some (DateOf "2025-08-25T13:51:55");
     User.createdAt := DateOf "2025-01-01";
     User.updatedAt := DateOf "2025-08-25T13:51:55";
     User.assignedTerminals := None;
     User.permissions := None |}.

Definition sample_manager : User.t :=
  {| User.id := "user-manager-001";
     User.fullName := "Sarah Chigumba";
     User.username := "servicedesk.manager";
     User.email := "servicedesk.manager@stanbic.co.zw";
     User.password := "manager123";
     User.role := ServiceDeskManager;
     User.status := Active;
     User.failedLoginAttempts := 0;
     User.lastLogin := Some (DateOf "2025-09-03T19:14:46");
     User.createdAt := DateOf "2025-01-01";
     User.updatedAt := DateOf "2025-09-03T19:14:46";
     User.assignedTerminals := None;
     User.permissions := None |}.

Definition sample_merchant : User.t :=
  {| User.id := "user-merchant-001";
     User.fullName := "Tafadzwa Mutasa";
     User.username := "merchant.mutasa";
     User.email := "merchant.mutasa@stanbic.co.zw";
     User.password := "merchant123";
     User.role := Merchant;
     User.status := Active;
     User.failedLoginAttempts := 0;
     User.lastLogin := Some (DateOf "2025-08-23T22:17:10");
     User.createdAt := DateOf "2025-01-01";
     User.updatedAt := DateOf "2025-08-23T22:17:10";
     User.assignedTerminals := Some ["T001"];
     User.permissions := None |}.

Definition generateSampleUsers : list User.t :=
  [sample_admin; sample_support; sample_manager; sample_merchant].

(** A sample terminal; the fields the five samples share are filled in. *)
Definition sampleTerminal (id location merchant : string) (status : TerminalStatus)
    (lastSeen : Date) (lat lng uptime : Q) (transactionsToday : Z)
    (lastTransaction updatedAt : Date) : Terminal.t :=
  {| Terminal.id := id;
     Terminal.location := location;
     Terminal.merchant := merchant;
     Terminal.status := status;
     Terminal.lastSeen := lastSeen;
     Terminal.coordinates := {| lat := lat; lng := lng |};
     Terminal.model := None;
     Terminal.serialNumber := None;
     Terminal.firmwareVersion := None;
     Terminal.networkType := None;
     Terminal.uptime := uptime;
     Terminal.transactionsToday := transactionsToday;
     Terminal.lastTransaction := Some lastTransaction;
     Terminal.lastMaintenance := None;
     Terminal.nextMaintenance := None;
     Terminal.createdAt := DateOf "2025-01-01";
     Terminal.updatedAt := updatedAt |}.

Definition generateSampleTerminals : M (list Terminal.t) :=
  seen1 ← new_Date; tx1 ← new_Date; upd1 ← new_Date;
  seen2 ← Date_now; tx2 ← Date_now; upd2 ← new_Date;
  seen3 ← Date_now; tx3 ← Date_now; upd3 ← new_Date;
  seen4 ← Date_now; tx4 ← Date_now; upd4 ← new_Date;
  seen5 ← Date_now; tx5 ← Date_now; upd5 ← new_Date;
  ret [ sampleTerminal "T001" "Harare CBD" "Pick n Pay" Online
          seen1 (Qmake (-178292) 10000) (Qmake 310522 10000) (Qmake 100 1) 45
          tx1 upd1;
        sampleTerminal "T002" "Bulawayo City" "Ushe Manhuna" Online
          (DateAt (seen2 - 9 * 60000)) (Qmake (-201594) 10000) (Qmake 285906 10000)
          (Qmake 985 10) 32 (DateAt (tx2 - 30 * 60000)) upd2;
        sampleTerminal "T003" "Mutare Center" "Ushe Manhuna" Offline
          (DateAt (seen3 - 2 * 60 * 60000)) (Qmake (-189707) 10000) (Qmake 326473 10000)
          (Qmake 852 10) 0 (DateAt (tx3 - 3 * 60 * 60000)) upd3;
        sampleTerminal "T004" "Gweru Main" "Choppies" Maintenance
          (DateAt (seen4 - 34 * 60000)) (Qmake (-194543) 10000) (Qmake 298154 10000)
          (Qmake 921 10) 15 (DateAt (tx4 - 60 * 60000)) upd4;
        sampleTerminal "T005" "Masvingo Plaza" "Food World" Online
          (DateAt (seen5 - 5 * 60000)) (Qmake (-200716) 10000) (Qmake 308272 10000)
          (Qmake 968 10) 28 (DateAt (tx5 - 15 * 60000)) upd5 ].

Definition generateSampleTickets : M (list SupportTicket.t) :=
  created ← Date_now; updated ← Date_now; target ← Date_now;
  ret [ {| SupportTicket.id := "TKT-2025-001";
           SupportTicket.title := "Terminal Offline - Pick n Pay Borrowdale";
           SupportTicket.description := "Terminal T001 has been offline for over 2 hours";
           SupportTicket.terminalId := "T001";
           SupportTicket.priority := High;
           SupportTicket.status := Open;
           SupportTicket.source := SourceSystem;
           SupportTicket.reportedBy := "user-admin-001";
           SupportTicket.assignedTo := Some "user-support-001";
           SupportTicket.createdAt := DateAt (created - 10 * 24 * 60 * 60000);
           SupportTicket.updatedAt := DateAt (updated - 10 * 24 * 60 * 60000);
           SupportTicket.resolvedAt := None;
           SupportTicket.slaTarget :=
             DateAt (target - 10 * 24 * 60 * 60000 + 4 * 60 * 60000);
           SupportTicket.slaBreach := true;
           SupportTicket.slaBreachDuration := 259 * 60;
           SupportTicket.resolution := None;
           SupportTicket.resolutionTime := None;
           SupportTicket.satisfactionRating := None;
           SupportTicket.feedback := None |} ].

Definition generateSampleAlerts : M (list SystemAlert.t) :=
  created ← Date_now;
  ret [ {| SystemAlert.id := "alert-001";
           SystemAlert.type := TerminalDown;
           SystemAlert.message :=
             "Terminal T003 (Mutare Center) has been offline for 2 hours";
           SystemAlert.severity := High;
           SystemAlert.terminalId := Some "T003";
           SystemAlert.ticketId := None;
           SystemAlert.acknowledged := false;
           SystemAlert.acknowledgedBy := None;
           SystemAlert.createdAt := DateAt (created - 2 * 60 * 60000);
           SystemAlert.acknowledgedAt := None |} ].

(** [Math.floor(Math.random() * a + b)] and [Math.random() * a + b] *)
Definition random_floor (a b : Q) : M Z :=
  r ← Math_random; ret (Math_floor (r * a + b)%Q).
Definition random_scaled (a b : Q) : M Q :=
  r ← Math_random; ret (r * a + b)%Q.

(** The body of the loop of [generateSampleMetrics], for one [i]. *)
Definition sampleMetrics_entry (today : Z) (i : Z) : M PerformanceMetrics.t :=
  let date := today - i * 24 * 60 * 60 * 1000 in
  day ← toISODate date;
  online ← random_floor (Qmake 8 1) (Qmake 12 1);
  offline ← random_floor (Qmake 4 1) (Qmake 0 1);
  maintenance ← random_floor (Qmake 3 1) (Qmake 0 1);
  errors ← random_floor (Qmake 3 1) (Qmake 0 1);
  uptime ← random_scaled (Qmake 20 1) (Qmake 80 1);
  total ← random_floor (Qmake 15 1) (Qmake 5 1);
  opened ← random_floor (Qmake 8 1) (Qmake 2 1);
  resolved ← random_floor (Qmake 10 1) (Qmake 3 1);
  resolution ← random_scaled (Qmake 240 1) (Qmake 60 1);
  sla ← random_scaled (Qmake 15 1) (Qmake 85 1);
  satisfaction ← random_scaled (Qmake 1 1) (Qmake 4 1);
  ret {| PerformanceMetrics.date := day;
         PerformanceMetrics.totalTerminals := 20;
         PerformanceMetrics.onlineTerminals := online;
         PerformanceMetrics.offlineTerminals := offline;
         PerformanceMetrics.maintenanceTerminals := maintenance;
         PerformanceMetrics.errorTerminals := errors;
         PerformanceMetrics.averageUptime := uptime;
         PerformanceMetrics.totalTickets := total;
         PerformanceMetrics.openTickets := opened;
         PerformanceMetrics.resolvedTickets := resolved;
         PerformanceMetrics.averageResolutionTime := resolution;
         PerformanceMetrics.slaCompliance := sla;
         PerformanceMetrics.customerSatisfaction := satisfaction |}.

(** [for (let i = n; i >= 0; i--) metrics.push(...)] *)
Fixpoint sampleMetrics_loop (today : Z) (i : nat) (metrics : list PerformanceMetrics.t)
    : M (list PerformanceMetrics.t) :=
  entry ← sampleMetrics_entry today (Z.of_nat i);
  let metrics := Array.push metrics entry in
  match i with
  | O => ret metrics
  | S j => sampleMetrics_loop today j metrics
  end.

Definition generateSampleMetrics : M (list PerformanceMetrics.t) :=
  today ← Date_now;
  sampleMetrics_loop today 30 [].

(** *** Initialisation *)

Definition initializeData : M unit :=
  stored ← getItem USERS;
  (if stored is None then setItem USERS generateSampleUsers else ret tt);;
  stored ← getItem TERMINALS;
  (if stored is None then data ← generateSampleTerminals; setItem TERMINALS data
   else ret tt);;
  stored ← getItem TICKETS;
  (if stored is None then data ← generateSampleTickets; setItem TICKETS data
   else ret tt);;
  stored ← getItem ALERTS;
  (if stored is None then data ← generateSampleAlerts; setItem ALERTS data
   else ret tt);;
  stored ← getItem METRICS;
  (if stored is None then data ← generateSampleMetrics; setItem METRICS data
   else ret tt).

(** The private constructor, run once by [getInstance]. *)
Definition LocalStorageService_new : M unit := initializeData.

(** *** User management *)

Definition getUsers : M (list User.t) :=
  stored ← getItem USERS; ret (default [] stored).

Definition getUserById (id : string) : M (option User.t) :=
  users ← getUsers;
  ret (Array.find (fun user => String.eqb (User.id user) id) users).

Definition getUserByUsername (username : string) : M (option User.t) :=
  users ← getUsers;
  ret (Array.find (fun user => String.eqb (User.username user) username) users).

Definition createUser (userData : User.Draft.t) : M User.t :=
  users ← getUsers;
  stamp ← Date_now;
  r ← Math_random;
  digits ← toString36 r;
  created ← new_Date;
  updated ← new_Date;
  let newUser :=
    User.create ("user-" +:+ pretty stamp +:+ "-" +:+ Str.substr 2 9 digits)
                userData created updated in
  let users := Array.push users newUser in
  setItem USERS users;;
  ret newUser.

(** [index] comes from [findIndex] on the same array, so [users[index]] is
    an element whenever [index] is not [-1]; the [None] branch of the inner
    match stands for an access that cannot happen. *)
Definition updateUser (id : string) (updates : User.Partial.t) : M (option User.t) :=
  users ← getUsers;
  let index := Array.findIndex (fun user => String.eqb (User.id user) id) users in
  if index =? -1 then ret None
  else
    match Array.get users index with
    | None => ret None
    | Some old =>
        now ← new_Date;
        let users := Array.set users index (User.assign old updates now) in
        setItem USERS users;;
        ret (Array.get users index)
    end.

Definition deleteUser (id : string) : M bool :=
  users ← getUsers;
  let filteredUsers :=
    Array.filter (fun user => negb (String.eqb (User.id user) id)) users in
  if Array.length filteredUsers =? Array.length users then ret false
  else setItem USERS filteredUsers;; ret true.

(** *** Authentication *)

Definition getCurrentUser : M (option User.t) := getItem CURRENT_USER.

Definition setCurrentUser (user : option User.t) : M unit :=
  match user with
  | Some user => setItem CURRENT_USER user
  | None => removeItem CURRENT_USER
  end.

(** *** Terminal management *)

Definition getTerminals : M (list Terminal.t) :=
  stored ← getItem TERMINALS; ret (default [] stored).

Definition getTerminalById (id : string) : M (option Terminal.t) :=
  terminals ← getTerminals;
  ret (Array.find (fun terminal => String.eqb (Terminal.id terminal) id) terminals).

Definition getTerminalsByUser (userId : string) : M (list Terminal.t) :=
  user ← getUserById userId;
  match user with
  | None => getTerminals
  | Some user =>
      if negb (role_is (User.role user) "Merchant") then getTerminals
      else
        terminals ← getTerminals;
        ret (Array.filter
               (fun terminal =>
                  match User.assignedTerminals user with
                  | Some assigned => Array.includes assigned (Terminal.id terminal)
                  | None => false
                  end)
               terminals)
  end.

Definition updateTerminal (id : string) (updates : Terminal.Partial.t)
    : M (option Terminal.t) :=
  terminals ← getTerminals;
  let index :=
    Array.findIndex (fun terminal => String.eqb (Terminal.id terminal) id) terminals in
  if index =? -1 then ret None
  else
    match Array.get terminals index with
    | None => ret None
    | Some old =>
        now ← new_Date;
        let terminals := Array.set terminals index (Terminal.assign old updates now) in
        setItem TERMINALS terminals;;
        ret (Array.get terminals index)
    end.

Definition updateTerminalStatus (id : string) (status : TerminalStatus) : M bool :=
  seen ← new_Date;
  terminal ← updateTerminal id (Terminal.Partial.status_lastSeen status seen);
  ret (if terminal is None then false else true).

(** *** Support tickets *)

Definition getTickets : M (list SupportTicket.t) :=
  stored ← getItem TICKETS; ret (default [] stored).

Definition getTicketsByUser (userId : string) : M (list SupportTicket.t) :=
  user ← getUserById userId;
  match user with
  | None => ret []
  | Some user =>
      if role_is (User.role user) "Merchant" then
        let userTerminals := default [] (User.assignedTerminals user) in
        tickets ← getTickets;
        ret (Array.filter
               (fun ticket => Array.includes userTerminals (SupportTicket.terminalId ticket))
               tickets)
      else getTickets
  end.

Definition createTicket (ticketData : SupportTicket.Draft.t) : M SupportTicket.t :=
  tickets ← getTickets;
  stamp ← Date_now;
  r ← Math_random;
  digits ← toString36 r;
  created ← new_Date;
  updated ← new_Date;
  let newTicket :=
    SupportTicket.create
      ("TKT-" +:+ pretty stamp +:+ "-" +:+ Str.toUpperCase (Str.substr 2 6 digits))
      ticketData created updated in
  let tickets := Array.push tickets newTicket in
  setItem TICKETS tickets;;
  ret newTicket.

Definition updateTicket (id : string) (updates : SupportTicket.Partial.t)
    : M (option SupportTicket.t) :=
  tickets ← getTickets;
  let index :=
    Array.findIndex (fun ticket => String.eqb (SupportTicket.id ticket) id) tickets in
  if index =? -1 then ret None
  else
    match Array.get tickets index with
    | None => ret None
    | Some old =>
        now ← new_Date;
        let tickets := Array.set tickets index (SupportTicket.assign old updates now) in
        setItem TICKETS tickets;;
        ret (Array.get tickets index)
    end.

(** *** System alerts and metrics *)

Definition getAlerts : M (list SystemAlert.t) :=
  stored ← getItem ALERTS; ret (default [] stored).

Definition createAlert (alertData : SystemAlert.Draft.t) : M SystemAlert.t :=
  alerts ← getAlerts;
  stamp ← Date_now;
  r ← Math_random;
  digits ← toString36 r;
  created ← new_Date;
  let newAlert :=
    SystemAlert.create ("alert-" +:+ pretty stamp +:+ "-" +:+ Str.substr 2 9 digits)
                       alertData created in
  let alerts := Array.push alerts newAlert in
  setItem ALERTS alerts;;
  ret newAlert.

Definition getMetrics : M (list PerformanceMetrics.t) :=
  stored ← getItem METRICS; ret (default [] stored).

(** *** Clear all data *)

Definition clearAllData : M unit :=
  forEach STORAGE_KEYS_values (fun key => removeItem key);;
  initializeData.

(** ** [AuthProvider] ([context/AuthContext.tsx]) *)

Definition authReducer (st : AuthState) (action : AuthAction) : AuthState :=
  match action with
  | LOGIN_START =>
      {| currentUser := currentUser st; loading := true; error := None |}
  | LOGIN_SUCCESS payload =>
      {| currentUser := Some payload; loading := false; error := None |}
  | LOGIN_FAILURE payload =>
      {| currentUser := None; loading := false; error := Some payload |}
  | LOGOUT =>
      {| currentUser := None; loading := false; error := None |}
  | UPDATE_USER payload =>
      {| currentUser := Some payload; loading := loading st; error := error st |}
  | CLEAR_ERROR =>
      {| currentUser := currentUser st; loading := loading st; error := None |}
  end.

Definition initialState : AuthState :=
  {| currentUser := None; loading := false; error := None |}.

Definition dispatch (action : AuthAction) : M unit :=
  fun w => (Normal tt, with_state (authReducer (state w) action) w).

(** Reading [state] inside the provider. *)
Definition useState : M AuthState := fun w => (Normal (state w), w).

(** Permission mappings by role. *)
Definition ROLE_PERMISSIONS : gmap string (list string) :=
  <[ "Administrator" :=
       [ "view_all_terminals"; "manage_terminals"; "view_all_tickets";
         "manage_tickets"; "view_analytics"; "generate_reports";
         "manage_users"; "system_admin" ] ]>
  (<[ "Service Desk Manager" :=
       [ "view_all_terminals"; "view_all_tickets"; "manage_tickets";
         "view_analytics"; "generate_reports"; "manage_users" ] ]>
  (<[ "Support Agent" :=
       [ "view_all_terminals"; "manage_terminals"; "view_all_tickets";
         "manage_tickets"; "view_analytics"; "generate_reports" ] ]>
  (<[ "Merchant" :=
       [ "view_own_terminals"; "view_own_tickets"; "create_tickets";
         "view_own_analytics" ] ]> ∅))).

(** The effect run when the provider mounts: restore a saved session. *)
Definition AuthProvider_mount : M unit :=
  savedUser ← getCurrentUser;
  match savedUser with
  | Some savedUser => dispatch (LOGIN_SUCCESS savedUser)
  | None => ret tt
  end.

Definition login (username password : string) : M bool :=
  dispatch LOGIN_START;;
  try_catch
    (user ← getUserByUsername username;
     match user with
     | None => dispatch (LOGIN_FAILURE "User not found");; ret false
     | Some user =>
         if status_is (User.status user) "Locked" then
           dispatch (LOGIN_FAILURE "Account is locked. Contact administrator.");;
           ret false
         else if negb (String.eqb (User.password user) password) then
           updatedUser ← updateUser (User.id user)
             (User.Partial.with_failedLoginAttempts
                (User.failedLoginAttempts user + 1) User.Partial.empty);
           (match updatedUser with
            | Some updatedUser =>
                if 3 <=? User.failedLoginAttempts updatedUser then
                  updateUser (User.id user)
                    (User.Partial.with_status Locked User.Partial.empty);;
                  dispatch (LOGIN_FAILURE
                    "Account locked due to multiple failed login attempts.")
                else dispatch (LOGIN_FAILURE "Invalid password")
            | None => dispatch (LOGIN_FAILURE "Invalid password")
            end);;
           ret false
         else
           lastLogin ← new_Date;
           updatedUser ← updateUser (User.id user)
             (User.Partial.with_failedLoginAttempts 0
                (User.Partial.with_lastLogin (Some lastLogin) User.Partial.empty));
           match updatedUser with
           | Some updatedUser =>
               setCurrentUser (Some updatedUser);;
               dispatch (LOGIN_SUCCESS updatedUser);;
               ret true
           | None => dispatch (LOGIN_FAILURE "Login failed");; ret false
           end
     end)
    (fun error => dispatch (LOGIN_FAILURE "Login failed. Please try again.");; ret false).

Definition logout : M unit :=
  setCurrentUser None;;
  dispatch LOGOUT.

Definition hasPermission (permission : string) : M bool :=
  st ← useState;
  match currentUser st with
  | None => ret false
  | Some user =>
      let rolePermissions :=
        default [] (ROLE_PERMISSIONS !! role_name (User.role user)) in
      ret (Array.includes rolePermissions permission)
  end.

Definition updateCurrentUser (updates : User.Partial.t) : M unit :=
  st ← useState;
  match currentUser st with
  | None => ret tt
  | Some user =>
      updatedUser ← updateUser (User.id user) updates;
      match updatedUser with
      | Some updatedUser =>
          setCurrentUser (Some updatedUser);;
          dispatch (UPDATE_USER updatedUser)
      | None => ret tt
      end
  end.

Definition clearError : M unit := dispatch CLEAR_ERROR.

Definition getAccessibleTerminals : M (list Terminal.t) :=
  st ← useState;
  match currentUser st with
  | None => ret []
  | Some user =>
      if role_is (User.role user) "Merchant"
      then getTerminalsByUser (User.id user)
      else getTerminals
  end.

Definition getAccessibleTickets : M (list SupportTicket.t) :=
  st ← useState;
  match currentUser st with
  | None => ret []
  | Some user => getTicketsByUser (User.id user)
  end.

(** ** A concrete browser, for examples *)

Definition demo_env : Env :=
  {| clock := fun n => 1756926313000 + Z.of_nat n;
     random := fun _ => Qmake 1 2;
     radix36 := fun _ => "0.i";
     isoDate := fun _ => "2025-09-03";
     accepts := fun _ => true |}.

(** A browser whose storage is full: every [setItem] is refused. *)
Definition full_env : Env :=
  {| clock := clock demo_env;
     random := random demo_env;
     radix36 := radix36 demo_env;
     isoDate := isoDate demo_env;
     accepts := fun _ => false |}.

Definition blank (e : Env) : World :=
  {| env := e; localStorage := empty_storage; console := []; accesses := [];
     state := initialState; ticks := O; draws := O; writes := O |}.

(** The page after the service has been constructed on an empty store. *)
Definition demo_world : World := after LocalStorageService_new (blank demo_env).

(** ** The public interface of the service, as data *)

Inductive StoreCall :=
| Call_getUsers
| Call_getUserById (id : string)
| Call_getUserByUsername (username : string)
| Call_createUser (userData : User.Draft.t)
| Call_updateUser (id : string) (updates : User.Partial.t)
| Call_deleteUser (id : string)
| Call_getCurrentUser
| Call_setCurrentUser (user : option User.t)
| Call_getTerminals
| Call_getTerminalById (id : string)
| Call_getTerminalsByUser (userId : string)
| Call_updateTerminal (id : string) (updates : Terminal.Partial.t)
| Call_updateTerminalStatus (id : string) (status : TerminalStatus)
| Call_getTickets
| Call_getTicketsByUser (userId : string)
| Call_createTicket (ticketData : SupportTicket.Draft.t)
| Call_updateTicket (id : string) (updates : SupportTicket.Partial.t)
| Call_getAlerts
| Call_createAlert (alertData : SystemAlert.Draft.t)
| Call_getMetrics
| Call_clearAllData.

Inductive Returned :=
| Users_ (v : list User.t)
| User_ (v : option User.t)
| NewUser_ (v : User.t)
| Terminals_ (v : list Terminal.t)
| Terminal_ (v : option Terminal.t)
| Tickets_ (v : list SupportTicket.t)
| Ticket_ (v : option SupportTicket.t)
| NewTicket_ (v : SupportTicket.t)
| Alerts_ (v : list SystemAlert.t)
| NewAlert_ (v : SystemAlert.t)
| Metrics_ (v : list PerformanceMetrics.t)
| Bool_ (v : bool)
| Void_.

Definition call (c : StoreCall) : M Returned :=
  match c with
  | Call_getUsers => v ← getUsers; ret (Users_ v)
  | Call_getUserById id => v ← getUserById id; ret (User_ v)
  | Call_getUserByUsername username => v ← getUserByUsername username; ret (User_ v)
  | Call_createUser userData => v ← createUser userData; ret (NewUser_ v)
  | Call_updateUser id updates => v ← updateUser id updates; ret (User_ v)
  | Call_deleteUser id => v ← deleteUser id; ret (Bool_ v)
  | Call_getCurrentUser => v ← getCurrentUser; ret (User_ v)
  | Call_setCurrentUser user => setCurrentUser user;; ret Void_
  | Call_getTerminals => v ← getTerminals; ret (Terminals_ v)
  | Call_getTerminalById id => v ← getTerminalById id; ret (Terminal_ v)
  | Call_getTerminalsByUser userId => v ← getTerminalsByUser userId; ret (Terminals_ v)
  | Call_updateTerminal id updates => v ← updateTerminal id updates; ret (Terminal_ v)
  | Call_updateTerminalStatus id status => v ← updateTerminalStatus id status; ret (Bool_ v)
  | Call_getTickets => v ← getTickets; ret (Tickets_ v)
  | Call_getTicketsByUser userId => v ← getTicketsByUser userId; ret (Tickets_ v)
  | Call_createTicket ticketData => v ← createTicket ticketData; ret (NewTicket_ v)
  | Call_updateTicket id updates => v ← updateTicket id updates; ret (Ticket_ v)
  | Call_getAlerts => v ← getAlerts; ret (Alerts_ v)
  | Call_createAlert alertData => v ← createAlert alertData; ret (NewAlert_ v)
  | Call_getMetrics => v ← getMetrics; ret (Metrics_ v)
  | Call_clearAllData => clearAllData;; ret Void_
  end.

(** The operations that create, update or delete a record or set the
    session slot. *)
Definition mutating (c : StoreCall) : bool :=
  match c with
  | Call_createUser _ | Call_updateUser _ _ | Call_deleteUser _
  | Call_setCurrentUser _ | Call_updateTerminal _ _ | Call_updateTerminalStatus _ _
  | Call_createTicket _ | Call_updateTicket _ _ | Call_createAlert _ => true
  | _ => false
  end.

(** ** Host functions used by the pages *)

(** [arr.some(p)] and [arr.map(f)] *)
Definition Array_some {A} (p : A -> bool) (arr : list A) : bool := existsb p arr.
Definition Array_map {A B} (f : A -> B) (arr : list A) : list B := List.map f arr.

(** [!!s] for a string *)
Definition truthy (s : string) : bool := negb (String.eqb s "").

(** [Object.keys(o)], in no particular order *)
Definition Object_keys {A} (o : gmap string A) : list string := (map_to_list o).*1.

(** [Math.round(x)] *)
Definition Math_round (x : Q) : Z := Qfloor (x + (1 # 2))%Q.

(** The one item a call of the service may write, if any. *)
Definition collection (c : StoreCall) : option StorageKey :=
  match c with
  | Call_createUser _ | Call_updateUser _ _ | Call_deleteUser _ => Some USERS
  | Call_setCurrentUser _ => Some CURRENT_USER
  | Call_updateTerminal _ _ | Call_updateTerminalStatus _ _ => Some TERMINALS
  | Call_createTicket _ | Call_updateTicket _ _ => Some TICKETS
  | Call_createAlert _ => Some ALERTS
  | _ => None
  end.

(** ** [AuthProvider]: role helpers *)

Definition isAdmin : M bool :=
  st ← useState;
  ret (match currentUser st with
       | Some user => role_is (User.role user) "Administrator"
       | None => false
       end).

Definition isManager : M bool :=
  st ← useState;
  ret (match currentUser st with
       | Some user => role_is (User.role user) "Service Desk Manager"
       | None => false
       end).

Definition isSupport : M bool :=
  st ← useState;
  ret (match currentUser st with
       | Some user => role_is (User.role user) "Support Agent"
       | None => false
       end).

Definition isMerchant : M bool :=
  st ← useState;
  ret (match currentUser st with
       | Some user => role_is (User.role user) "Merchant"
       | None => false
       end).

(** ** Route guards ([App.tsx]) *)

(** What a guard ends up rendering. *)
Inductive Element :=
| LoadingSpinner
| Navigate (to : string)
| AccessDenied (currentRole : string)
| Page (name : string)
| Text (message : string).

Definition PrivateRoute (children : M Element) : M Element :=
  st ← useState;
  if loading st then ret LoadingSpinner
  else match currentUser st with
       | Some _ => children
       | None => ret (Navigate "/login")
       end.

Definition RoleBasedRoute (allowedRoles : list string) (children : M Element) : M Element :=
  st ← useState;
  match currentUser st with
  | None => ret (Navigate "/login")
  | Some user =>
      if negb (Array.includes allowedRoles (role_name (User.role user)))
      then ret (AccessDenied (role_name (User.role user)))
      else children
  end.

(** The element of the route [/user-management]. *)
Definition user_management_route : M Element :=
  PrivateRoute
    (RoleBasedRoute ["Administrator"; "Service Desk Manager"] (ret (Page "UserManagement"))).

(** The element of the route [/dashboard]; the other private routes differ
    in the page only. *)
Definition dashboard_route : M Element := PrivateRoute (ret (Page "Dashboard")).

(** The element of the route [/login]. *)
Definition login_route : M Element :=
  st ← useState;
  match currentUser st with
  | Some _ => ret (Navigate "/dashboard")
  | None => ret (Page "LoginPage")
  end.

(** [ProtectedRoute]; a missing [requiredPermission], [requiredRole] or
    [fallback] is [None]. *)
Definition ProtectedRoute (requiredPermission requiredRole : option string)
    (fallback : option Element) (children : M Element) : M Element :=
  st ← useState;
  match currentUser st with
  | None => ret (default (Text "Please log in to access this page.") fallback)
  | Some user =>
      if match requiredRole with
         | Some requiredRole =>
             truthy requiredRole && negb (role_is (User.role user) requiredRole)
         | None => false
         end
      then ret (default (Text "Access denied. Insufficient permissions.") fallback)
      else
        denied ← match requiredPermission with
                 | Some requiredPermission =>
                     if truthy requiredPermission
                     then granted ← hasPermission requiredPermission; ret (negb granted)
                     else ret false
                 | None => ret false
                 end;
        if (denied : bool)
        then ret (default (Text "Access denied. Insufficient permissions.") fallback)
        else children
  end.

(** ** Formatters ([utils/formatters.ts]) *)

Module formatters.
(** [truncate(text, length)], for a length that is a natural number. *)
Definition truncate (text : string) (length : nat) : string :=
  if (String.length text <=? length)%nat then text
  else substring 0 length text +:+ "...".

(** [duration(minutes)], for a whole number of minutes.  In the branch
    where they are computed [minutes >= 60], so [Math.floor(minutes / 60)]
    is [minutes / 60] and [%] is the remainder. *)
Definition duration (minutes : Z) : string :=
  if minutes <? 60 then pretty minutes +:+ "m"
  else
    let hours := minutes / 60 in
    let remainingMinutes := Z.rem minutes 60 in
    if hours <? 24 then
      if 0 <? remainingMinutes
      then pretty hours +:+ "h " +:+ pretty remainingMinutes +:+ "m"
      else pretty hours +:+ "h"
    else
      let days := hours / 24 in
      let remainingHours := Z.rem hours 24 in
      if 0 <? remainingHours
      then pretty days +:+ "d " +:+ pretty remainingHours +:+ "h"
      else pretty days +:+ "d".
End formatters.

(** ** The page load *)

(** What runs when the page is loaded: the service is constructed, then
    the provider mounts. *)
Definition page_load : M unit :=
  LocalStorageService_new;;
  AuthProvider_mount.

(** The world a reload starts from: the same browser and store, the
    reducer back at its initial state. *)
Definition reloaded (w : World) : World := with_state initialState w.

(** ** The user management page ([pages/UserManagement.tsx])

    The component's state is a record; a handler takes the state of the
    render it was created in and returns the state after its updates. *)

Module UserManagement.

Record Form := mkForm {
  fullName : string;
  username : string;
  email : string;
  password : string;
  confirmPassword : string;
  role : UserRole;
  status : UserStatus
}.

Record DeleteConfirm := mkDeleteConfirm {
  isOpen : bool;
  userId : option string
}.

(** The state the handlers read and set, and the messages shown with
    [alert]. *)
Record Page := mkPage {
  users : list User.t;
  showCreateModal : bool;
  editingUser : option User.t;
  deleteConfirm : DeleteConfirm;
  newUserForm : Form;
  formErrors : gmap string string;
  showPassword : bool;
  alerts : list string
}.

Definition setUsers (v : list User.t) (p : Page) : Page :=
  mkPage v (showCreateModal p) (editingUser p) (deleteConfirm p) (newUserForm p)
         (formErrors p) (showPassword p) (alerts p).
Definition setShowCreateModal (v : bool) (p : Page) : Page :=
  mkPage (users p) v (editingUser p) (deleteConfirm p) (newUserForm p)
         (formErrors p) (showPassword p) (alerts p).
Definition setEditingUser (v : option User.t) (p : Page) : Page :=
  mkPage (users p) (showCreateModal p) v (deleteConfirm p) (newUserForm p)
         (formErrors p) (showPassword p) (alerts p).
Definition setDeleteConfirm (v : DeleteConfirm) (p : Page) : Page :=
  mkPage (users p) (showCreateModal p) (editingUser p) v (newUserForm p)
         (formErrors p) (showPassword p) (alerts p).
Definition setNewUserForm (v : Form) (p : Page) : Page :=
  mkPage (users p) (showCreateModal p) (editingUser p) (deleteConfirm p) v
         (formErrors p) (showPassword p) (alerts p).
Definition setFormErrors (v : gmap string string) (p : Page) : Page :=
  mkPage (users p) (showCreateModal p) (editingUser p) (deleteConfirm p) (newUserForm p)
         v (showPassword p) (alerts p).
Definition setShowPassword (v : bool) (p : Page) : Page :=
  mkPage (users p) (showCreateModal p) (editingUser p) (deleteConfirm p) (newUserForm p)
         (formErrors p) v (alerts p).
Definition alert (msg : string) (p : Page) : Page :=
  mkPage (users p) (showCreateModal p) (editingUser p) (deleteConfirm p) (newUserForm p)
         (formErrors p) (showPassword p) (msg :: alerts p).

(** The state of the first render. *)
Definition initialPage : Page :=
  {| users := [];
     showCreateModal := false;
     editingUser := None;
     deleteConfirm := {| isOpen := false; userId := None |};
     newUserForm := {| fullName := ""; username := ""; email := ""; password := "";
                       confirmPassword := ""; role := SupportAgent; status := Active |};
     formErrors := ∅;
     showPassword := false;
     alerts := [] |}.

Section Validation.
(** [String.prototype.trim] and the test of the e-mail pattern. *)
Context (trim : string -> string) (email_format : string -> bool).

Definition validateForm (p : Page) : bool * Page :=
  let form := newUserForm p in
  let errors : gmap string string := ∅ in
  let errors :=
    if negb (truthy (trim (fullName form)))
    then <["fullName" := "Full name is required"]> errors
    else errors in
  let errors :=
    if negb (truthy (trim (username form)))
    then <["username" := "Username is required"]> errors
    else if Array_some
              (fun u => String.eqb (User.username u) (username form) &&
                        match editingUser p with
                        | None => true
                        | Some editingUser =>
                            negb (String.eqb (User.id u) (User.id editingUser))
                        end)
              (users p)
    then <["username" := "Username already exists"]> errors
    else errors in
  let errors :=
    if negb (truthy (trim (email form)))
    then <["email" := "Email is required"]> errors
    else if negb (email_format (email form))
    then <["email" := "Invalid email format"]> errors
    else if Array_some
              (fun u => String.eqb (User.email u) (email form) &&
                        match editingUser p with
                        | None => true
                        | Some editingUser =>
                            negb (String.eqb (User.id u) (User.id editingUser))
                        end)
              (users p)
    then <["email" := "Email already exists"]> errors
    else errors in
  let errors :=
    match editingUser p with
    | Some _ => errors
    | None =>
        let errors :=
          if negb (truthy (password form))
          then <["password" := "Password is required"]> errors
          else if (String.length (password form) <? 6)%nat
          then <["password" := "Password must be at least 6 characters"]> errors
          else errors in
        if negb (String.eqb (password form) (confirmPassword form))
        then <["confirmPassword" := "Passwords do not match"]> errors
        else errors
    end in
  (Array.length (Object_keys errors) =? 0, setFormErrors errors p).

Definition resetForm (p : Page) : Page :=
  setShowPassword false
    (setFormErrors ∅
       (setNewUserForm
          {| fullName := ""; username := ""; email := ""; password := "";
             confirmPassword := ""; role := SupportAgent; status := Active |} p)).

Definition handleSubmitUser (p : Page) : M Page :=
  let '(valid, p) := validateForm p in
  if negb valid then ret p
  else
    let form := newUserForm p in
    try_catch
      (p ← match editingUser p with
           | Some editingUser =>
               updatedUser ← updateUser (User.id editingUser)
                 (User.Partial.mk None (Some (fullName form)) (Some (username form))
                    (Some (email form)) None (Some (role form)) (Some (status form))
                    None None None None None None);
               match updatedUser with
               | Some updatedUser =>
                   ret (setUsers
                          (Array_map
                             (fun u => if String.eqb (User.id u) (User.id editingUser)
                                       then updatedUser else u)
                             (users p)) p)
               | None => ret p
               end
           | None =>
               newUser ← createUser
                 (User.Draft.mk (fullName form) (username form) (email form)
                    (password form) (role form) (status form) 0 None None None);
               ret (setUsers (newUser :: users p) p)
           end;
       ret (setEditingUser None (setShowCreateModal false (resetForm p))))
      (fun error =>
         console_error "Error saving user:";;
         ret (alert "Error saving user. Please try again." p)).
End Validation.

Definition handleEditUser (user : User.t) (p : Page) : Page :=
  setShowCreateModal true
    (setNewUserForm
       {| fullName := User.fullName user; username := User.username user;
          email := User.email user; password := ""; confirmPassword := "";
          role := User.role user; status := User.status user |}
       (setEditingUser (Some user) p)).

Definition handleDeleteUser (userId : string) (p : Page) : Page :=
  setDeleteConfirm {| isOpen := true; userId := Some userId |} p.

Definition confirmDeleteUser (p : Page) : M Page :=
  p' ← match userId (deleteConfirm p) with
       | Some id =>
           if truthy id then
             success ← deleteUser id;
             if (success : bool)
             then ret (setUsers
                         (Array.filter (fun u => negb (String.eqb (User.id u) id)) (users p))
                         p)
             else ret p
           else ret p
       | None => ret p
       end;
  ret (setDeleteConfirm {| isOpen := false; userId := None |} p').

Definition handleToggleUserStatus (userId : string) (currentStatus : UserStatus)
    (p : Page) : M Page :=
  let newStatus := if status_is currentStatus "Active" then Locked else Active in
  updatedUser ← updateUser userId (User.Partial.with_status newStatus User.Partial.empty);
  match updatedUser with
  | Some updatedUser =>
      ret (setUsers
             (Array_map (fun u => if String.eqb (User.id u) userId then updatedUser else u)
                        (users p)) p)
  | None => ret p
  end.
End UserManagement.

(** ** The tickets page ([SupportTickets] in [pages/Terminals.tsx])

    A handler takes the tickets of the render it was created in and
    returns the tickets after its update. *)

Module SupportTickets.
Section Host.
(** The time value of a date string. *)
Context (Date_parse : string -> Z).

(** [new Date(d).getTime()] *)
Definition getTime (d : Date) : Z :=
  match d with
  | DateOf literal => Date_parse literal
  | DateAt ms => ms
  end.

Definition handleAssignTicket (ticketId userId : string) (tickets : list SupportTicket.t)
    : M (list SupportTicket.t) :=
  updatedTicket ← updateTicket ticketId
    (SupportTicket.Partial.mk None None None None None (Some InProgress) None None
       (Some (Some userId)) None None None None None None None None None None);
  match updatedTicket with
  | Some updatedTicket =>
      ret (Array_map
             (fun t => if String.eqb (SupportTicket.id t) ticketId then updatedTicket else t)
             tickets)
  | None => ret tickets
  end.

Definition handleUpdateStatus (ticketId : string) (newStatus : TicketStatus)
    (tickets : list SupportTicket.t) : M (list SupportTicket.t) :=
  updates ←
    match newStatus with
    | Resolved =>
        resolvedAt ← new_Date;
        match Array.find (fun t => String.eqb (SupportTicket.id t) ticketId) tickets with
        | Some ticket =>
            now ← new_Date;
            ret (SupportTicket.Partial.mk None None None None None (Some newStatus) None None
                   None None None (Some (Some resolvedAt)) None None None None
                   (Some (Some ((getTime now - getTime (SupportTicket.createdAt ticket))
                                / 60000)))
                   None None)
        | None =>
            ret (SupportTicket.Partial.mk None None None None None (Some newStatus) None None
                   None None None (Some (Some resolvedAt)) None None None None None
                   None None)
        end
    | _ =>
        ret (SupportTicket.Partial.mk None None None None None (Some newStatus) None None
               None None None None None None None None None None None)
    end;
  updatedTicket ← updateTicket ticketId updates;
  match updatedTicket with
  | Some updatedTicket =>
      ret (Array_map
             (fun t => if String.eqb (SupportTicket.id t) ticketId then updatedTicket else t)
             tickets)
  | None => ret tickets
  end.
End Host.
End SupportTickets.

(** ** The terminals page ([Terminals] in [pages/Terminals.tsx]) *)

Module Terminals.
(** The selection after the toggle. *)
Definition toggleTerminalSelection (terminalId : string) (prev : list string)
    : list string :=
  if Array.includes prev terminalId
  then Array.filter (fun id => negb (String.eqb id terminalId)) prev
  else (prev ++ [terminalId])%list.

(** The selection and the terminals after the bulk restart. *)
Definition handleBulkRestart (selectedTerminals : list string)
    : M (list string * list Terminal.t) :=
  forEach selectedTerminals
    (fun terminalId =>
       lastSeen ← new_Date;
       updateTerminal terminalId (Terminal.Partial.status_lastSeen Maintenance lastSeen);;
       ret tt);;
  terminals ← getAccessibleTerminals;
  ret ([], terminals).
End Terminals.

(** ** The dashboard ([pages/Dashboard.tsx]) *)

Module Dashboard.
Record Data := mkData {
  totalTerminals : Z;
  onlineTerminals : Z;
  offlineTerminals : Z;
  maintenanceTerminals : Z;
  errorTerminals : Z;
  onlinePercentage : Z;
  avgUptime : Z;
  avgResolutionTime : Q;
  slaCompliance : Z;
  issuesDetected : Z;
  scheduledMaintenance : Z;
  peakHours : string;
  totalTickets : Z;
  openTickets : Z;
  inProgressTickets : Z;
  resolvedTickets : Z;
  scheduledTickets : Z
}.

(** [t.status === s] for a terminal and for a ticket *)
Definition terminal_is (s : TerminalStatus) (t : Terminal.t) : bool :=
  match Terminal.status t, s with
  | Online, Online | Offline, Offline | Maintenance, Maintenance | Error, Error => true
  | _, _ => false
  end.
Definition ticket_is (s : TicketStatus) (t : SupportTicket.t) : bool :=
  match SupportTicket.status t, s with
  | Open, Open | InProgress, InProgress | Resolved, Resolved | Closed, Closed
  | Scheduled, Scheduled => true
  | _, _ => false
  end.

(** [arr.reduce((sum, x) => sum + f(x), 0)] *)
Definition sum {A} (f : A -> Q) (arr : list A) : Q :=
  fold_left (fun sum x => (sum + f x)%Q) arr 0%Q.

(** The KPIs computed from the terminals and tickets of the page. *)
Definition dashboardData (terminals : list Terminal.t) (tickets : list SupportTicket.t)
    : Data :=
  let totalTerminals := Array.length terminals in
  let onlineTerminals := Array.length (Array.filter (terminal_is Online) terminals) in
  let offlineTerminals := Array.length (Array.filter (terminal_is Offline) terminals) in
  let maintenanceTerminals :=
    Array.length (Array.filter (terminal_is Maintenance) terminals) in
  let errorTerminals := Array.length (Array.filter (terminal_is Error) terminals) in
  let onlinePercentage :=
    if 0 <? totalTerminals
    then Math_round (inject_Z onlineTerminals / inject_Z totalTerminals * 100)%Q
    else 0 in
  let avgUptime :=
    if 0 <? totalTerminals
    then Math_round (sum Terminal.uptime terminals / inject_Z totalTerminals)%Q
    else 0 in
  let openTickets := Array.length (Array.filter (ticket_is Open) tickets) in
  let inProgressTickets := Array.length (Array.filter (ticket_is InProgress) tickets) in
  let resolvedTickets := Array.length (Array.filter (ticket_is Resolved) tickets) in
  let scheduledTickets := Array.length (Array.filter (ticket_is Scheduled) tickets) in
  let recentResolvedTickets :=
    Array.filter
      (fun t => ticket_is Resolved t &&
                match SupportTicket.resolutionTime t with
                | Some n => negb (n =? 0)
                | None => false
                end)
      tickets in
  let avgResolutionTime :=
    if 0 <? Array.length recentResolvedTickets
    then inject_Z
           (Math_round
              (sum (fun t => inject_Z (default 0%Z (SupportTicket.resolutionTime t)))
                   recentResolvedTickets
               / inject_Z (Array.length recentResolvedTickets) / 60)%Q)
    else (7 # 2)%Q in
  let totalSLATickets :=
    Array.length (Array.filter (fun t => negb (ticket_is Open t)) tickets) in
  let slaCompliantTickets :=
    Array.length
      (Array.filter
         (fun t => negb (SupportTicket.slaBreach t) && negb (ticket_is Open t)) tickets) in
  let slaCompliance :=
    if 0 <? totalSLATickets
    then Math_round (inject_Z slaCompliantTickets / inject_Z totalSLATickets * 100)%Q
    else 94 in
  let issuesDetected := offlineTerminals + errorTerminals in
  {| totalTerminals := totalTerminals;
     onlineTerminals := onlineTerminals;
     offlineTerminals := offlineTerminals;
     maintenanceTerminals := maintenanceTerminals;
     errorTerminals := errorTerminals;
     onlinePercentage := onlinePercentage;
     avgUptime := avgUptime;
     avgResolutionTime := avgResolutionTime;
     slaCompliance := slaCompliance;
     issuesDetected := issuesDetected;
     scheduledMaintenance := maintenanceTerminals;
     peakHours := "9AM-12PM";
     totalTickets := Array.length tickets;
     openTickets := openTickets;
     inProgressTickets := inProgressTickets;
     resolvedTickets := resolvedTickets;
     scheduledTickets := scheduledTickets |}.

(** The KPIs of the first render after the data is loaded. *)
Definition load : M Data :=
  terminals ← getAccessibleTerminals;
  tickets ← getAccessibleTickets;
  metrics ← getMetrics;
  ret (dashboardData terminals tickets).
End Dashboard.

(** ** Vocabulary of the statements *)

(** The collections as they are stored. *)
Definition stored_users (w : World) : list User.t :=
  default [] (users_item (localStorage w)).
Definition stored_terminals (w : World) : list Terminal.t :=
  default [] (terminals_item (localStorage w)).
Definition stored_tickets (w : World) : list SupportTicket.t :=
  default [] (tickets_item (localStorage w)).

(** The backing store accepts every write. *)
Definition healthy (w : World) : Prop := forall n, accepts (env w) n = true.

(** The same browser with a backing store that accepts every write. *)
Definition unlimited (w : World) : World :=
  with_env {| clock := clock (env w); random := random (env w);
              radix36 := radix36 (env w); isoDate := isoDate (env w);
              accepts := fun _ => true |} w.

(** [x] is at index [i] and is the first element that satisfies [p]. *)
Definition first_at {A} (p : A -> bool) (l : list A) (i : nat) (x : A) : Prop :=
  l !! i = Some x /\ p x = true /\
  forall j y, (j < i)%nat -> l !! j = Some y -> p y = false.

Definition has_id (id : string) (user : User.t) : bool := String.eqb (User.id user) id.
Definition has_username (name : string) (user : User.t) : bool :=
  String.eqb (User.username user) name.
Definition terminal_has_id (id : string) (terminal : Terminal.t) : bool :=
  String.eqb (Terminal.id terminal) id.
Definition ticket_has_id (id : string) (ticket : SupportTicket.t) : bool :=
  String.eqb (SupportTicket.id ticket) id.

(** [m] completes normally from [w], with a value and a world that satisfy [Q]. *)
Definition wp {A} (m : M A) (Q : A -> World -> Prop) (w : World) : Prop :=
  match m w with
  | (Normal a, w') => Q a w'
  | (Thrown _, _) => False
  end.

(** [w'] is [w] after more calls of [localStorage] methods, all allowed by [S]. *)
Definition extends (S : Access -> Prop) (w w' : World) : Prop :=
  exists new, accesses w' = (new ++ accesses w)%list /\ Forall S new.

(** [m] never throws and calls [localStorage] only as [S] allows. *)
Definition within (S : Access -> Prop) {A} (m : M A) : Prop :=
  forall w, wp m (fun _ w' => extends S w w') w.

(** The keys under which values are read and written. *)
Definition data_keys : list string :=
  map STORAGE_KEYS [USERS; TERMINALS; TICKETS; ALERTS; METRICS; CURRENT_USER].

(** An access that reads or writes a value ([getItem], [setItem]) is under
    one of the data keys. *)
Definition on_data_keys (a : Access) : Prop :=
  fst a = RemoveItem \/ In (snd a) data_keys.

(** What a call of the service may do to [localStorage]: read, write or
    remove one of the six data keys; [clearAllData] also removes the
    comments key. *)
Definition allowed (c : StoreCall) (a : Access) : Prop :=
  In (snd a) data_keys \/
  (a = (RemoveItem, STORAGE_KEYS COMMENTS) /\ c = Call_clearAllData).

(** What a mutating call does to the console and the store when it
    serialises, by whether the write is accepted. *)
Definition logged (w w' : World) : Prop :=
  (writes w' = writes w /\ console w' = console w) \/
  (writes w' = S (writes w) /\
   if accepts (env w) (writes w)
   then console w' = console w
   else console w' = "Error saving to localStorage:" :: console w /\
        localStorage w' = localStorage w).

(** The demo page with the merchant, and with the administrator, signed in;
    and with the administrator's record deleted while signed in. *)
Definition merchant_world : World :=
  after (login "merchant.mutasa" "merchant123") demo_world.
Definition admin_world : World :=
  after (login "admin.mukamuri" "admin123") demo_world.
Definition dangling_world : World :=
  after (deleteUser "user-admin-001") admin_world.

(** The demo page after two failed attempts on the administrator's account. *)
Definition two_failures_world : World :=
  after (login "admin.mukamuri" "letmein")
        (after (login "admin.mukamuri" "password") demo_world).

(** The demo page on a browser whose storage refuses every write after the
    service was constructed. *)
Definition full_world : World := with_env full_env demo_world.

(** The page of [two_failures_world] on such a browser. *)
Definition full_two_failures_world : World := with_env full_env two_failures_world.

(** The demo page with the merchant signed in, after the stored record of
    that account was given the Support Agent role (as the user management
    page of another tab, which shares [localStorage], does). *)
Definition regraded_world : World :=
  after (updateUser "user-merchant-001"
           (User.Partial.mk None None None None None (Some SupportAgent) None None
                            None None None None None))
        merchant_world.

(** ** More vocabulary *)

(** [m] never throws and relates the world it starts from to the one it
    leaves by [R]. *)
Definition keeps (R : World -> World -> Prop) {A} (m : M A) : Prop :=
  forall w, wp m (fun _ w' => R w w') w.

(** Only the clock and the random source may have advanced. *)
Definition quiet (w w' : World) : Prop :=
  localStorage w' = localStorage w /\ env w' = env w /\ state w' = state w /\
  console w' = console w /\ writes w' = writes w.

(** Every item that held a value (for a collection, an array: an empty
    one too), and the session and comments items whether present or not,
    are as they were. *)
Definition present_items_kept (w w' : World) : Prop :=
  forall k,
    item (localStorage w) k <> None \/ k = CURRENT_USER \/ k = COMMENTS ->
    item (localStorage w') k = item (localStorage w) k.

(** A write of [k] alone: every other item is as before. *)
Definition writes_only (k : StorageKey) (write : M unit) : Prop :=
  forall w,
    wp write
       (fun _ w' => forall k', k' <> k -> item (localStorage w') k' = item (localStorage w) k')
       w.


(** The fields a rejected password changes in the stored record: the
    counter, and the status when the new count reaches 3. *)
Definition rejected_updates (attempts : Z) : User.Partial.t :=
  if 3 <=? attempts + 1
  then User.Partial.with_status Locked
         (User.Partial.with_failedLoginAttempts (attempts + 1) User.Partial.empty)
  else User.Partial.with_failedLoginAttempts (attempts + 1) User.Partial.empty.

(** The fields an accepted password changes in the stored record. *)
Definition accepted_updates (lastLogin : Date) : User.Partial.t :=
  User.Partial.with_failedLoginAttempts 0
    (User.Partial.with_lastLogin (Some lastLogin) User.Partial.empty).

(** What [login(username, password)] returns and leaves behind, by the
    branch it takes.  [user] is the record the username resolves to and
    [old] the first record with that record's id, at index [i]. *)
Inductive login_outcome (username password : string) (w : World) : bool -> World -> Prop :=
| login_unknown w' :
    Array.find (has_username username) (stored_users w) = None ->
    localStorage w' = localStorage w ->
    currentUser (state w') = None ->
    error (state w') = Some "User not found" ->
    login_outcome username password w false w'
| login_locked_out user w' :
    Array.find (has_username username) (stored_users w) = Some user ->
    User.status user = Locked ->
    localStorage w' = localStorage w ->
    currentUser (state w') = None ->
    error (state w') = Some "Account is locked. Contact administrator." ->
    login_outcome username password w false w'
| login_rejected user i old w' :
    Array.find (has_username username) (stored_users w) = Some user ->
    User.status user = Active ->
    User.password user <> password ->
    first_at (has_id (User.id user)) (stored_users w) i old ->
    (forall k, k <> USERS -> item (localStorage w') k = item (localStorage w) k) ->
    currentUser (state w') = None ->
    (healthy w ->
     exists now,
       stored_users w' =
         <[i := User.assign old (rejected_updates (User.failedLoginAttempts user)) now]>
           (stored_users w)) ->
    login_outcome username password w false w'
| login_accepted user i old w' :
    Array.find (has_username username) (stored_users w) = Some user ->
    User.status user = Active ->
    User.password user = password ->
    first_at (has_id (User.id user)) (stored_users w) i old ->
    (forall k, k <> USERS -> k <> CURRENT_USER ->
               item (localStorage w') k = item (localStorage w) k) ->
    (exists now,
       currentUser (state w') =
         Some (User.assign old (accepted_updates (DateAt (clock (env w) (ticks w)))) now) /\
       (healthy w ->
        stored_users w' =
          <[i := User.assign old (accepted_updates (DateAt (clock (env w) (ticks w)))) now]>
            (stored_users w) /\
        current_user_item (localStorage w') =
          Some (User.assign old (accepted_updates (DateAt (clock (env w) (ticks w)))) now))) ->
    login_outcome username password w true w'.

(** The browser and the reducer's state are as they were. *)
Definition same_session (w w' : World) : Prop :=
  env w' = env w /\ state w' = state w.

(** No stored account has reached three failed attempts without being
    locked. *)
Definition locked_at_three (users : list User.t) : Prop :=
  forall user, In user users ->
               3 <= User.failedLoginAttempts user -> User.status user = Locked.

(** What a bulk restart of the terminals [selected] leaves of a stored
    terminal. *)
Definition restarted (selected : list string) (before after : Terminal.t) : Prop :=
  Terminal.id after = Terminal.id before /\
  (In (Terminal.id before) selected -> Terminal.status after = Maintenance) /\
  (~ In (Terminal.id before) selected -> after = before).

(** [Math.random()] returns a number in [[0, 1)]. *)
Definition unit_random (e : Env) : Prop :=
  forall n, (0 <= random e n)%Q /\ (random e n < 1)%Q.

(** The ranges the sample metrics stay in: for a draw [r] in [[0, 1)] and
    a figure computed as [r * a + b], the closed range from [b] to
    [a + b].  The ends are included because the source computes in
    doubles, where [r * a + b] can round up to [a + b]; the measures here
    are exact, and stay in the same ranges. *)
Definition plausible (m : PerformanceMetrics.t) : Prop :=
  PerformanceMetrics.totalTerminals m = 20 /\
  12 <= PerformanceMetrics.onlineTerminals m <= 20 /\
  0 <= PerformanceMetrics.offlineTerminals m <= 4 /\
  0 <= PerformanceMetrics.maintenanceTerminals m <= 3 /\
  0 <= PerformanceMetrics.errorTerminals m <= 3 /\
  (80 <= PerformanceMetrics.averageUptime m <= 100)%Q /\
  5 <= PerformanceMetrics.totalTickets m <= 20 /\
  2 <= PerformanceMetrics.openTickets m <= 10 /\
  3 <= PerformanceMetrics.resolvedTickets m <= 13 /\
  (60 <= PerformanceMetrics.averageResolutionTime m <= 300)%Q /\
  (85 <= PerformanceMetrics.slaCompliance m <= 100)%Q /\
  (4 <= PerformanceMetrics.customerSatisfaction m <= 5)%Q.

(** ** More sample data *)

(** The demo page after three failed attempts on the administrator's
    account. *)
Definition locked_world : World :=
  after (login "admin.mukamuri" "guess") two_failures_world.

(** A new support agent, and a new ticket for the merchant's terminal. *)
Definition new_agent : User.Draft.t :=
  {| User.Draft.fullName := "Rudo Chari";
     User.Draft.username := "support.chari";
     User.Draft.email := "support.chari@stanbic.co.zw";
     User.Draft.password := "support456";
     User.Draft.role := SupportAgent;
     User.Draft.status := Active;
     User.Draft.failedLoginAttempts := 0;
     User.Draft.lastLogin := None;
     User.Draft.assignedTerminals := None;
     User.Draft.permissions := None |}.

Definition new_ticket : SupportTicket.Draft.t :=
  {| SupportTicket.Draft.title := "Card reader error";
     SupportTicket.Draft.description := "The reader rejects every card";
     SupportTicket.Draft.terminalId := "T001";
     SupportTicket.Draft.priority := Medium;
     SupportTicket.Draft.status := Open;
     SupportTicket.Draft.source := SourceMerchant;
     SupportTicket.Draft.reportedBy := "user-merchant-001";
     SupportTicket.Draft.assignedTo := None;
     SupportTicket.Draft.resolvedAt := None;
     SupportTicket.Draft.slaTarget := DateAt 1756940713000;
     SupportTicket.Draft.slaBreach := false;
     SupportTicket.Draft.slaBreachDuration := 0;
     SupportTicket.Draft.resolution := None;
     SupportTicket.Draft.resolutionTime := None;
     SupportTicket.Draft.satisfactionRating := None;
     SupportTicket.Draft.feedback := None |}.

(** The user management page of the demo, once its users are loaded; with
    the form filled in for the new agent; and with the administrator's
    record open in the form. *)
Definition users_page : UserManagement.Page :=
  UserManagement.setUsers (stored_users demo_world) UserManagement.initialPage.

Definition new_agent_page : UserManagement.Page :=
  UserManagement.setNewUserForm
    {| UserManagement.fullName := "Rudo Chari";
       UserManagement.username := "support.chari";
       UserManagement.email := "support.chari@stanbic.co.zw";
       UserManagement.password := "support456";
       UserManagement.confirmPassword := "support456";
       UserManagement.role := SupportAgent;
       UserManagement.status := Active |}
    users_page.

Definition edit_admin_page : UserManagement.Page :=
  UserManagement.handleEditUser sample_admin users_page.

(** Projections of an updated world. *)
Ltac world_simpl :=
  unfold stored_users, stored_terminals, stored_tickets in *;
  cbn [env localStorage console accesses state ticks draws writes
       touched with_storage with_console with_accesses with_state with_ticks
       with_draws with_writes with_env
       put_item item users_item terminals_item tickets_item comments_item
       alerts_item metrics_item current_user_item default from_option] in *.

(** * Properties *)

(** ** Arrays *)

Section ArrayFacts.
Context {A : Type} (p : A -> bool).

Lemma first_at_find (l : list A) i x : first_at p l i x -> Array.find p l = Some x.
Proof.
  revert i. induction l as [|y l IH]; intros i (Hi & Hp & Hlt); [done|].
  cbn [Array.find]. destruct i as [|i]; cbn in Hi.
  - injection Hi as ->. by rewrite Hp.
  - rewrite (Hlt O y); [|lia|done]. apply (IH i). repeat split; [done..|].
    intros j z Hj Hz. apply (Hlt (S j) z); [lia|done].
Qed.

Lemma first_at_findIndex (l : list A) i x :
  first_at p l i x -> Array.findIndex p l = Z.of_nat i.
Proof.
  revert i. induction l as [|y l IH]; intros i (Hi & Hp & Hlt); [done|].
  cbn [Array.findIndex]. destruct i as [|i]; cbn in Hi.
  - injection Hi as ->. by rewrite Hp.
  - rewrite (Hlt O y); [|lia|done].
    rewrite (IH i).
    + destruct (Z.eqb_spec (Z.of_nat i) (-1)); lia.
    + repeat split; [done..|]. intros j z Hj Hz. apply (Hlt (S j) z); [lia|done].
Qed.

Lemma find_first_at (l : list A) x :
  Array.find p l = Some x -> exists i, first_at p l i x.
Proof.
  induction l as [|y l IH]; [done|]. cbn [Array.find].
  destruct (p y) eqn:Hy.
  - intros [= ->]. exists O. repeat split; [done|]. intros; lia.
  - intros H. destruct (IH H) as (i & Hi & Hp & Hlt). exists (S i).
    repeat split; [done..|]. intros [|j] z Hj Hz; cbn in Hz.
    + by injection Hz as <-.
    + apply (Hlt j z); [lia|done].
Qed.

Lemma find_None_findIndex (l : list A) :
  Array.find p l = None -> Array.findIndex p l = -1.
Proof.
  induction l as [|y l IH]; [done|]. cbn [Array.find Array.findIndex].
  destruct (p y); [done|]. intros H. by rewrite (IH H).
Qed.

Lemma first_at_insert (l : list A) i x y :
  first_at p l i x -> p y = true -> first_at p (<[i:=y]> l) i y.
Proof.
  intros (Hi & Hp & Hlt) Hy. repeat split; [|done|].
  - apply list_lookup_insert_eq. by eapply lookup_lt_Some.
  - intros j z Hj Hz. rewrite list_lookup_insert_ne in Hz by lia. by apply (Hlt j z).
Qed.

Lemma first_at_lookup (l : list A) i x : first_at p l i x -> l !! i = Some x.
Proof. by intros (? & _). Qed.
End ArrayFacts.

Example findIndex_first_match : Array.findIndex (String.eqb "b") ["a"; "b"; "b"] = 1.
Proof. reflexivity. Qed.

Example findIndex_no_match : Array.findIndex (String.eqb "c") ["a"; "b"] = -1.
Proof. reflexivity. Qed.

Example find_first_match :
  Array.find (fun x : string * Z => String.eqb (fst x) "b") [("a", 1); ("b", 2); ("b", 3)]
  = Some ("b", 2).
Proof. reflexivity. Qed.

(** Two keys that both single out the record [x] single it out at one index. *)
Lemma first_at_agree {A} (p q : A -> bool) (l : list A) i j x :
  first_at p l i x -> first_at q l j x -> i = j.
Proof.
  intros (Hi & Hp & Hlt) (Hj & Hq & Hlt').
  destruct (lt_eq_lt_dec i j) as [[Hlt1|]|Hlt1]; [|done|].
  - rewrite (Hlt' i x Hlt1 Hi) in Hq. done.
  - rewrite (Hlt j x Hlt1 Hj) in Hp. done.
Qed.

Lemma includes_In (arr : list string) (x : string) :
  Array.includes arr x = true <-> In x arr.
Proof.
  unfold Array.includes. rewrite existsb_exists. split.
  - intros (y & Hy & Heq). apply String.eqb_eq in Heq. by subst.
  - intros H. exists x. split; [done|]. apply String.eqb_refl.
Qed.

Lemma role_is_Merchant (r : UserRole) : role_is r "Merchant" = true <-> r = Merchant.
Proof. by destruct r. Qed.

Lemma status_is_Locked (s : UserStatus) : status_is s "Locked" = true <-> s = Locked.
Proof. by destruct s. Qed.

(** ** The calculus of computations *)

Lemma wp_ret {A} (a : A) Q w : Q a w -> wp (ret a) Q w.
Proof. done. Qed.

Lemma wp_bind {A B} (m : M A) (k : A -> M B) Q w :
  wp m (fun a w' => wp (k a) Q w') w -> wp (m ≫= k) Q w.
Proof.
  unfold wp, mbind, M_bind, bind. by destruct (m w) as [[a|e] w'].
Qed.

Lemma wp_mono {A} (m : M A) (Q Q' : A -> World -> Prop) w :
  wp m Q w -> (forall a w', Q a w' -> Q' a w') -> wp m Q' w.
Proof. unfold wp. destruct (m w) as [[a|e] w']; [auto|done]. Qed.

Lemma wp_try {A} (body : M A) handler Q w :
  wp body Q w -> wp (try_catch body handler) Q w.
Proof. unfold wp, try_catch. by destruct (body w) as [[a|e] w']. Qed.

Lemma wp_elim {A} (m : M A) Q w :
  wp m Q w -> exists a, result m w = Normal a /\ Q a (after m w).
Proof.
  unfold wp, result, after. destruct (m w) as [[a|e] w']; [|done]. by exists a.
Qed.

(** *** The storage methods *)

Lemma wp_getItem k Q w :
  Q (item (localStorage w) k) (touched GetItem k w) -> wp (getItem k) Q w.
Proof. done. Qed.

Lemma wp_removeItem k Q w :
  Q tt (with_storage (put_item (localStorage w) k None) (touched RemoveItem k w)) ->
  wp (removeItem k) Q w.
Proof. done. Qed.

(** [setItem] never throws.  An accepted write replaces the item; a refused
    one leaves the store as it was and logs a line. *)
Lemma wp_setItem k data (Q : unit -> World -> Prop) w :
  (accepts (env w) (writes w) = true ->
   Q tt (with_storage (put_item (localStorage w) k (Some data))
           (with_writes (S (writes w)) (touched SetItem k w)))) ->
  (accepts (env w) (writes w) = false ->
   Q tt (with_console ("Error saving to localStorage:" :: console w)
           (with_writes (S (writes w)) (touched SetItem k w)))) ->
  wp (setItem k data) Q w.
Proof.
  unfold wp, setItem, try_catch, localStorage_setItem, console_error.
  destruct (accepts (env w) (writes w)); cbn; auto.
Qed.

Lemma wp_new_Date Q w :
  Q (DateAt (clock (env w) (ticks w))) (with_ticks (S (ticks w)) w) -> wp new_Date Q w.
Proof. done. Qed.

Lemma wp_dispatch action Q w :
  Q tt (with_state (authReducer (state w) action) w) -> wp (dispatch action) Q w.
Proof. done. Qed.

Lemma wp_getUsers Q w :
  Q (stored_users w) (touched GetItem USERS w) -> wp getUsers Q w.
Proof. done. Qed.

Lemma wp_getTerminals Q w :
  Q (stored_terminals w) (touched GetItem TERMINALS w) -> wp getTerminals Q w.
Proof. done. Qed.

Lemma wp_getTickets Q w :
  Q (stored_tickets w) (touched GetItem TICKETS w) -> wp getTickets Q w.
Proof. done. Qed.

Lemma wp_getUserById id Q w :
  Q (Array.find (has_id id) (stored_users w)) (touched GetItem USERS w) ->
  wp (getUserById id) Q w.
Proof. done. Qed.

Lemma wp_getUserByUsername name Q w :
  Q (Array.find (has_username name) (stored_users w)) (touched GetItem USERS w) ->
  wp (getUserByUsername name) Q w.
Proof. done. Qed.

Lemma getUserById_result id w :
  result (getUserById id) w = Normal (Array.find (has_id id) (stored_users w)).
Proof. done. Qed.

Lemma getUserByUsername_result name w :
  result (getUserByUsername name) w = Normal (Array.find (has_username name) (stored_users w)).
Proof. done. Qed.

Lemma getUsers_result w : result getUsers w = Normal (stored_users w).
Proof. done. Qed.

Lemma getTerminals_result w : result getTerminals w = Normal (stored_terminals w).
Proof. done. Qed.

Lemma getTickets_result w : result getTickets w = Normal (stored_tickets w).
Proof. done. Qed.

(** *** The update methods

    When the id is found, an update returns the merged record; the stored
    collection has it in place of the old one if the write was accepted and
    is unchanged otherwise. *)

Lemma wp_updateUser w id updates i old (Q : option User.t -> World -> Prop) :
  first_at (has_id id) (stored_users w) i old ->
  (forall w',
     env w' = env w -> state w' = state w -> ticks w' = S (ticks w) ->
     localStorage w' =
       (if accepts (env w) (writes w)
        then put_item (localStorage w) USERS
               (Some (<[i := User.assign old updates (DateAt (clock (env w) (ticks w)))]>
                        (stored_users w)))
        else localStorage w) ->
     Q (Some (User.assign old updates (DateAt (clock (env w) (ticks w))))) w') ->
  wp (updateUser id updates) Q w.
Proof.
  intros Hat HQ.
  pose proof (first_at_findIndex _ _ _ _ Hat) as Hidx.
  pose proof (first_at_lookup _ _ _ _ Hat) as Hi.
  unfold updateUser. apply wp_bind, wp_getUsers.
  change (fun user => String.eqb (User.id user) id) with (has_id id).
  rewrite Hidx. destruct (Z.eqb_spec (Z.of_nat i) (-1)); [lia|].
  unfold Array.get, Array.set. rewrite Nat2Z.id, Hi.
  apply wp_bind, wp_new_Date, wp_bind, wp_setItem; cbn; intros Hacc;
    apply wp_ret; rewrite list_lookup_insert_eq by (by eapply lookup_lt_Some);
    apply HQ; cbn; by rewrite ?Hacc.
Qed.

Lemma wp_updateTerminal w id updates i old (Q : option Terminal.t -> World -> Prop) :
  first_at (terminal_has_id id) (stored_terminals w) i old ->
  (forall w',
     env w' = env w -> state w' = state w -> ticks w' = S (ticks w) ->
     localStorage w' =
       (if accepts (env w) (writes w)
        then put_item (localStorage w) TERMINALS
               (Some (<[i := Terminal.assign old updates (DateAt (clock (env w) (ticks w)))]>
                        (stored_terminals w)))
        else localStorage w) ->
     Q (Some (Terminal.assign old updates (DateAt (clock (env w) (ticks w))))) w') ->
  wp (updateTerminal id updates) Q w.
Proof.
  intros Hat HQ.
  pose proof (first_at_findIndex _ _ _ _ Hat) as Hidx.
  pose proof (first_at_lookup _ _ _ _ Hat) as Hi.
  unfold updateTerminal. apply wp_bind, wp_getTerminals.
  change (fun terminal => String.eqb (Terminal.id terminal) id) with (terminal_has_id id).
  rewrite Hidx. destruct (Z.eqb_spec (Z.of_nat i) (-1)); [lia|].
  unfold Array.get, Array.set. rewrite Nat2Z.id, Hi.
  apply wp_bind, wp_new_Date, wp_bind, wp_setItem; cbn; intros Hacc;
    apply wp_ret; rewrite list_lookup_insert_eq by (by eapply lookup_lt_Some);
    apply HQ; cbn; by rewrite ?Hacc.
Qed.

Lemma wp_updateTicket w id updates i old (Q : option SupportTicket.t -> World -> Prop) :
  first_at (ticket_has_id id) (stored_tickets w) i old ->
  (forall w',
     env w' = env w -> state w' = state w -> ticks w' = S (ticks w) ->
     localStorage w' =
       (if accepts (env w) (writes w)
        then put_item (localStorage w) TICKETS
               (Some (<[i := SupportTicket.assign old updates
                               (DateAt (clock (env w) (ticks w)))]>
                        (stored_tickets w)))
        else localStorage w) ->
     Q (Some (SupportTicket.assign old updates (DateAt (clock (env w) (ticks w))))) w') ->
  wp (updateTicket id updates) Q w.
Proof.
  intros Hat HQ.
  pose proof (first_at_findIndex _ _ _ _ Hat) as Hidx.
  pose proof (first_at_lookup _ _ _ _ Hat) as Hi.
  unfold updateTicket. apply wp_bind, wp_getTickets.
  change (fun ticket => String.eqb (SupportTicket.id ticket) id) with (ticket_has_id id).
  rewrite Hidx. destruct (Z.eqb_spec (Z.of_nat i) (-1)); [lia|].
  unfold Array.get, Array.set. rewrite Nat2Z.id, Hi.
  apply wp_bind, wp_new_Date, wp_bind, wp_setItem; cbn; intros Hacc;
    apply wp_ret; rewrite list_lookup_insert_eq by (by eapply lookup_lt_Some);
    apply HQ; cbn; by rewrite ?Hacc.
Qed.

(** ** Login *)

Lemma assign_failedLoginAttempts u n p now :
  User.failedLoginAttempts (User.assign u (User.Partial.with_failedLoginAttempts n p) now) = n.
Proof. reflexivity. Qed.

Section Login.
Context (w : World) (i : nat) (u : User.t).
Hypothesis Hhealthy : healthy w.
Hypothesis Hname : first_at (has_username (User.username u)) (stored_users w) i u.
Hypothesis Hid : first_at (has_id (User.id u)) (stored_users w) i u.

(** A locked account: the call fails and writes nothing. *)
Lemma login_locked (password : string) :
  User.status u = Locked ->
  wp (login (User.username u) password)
     (fun r w' => r = false /\ localStorage w' = localStorage w /\ env w' = env w) w.
Proof using Hname.
  intros Hst. unfold login.
  apply wp_bind, wp_dispatch, wp_try, wp_bind, wp_getUserByUsername.
  world_simpl.
  rewrite (first_at_find _ _ _ _ Hname), Hst.
  change (status_is Locked "Locked") with true. cbv iota.
  by apply wp_bind, wp_dispatch, wp_ret.
Qed.

(** A wrong password on an account that is not locked: the counter of the
    stored record goes up by one, and the record is locked when the new
    count is 3 or more. *)
Lemma login_wrong_password (password : string) :
  User.status u = Active ->
  password <> User.password u ->
  wp (login (User.username u) password)
     (fun r w' =>
        r = false /\ env w' = env w /\
        exists u',
          stored_users w' = <[i := u']> (stored_users w) /\
          User.id u' = User.id u /\
          User.username u' = User.username u /\
          User.password u' = User.password u /\
          User.failedLoginAttempts u' = User.failedLoginAttempts u + 1 /\
          User.status u' =
            if 3 <=? User.failedLoginAttempts u + 1 then Locked else Active) w.
Proof using Hhealthy Hname Hid.
  intros Hst Hpw. unfold login.
  apply wp_bind, wp_dispatch, wp_try, wp_bind, wp_getUserByUsername.
  world_simpl.
  rewrite (first_at_find _ _ _ _ Hname), Hst.
  change (status_is Active "Locked") with false. cbv iota.
  destruct (String.eqb_spec (User.password u) password) as [|_]; [congruence|].
  cbn [negb]. apply wp_bind.
  eapply wp_updateUser; [exact Hid|].
  intros w1 Henv1 Hstate1 Hticks1 Hls1. world_simpl. rewrite Hhealthy in Hls1.
  apply wp_bind. rewrite assign_failedLoginAttempts.
  destruct (Z.leb_spec 3 (User.failedLoginAttempts u + 1)) as [Hge|Hlt].
  - apply wp_bind.
    eapply wp_updateUser with (i := i).
    + world_simpl. rewrite Hls1. world_simpl.
      eapply first_at_insert; [exact Hid|]. apply String.eqb_refl.
    + intros w2 Henv2 _ _ Hls2. rewrite Henv1, Hhealthy in Hls2.
      apply wp_dispatch, wp_ret. world_simpl.
      split; [done|]. split; [congruence|].
      eexists. split; [rewrite Hls2, Hls1; world_simpl; apply list_insert_insert_eq|].
      destruct (Z.leb_spec 3 (User.failedLoginAttempts u + 1)); [done|lia].
  - apply wp_dispatch, wp_ret. world_simpl.
    split; [done|]. split; [congruence|].
    eexists. split; [rewrite Hls1; reflexivity|].
    destruct (Z.leb_spec 3 (User.failedLoginAttempts u + 1)); [lia|].
    by rewrite <- Hst.
Qed.

(** The right password on an account that is not locked. *)
Lemma login_right_password :
  User.status u = Active ->
  wp (login (User.username u) (User.password u))
     (fun r w' =>
        r = true /\ env w' = env w /\
        exists u',
          stored_users w' = <[i := u']> (stored_users w) /\
          current_user_item (localStorage w') = Some u' /\
          currentUser (state w') = Some u' /\
          User.failedLoginAttempts u' = 0 /\
          User.lastLogin u' = Some (DateAt (clock (env w) (ticks w))) /\
          User.id u' = User.id u /\ User.username u' = User.username u /\
          User.password u' = User.password u /\ User.status u' = User.status u /\
          User.role u' = User.role u /\
          User.assignedTerminals u' = User.assignedTerminals u) w.
Proof using Hhealthy Hname Hid.
  intros Hst. unfold login.
  apply wp_bind, wp_dispatch, wp_try, wp_bind, wp_getUserByUsername.
  world_simpl.
  rewrite (first_at_find _ _ _ _ Hname), Hst.
  change (status_is Active "Locked") with false. cbv iota.
  rewrite String.eqb_refl. cbn [negb].
  apply wp_bind, wp_new_Date, wp_bind.
  eapply wp_updateUser with (i := i); [exact Hid|].
  intros w1 Henv1 Hstate1 Hticks1 Hls1. world_simpl. rewrite Hhealthy in Hls1.
  unfold setCurrentUser. apply wp_bind, wp_setItem; [intros _|rewrite Henv1, Hhealthy; done].
  apply wp_bind, wp_dispatch, wp_ret. world_simpl.
  split; [done|]. split; [congruence|].
  eexists. split; [rewrite Hls1; reflexivity|]. done.
Qed.
End Login.

(** The record the store returns for an id and for a username is found at
    one index, ahead of every other record with that id or that username. *)
Lemma stored_user_index w u :
  result (getUserByUsername (User.username u)) w = Normal (Some u) ->
  result (getUserById (User.id u)) w = Normal (Some u) ->
  exists i,
    first_at (has_username (User.username u)) (stored_users w) i u /\
    first_at (has_id (User.id u)) (stored_users w) i u.
Proof.
  rewrite getUserByUsername_result, getUserById_result. intros [= Hn] [= Hi].
  destruct (find_first_at _ _ _ Hn) as [i Hin].
  destruct (find_first_at _ _ _ Hi) as [j Hij].
  rewrite <- (first_at_agree _ _ _ _ _ _ Hin Hij) in Hij. by exists i.
Qed.

(** When ids and usernames are unique, every stored record is the one the
    store returns for its id and for its username. *)
Lemma unique_keys_resolve w u :
  NoDup (map User.id (stored_users w)) ->
  NoDup (map User.username (stored_users w)) ->
  In u (stored_users w) ->
  result (getUserByUsername (User.username u)) w = Normal (Some u) /\
  result (getUserById (User.id u)) w = Normal (Some u).
Proof.
  rewrite getUserByUsername_result, getUserById_result.
  generalize (stored_users w). intros l Hid Hname Hin.
  induction l as [|x l IH]; [done|].
  cbn [map] in Hid, Hname. apply NoDup_cons in Hid as [Hx1 Hid].
  apply NoDup_cons in Hname as [Hx2 Hname].
  cbn [Array.find]. unfold has_username at 1, has_id at 1.
  destruct Hin as [->|Hin].
  - by rewrite !String.eqb_refl.
  - destruct (String.eqb_spec (User.username x) (User.username u)) as [Heq|_].
    { exfalso. apply Hx2. rewrite Heq. apply list_elem_of_In, in_map, Hin. }
    destruct (String.eqb_spec (User.id x) (User.id u)) as [Heq|_].
    { exfalso. apply Hx1. rewrite Heq. apply list_elem_of_In, in_map, Hin. }
    by apply IH.
Qed.

(** One failed attempt, in the form that chains. *)
Lemma login_wrong_step w i name uid u password :
  healthy w ->
  User.username u = name -> User.id u = uid ->
  first_at (has_username name) (stored_users w) i u ->
  first_at (has_id uid) (stored_users w) i u ->
  User.status u = Active ->
  password <> User.password u ->
  result (login name password) w = Normal false /\
  exists u',
    let w' := after (login name password) w in
    healthy w' /\
    User.username u' = name /\ User.id u' = uid /\
    first_at (has_username name) (stored_users w') i u' /\
    first_at (has_id uid) (stored_users w') i u' /\
    User.password u' = User.password u /\
    User.failedLoginAttempts u' = User.failedLoginAttempts u + 1 /\
    User.status u' = if 3 <=? User.failedLoginAttempts u + 1 then Locked else Active.
Proof.
  intros Hw <- <- Hname Hid Hst Hpw.
  destruct (wp_elim _ _ _ (login_wrong_password w i u Hw Hname Hid password Hst Hpw))
    as (r & Hr & -> & Henv & u' & Hls & Hid' & Hname' & Hpw' & Hn & Hst').
  split; [done|]. exists u'. cbn zeta.
  split; [intros n; rewrite Henv; apply Hw|].
  rewrite Hls. repeat (split; [done|]).
  split; [eapply first_at_insert; [done|]; unfold has_username; rewrite Hname';
          apply String.eqb_refl|].
  split; [eapply first_at_insert; [done|]; unfold has_id; rewrite Hid';
          apply String.eqb_refl|].
  done.
Qed.

(** C1, as stated, fails: when the backing store refuses the writes, the
    three failed attempts are not recorded.  On [full_world] the seeded
    administrator is still [Active] with no failed attempt after three
    wrong passwords, and the fourth call, with the right password, returns
    [true]. *)
Lemma lockout_counterexample :
  ~ (forall w u p1 p2 p3,
       result (getUserByUsername (User.username u)) w = Normal (Some u) ->
       result (getUserById (User.id u)) w = Normal (Some u) ->
       User.failedLoginAttempts u = 0 ->
       User.status u = Active ->
       p1 <> User.password u -> p2 <> User.password u -> p3 <> User.password u ->
       let w1 := after (login (User.username u) p1) w in
       let w2 := after (login (User.username u) p2) w1 in
       let w3 := after (login (User.username u) p3) w2 in
       (exists locked,
          result (getUserById (User.id u)) w3 = Normal (Some locked) /\
          User.status locked = Locked /\
          User.failedLoginAttempts locked = 3) /\
       result (login (User.username u) (User.password u)) w3 = Normal false).
Proof.
  intros H.
  assert (result (getUserByUsername (User.username sample_admin)) full_world
          = Normal (Some sample_admin)) as Hname by (vm_compute; reflexivity).
  assert (result (getUserById (User.id sample_admin)) full_world
          = Normal (Some sample_admin)) as Hid by (vm_compute; reflexivity).
  assert ("wrong" <> User.password sample_admin) as Hwrong by discriminate.
  destruct (H full_world sample_admin "wrong" "wrong" "wrong"
              Hname Hid eq_refl eq_refl Hwrong Hwrong Hwrong) as [_ Hfourth].
  vm_compute in Hfourth. discriminate Hfourth.
Qed.

(** C1 (lockout), amended.  Take a stored user with
    [failedLoginAttempts = 0] and [status = Active]: the record the store
    returns for that user's username and id, on a backing store that
    accepts every write.  Three consecutive [login] calls with the username
    and a wrong password each return [false] and leave the stored user
    [Locked] with
    [failedLoginAttempts = 3]; a fourth call with the correct password
    returns [false] too and leaves the stored users as they were. *)
Theorem lockout_after_three_failures (w : World) (u : User.t) (p1 p2 p3 : string) :
  healthy w ->
  result (getUserByUsername (User.username u)) w = Normal (Some u) ->
  result (getUserById (User.id u)) w = Normal (Some u) ->
  User.failedLoginAttempts u = 0 ->
  User.status u = Active ->
  p1 <> User.password u -> p2 <> User.password u -> p3 <> User.password u ->
  let w1 := after (login (User.username u) p1) w in
  let w2 := after (login (User.username u) p2) w1 in
  let w3 := after (login (User.username u) p3) w2 in
  let w4 := after (login (User.username u) (User.password u)) w3 in
  result (login (User.username u) p1) w = Normal false /\
  result (login (User.username u) p2) w1 = Normal false /\
  result (login (User.username u) p3) w2 = Normal false /\
  (exists locked,
     result (getUserById (User.id u)) w3 = Normal (Some locked) /\
     result (getUserByUsername (User.username u)) w3 = Normal (Some locked) /\
     User.status locked = Locked /\
     User.failedLoginAttempts locked = 3) /\
  result (login (User.username u) (User.password u)) w3 = Normal false /\
  result getUsers w4 = result getUsers w3.
Proof.
  intros Hw Hn Hi Hzero Hact Hp1 Hp2 Hp3.
  destruct (stored_user_index w u Hn Hi) as (i & Hname & Hid).
  destruct (login_wrong_step w i _ _ u p1 Hw eq_refl eq_refl Hname Hid Hact Hp1)
    as (Hr1 & u1 & Hw1 & En1 & Ei1 & Hname1 & Hid1 & Ep1 & Ea1 & Es1).
  cbn zeta in *. rewrite Hzero in Ea1, Es1. cbn in Es1. rewrite <- Ep1 in Hp2.
  destruct (login_wrong_step _ i _ _ u1 p2 Hw1 En1 Ei1 Hname1 Hid1 Es1 Hp2)
    as (Hr2 & u2 & Hw2 & En2 & Ei2 & Hname2 & Hid2 & Ep2 & Ea2 & Es2).
  cbn zeta in *. rewrite Ea1 in Ea2, Es2. cbn in Es2.
  rewrite <- Ep1, <- Ep2 in Hp3.
  destruct (login_wrong_step _ i _ _ u2 p3 Hw2 En2 Ei2 Hname2 Hid2 Es2 Hp3)
    as (Hr3 & u3 & Hw3 & En3 & Ei3 & Hname3 & Hid3 & Ep3 & Ea3 & Es3).
  cbn zeta in *. rewrite Ea2 in Ea3, Es3. cbn in Es3, Ea3.
  repeat (split; [done|]).
  split.
  { exists u3. rewrite getUserById_result, getUserByUsername_result.
    rewrite (first_at_find _ _ _ _ Hid3), (first_at_find _ _ _ _ Hname3). done. }
  rewrite <- En3 in Hname3 |- *.
  replace (User.password u) with (User.password u3) by congruence.
  destruct (wp_elim _ _ _ (login_locked _ i u3 Hname3 (User.password u3) Es3))
    as (r & Hr & -> & Hls & _).
  split; [done|]. rewrite !getUsers_result. unfold stored_users. by rewrite Hls.
Qed.

(** C5, as stated, fails: when the backing store refuses the writes,
    [login] with the right password still returns [true] and sets the
    reducer's [currentUser], but the stored record keeps its two failed
    attempts.  So it is on [full_two_failures_world] for the seeded
    administrator. *)
Lemma login_reset_counterexample :
  ~ (forall w u,
       result (getUserByUsername (User.username u)) w = Normal (Some u) ->
       result (getUserById (User.id u)) w = Normal (Some u) ->
       User.status u = Active ->
       User.failedLoginAttempts u = 2 ->
       let w' := after (login (User.username u) (User.password u)) w in
       result (login (User.username u) (User.password u)) w = Normal true /\
       exists u',
         result (getUserById (User.id u)) w' = Normal (Some u') /\
         User.failedLoginAttempts u' = 0).
Proof.
  intros H.
  assert (exists u, result (getUserById "user-admin-001") full_two_failures_world
                    = Normal (Some u)) as [u Hid].
  { eexists. vm_compute. reflexivity. }
  pose proof Hid as Hu. vm_compute in Hu. injection Hu as <-.
  match type of Hid with
  | _ = Normal (Some ?u) =>
      assert (result (getUserByUsername "admin.mukamuri") full_two_failures_world
              = Normal (Some u)) as Hname by (vm_compute; reflexivity);
      destruct (H full_two_failures_world u Hname Hid eq_refl eq_refl)
        as (_ & u' & Hu' & Hzero)
  end.
  vm_compute in Hu'. injection Hu' as <-.
  vm_compute in Hzero. discriminate Hzero.
Qed.

(** C5 (reset on success), amended.  For a stored user with
    [status = Active] and [failedLoginAttempts = 2] (the record the store
    returns for that user's username and id), on a backing store that
    accepts every write, [login] with
    the correct password returns [true]; afterwards the stored user has
    [failedLoginAttempts = 0] and [lastLogin] equal to the clock reading the
    call took, and that record is the session: the reducer's [currentUser]
    and the persisted session slot. *)
Theorem login_success_resets_counter (w : World) (u : User.t) :
  healthy w ->
  result (getUserByUsername (User.username u)) w = Normal (Some u) ->
  result (getUserById (User.id u)) w = Normal (Some u) ->
  User.status u = Active ->
  User.failedLoginAttempts u = 2 ->
  let w' := after (login (User.username u) (User.password u)) w in
  result (login (User.username u) (User.password u)) w = Normal true /\
  exists u',
    result (getUserById (User.id u)) w' = Normal (Some u') /\
    User.failedLoginAttempts u' = 0 /\
    User.lastLogin u' = Some (DateAt (clock (env w) (ticks w))) /\
    currentUser (state w') = Some u' /\
    result getCurrentUser w' = Normal (Some u').
Proof.
  intros Hw Hn Hi Hact _.
  destruct (stored_user_index w u Hn Hi) as (i & Hname & Hid).
  destruct (wp_elim _ _ _ (login_right_password w i u Hw Hname Hid Hact))
    as (r & Hr & -> & Henv & u' & Hls & Hcur & Hst & Ha & Hl & Ei & _).
  cbn zeta. split; [done|]. exists u'.
  rewrite getUserById_result, Hls.
  rewrite (first_at_find _ _ _ _ (first_at_insert _ _ _ _ u' Hid
             ltac:(unfold has_id; rewrite Ei; apply String.eqb_refl))).
  repeat (split; [done|]). exact (f_equal Normal Hcur).
Qed.

(** ** Permissions *)

(** C3 (permission table).  [hasPermission("manage_users")] is [true] for a
    current user who is an Administrator or a Service Desk Manager and
    [false] for a Support Agent or a Merchant; without a current user
    [hasPermission] is [false] for every permission. *)
Theorem manage_users_permission (w : World) :
  (forall user,
     currentUser (state w) = Some user ->
     result (hasPermission "manage_users") w =
       Normal match User.role user with
              | Administrator | ServiceDeskManager => true
              | SupportAgent | Merchant => false
              end) /\
  (currentUser (state w) = None ->
   forall permission, result (hasPermission permission) w = Normal false).
Proof.
  split.
  - intros user Hcur. unfold result, hasPermission, useState, mbind, M_bind, bind.
    rewrite Hcur. by destruct (User.role user).
  - intros Hcur permission.
    unfold result, hasPermission, useState, mbind, M_bind, bind. by rewrite Hcur.
Qed.

(** ** Scoping *)

Lemma filter_includes {A} (key : A -> string) (assigned : list string) (l : list A) :
  Array.filter (fun x => Array.includes assigned (key x)) l =
  List.filter (fun x => bool_decide (key x ∈ assigned)) l.
Proof.
  unfold Array.filter. apply filter_ext. intros x.
  destruct (Array.includes assigned (key x)) eqn:Hin.
  - symmetry. apply bool_decide_eq_true, list_elem_of_In, includes_In, Hin.
  - symmetry. apply bool_decide_eq_false. intros H.
    apply list_elem_of_In, includes_In in H. congruence.
Qed.

Lemma getAccessibleTerminals_run w user :
  currentUser (state w) = Some user ->
  getAccessibleTerminals w =
    if role_is (User.role user) "Merchant"
    then getTerminalsByUser (User.id user) w
    else getTerminals w.
Proof.
  intros H. unfold getAccessibleTerminals, useState, mbind, M_bind, bind. rewrite H.
  by destruct (role_is (User.role user) "Merchant").
Qed.

Lemma getAccessibleTickets_run w user :
  currentUser (state w) = Some user ->
  getAccessibleTickets w = getTicketsByUser (User.id user) w.
Proof.
  intros H. unfold getAccessibleTickets, useState, mbind, M_bind, bind. by rewrite H.
Qed.

Lemma getTerminalsByUser_result w userId :
  result (getTerminalsByUser userId) w =
  Normal match Array.find (has_id userId) (stored_users w) with
         | None => stored_terminals w
         | Some user =>
             if role_is (User.role user) "Merchant"
             then List.filter
                    (fun terminal =>
                       bool_decide (Terminal.id terminal ∈
                                    default [] (User.assignedTerminals user)))
                    (stored_terminals w)
             else stored_terminals w
         end.
Proof.
  unfold result, getTerminalsByUser, mbind, M_bind, bind.
  change (getUserById userId w)
    with (Normal (Array.find (has_id userId) (stored_users w)), touched GetItem USERS w).
  destruct (Array.find (has_id userId) (stored_users w)) as [user|]; [|done].
  destruct (role_is (User.role user) "Merchant"); [|done]. cbn [negb].
  change (getTerminals (touched GetItem USERS w))
    with (Normal (stored_terminals w), touched GetItem TERMINALS (touched GetItem USERS w)).
  cbn [fst ret]. f_equal. rewrite <- filter_includes.
  destruct (User.assignedTerminals user) as [assigned|]; [done|].
  unfold Array.filter. apply filter_ext. done.
Qed.

Lemma getTicketsByUser_result w userId :
  result (getTicketsByUser userId) w =
  Normal match Array.find (has_id userId) (stored_users w) with
         | None => []
         | Some user =>
             if role_is (User.role user) "Merchant"
             then List.filter
                    (fun ticket =>
                       bool_decide (SupportTicket.terminalId ticket ∈
                                    default [] (User.assignedTerminals user)))
                    (stored_tickets w)
             else stored_tickets w
         end.
Proof.
  unfold result, getTicketsByUser, mbind, M_bind, bind.
  change (getUserById userId w)
    with (Normal (Array.find (has_id userId) (stored_users w)), touched GetItem USERS w).
  destruct (Array.find (has_id userId) (stored_users w)) as [user|]; [|done].
  destruct (role_is (User.role user) "Merchant"); [|done].
  change (getTickets (touched GetItem USERS w))
    with (Normal (stored_tickets w), touched GetItem TICKETS (touched GetItem USERS w)).
  cbn [fst ret]. f_equal. by rewrite <- filter_includes.
Qed.

(** C2, as stated, fails: [getTerminalsByUser] looks at the role of the
    stored record, not of the session.  On [regraded_world] the current
    user is a Merchant whose id is in the store, with [assignedTerminals]
    [["T001"]] in the session and in the store, and
    [getAccessibleTerminals()] returns all five terminals. *)
Lemma merchant_scoping_counterexample :
  ~ (forall w user stored,
       currentUser (state w) = Some user ->
       User.role user = Merchant ->
       result (getUserById (User.id user)) w = Normal (Some stored) ->
       let assigned := default [] (User.assignedTerminals stored) in
       result getAccessibleTerminals w =
         Normal (List.filter
                   (fun terminal => bool_decide (Terminal.id terminal ∈ assigned))
                   (stored_terminals w))).
Proof.
  intros H.
  assert (exists user, currentUser (state regraded_world) = Some user) as [user Hcur].
  { eexists. vm_compute. reflexivity. }
  pose proof Hcur as Hu. vm_compute in Hu. injection Hu as <-.
  assert (exists stored, result (getUserById "user-merchant-001") regraded_world
                         = Normal (Some stored)) as [stored Hstored].
  { eexists. vm_compute. reflexivity. }
  pose proof Hstored as Hs. vm_compute in Hs. injection Hs as <-.
  pose proof (H regraded_world _ _ Hcur eq_refl Hstored) as Hall.
  apply (f_equal (fun r => match r with
                           | Normal terminals => List.length terminals
                           | Thrown _ => 0%nat
                           end)) in Hall.
  vm_compute in Hall. discriminate Hall.
Qed.

(** C2 (scoping), amended.  Let the current user be a Merchant whose id
    the store resolves to a record that has the Merchant role too.  Then
    [getAccessibleTerminals()] is the stored terminals whose id is in that record's [assignedTerminals], and
    [getAccessibleTickets()] the stored tickets whose [terminalId] is; in
    stored order.  When [assignedTerminals] is [["T001"]], the terminals
    returned are those with id ["T001"]. *)
Theorem merchant_scoping (w : World) (user stored : User.t) :
  currentUser (state w) = Some user ->
  User.role user = Merchant ->
  result (getUserById (User.id user)) w = Normal (Some stored) ->
  User.role stored = Merchant ->
  let assigned := default [] (User.assignedTerminals stored) in
  result getAccessibleTerminals w =
    Normal (List.filter (fun terminal => bool_decide (Terminal.id terminal ∈ assigned))
                        (stored_terminals w)) /\
  result getAccessibleTickets w =
    Normal (List.filter
              (fun ticket => bool_decide (SupportTicket.terminalId ticket ∈ assigned))
              (stored_tickets w)) /\
  (User.assignedTerminals stored = Some ["T001"] ->
   result getAccessibleTerminals w =
     Normal (List.filter (fun terminal => String.eqb (Terminal.id terminal) "T001")
                         (stored_terminals w))).
Proof.
  intros Hcur Hrole Hfind Hstored assigned. rewrite getUserById_result in Hfind.
  injection Hfind as Hfind.
  assert (result getAccessibleTerminals w =
          Normal (List.filter
                    (fun terminal => bool_decide (Terminal.id terminal ∈ assigned))
                    (stored_terminals w))) as Hterminals.
  { unfold result at 1. rewrite (getAccessibleTerminals_run w user Hcur), Hrole.
    change (role_is Merchant "Merchant") with true. cbv iota.
    fold (result (getTerminalsByUser (User.id user)) w).
    rewrite getTerminalsByUser_result, Hfind, Hstored. done. }
  split; [done|]. split.
  - unfold result at 1. rewrite (getAccessibleTickets_run w user Hcur).
    fold (result (getTicketsByUser (User.id user)) w).
    rewrite getTicketsByUser_result, Hfind, Hstored. done.
  - intros Hassigned. rewrite Hterminals. f_equal. subst assigned. rewrite Hassigned.
    apply filter_ext. intros terminal. cbn [default from_option id].
    destruct (String.eqb_spec (Terminal.id terminal) "T001") as [->|Hne].
    + apply bool_decide_eq_true. by apply list_elem_of_singleton.
    + apply bool_decide_eq_false. by rewrite list_elem_of_singleton.
Qed.

(** C4, as stated, fails: with the administrator signed in and that record
    deleted from the store, [getAccessibleTickets()] is empty although a
    ticket is stored. *)
Lemma non_merchant_tickets_counterexample :
  ~ (forall w user,
       currentUser (state w) = Some user ->
       User.role user <> Merchant ->
       result getAccessibleTerminals w = Normal (stored_terminals w) /\
       result getAccessibleTickets w = Normal (stored_tickets w)).
Proof.
  intros H.
  assert (exists user, currentUser (state dangling_world) = Some user /\
                       User.role user = Administrator) as (user & Hcur & Hrole).
  { eexists. split; vm_compute; reflexivity. }
  destruct (H dangling_world user Hcur) as [_ Htickets]; [by rewrite Hrole|].
  vm_compute in Htickets. discriminate Htickets.
Qed.

(** C4 (non-merchant full visibility), amended.  For a current user who is
    not a Merchant, [getAccessibleTerminals()] is the whole stored terminals
    collection, in stored order; [getAccessibleTickets()] is the whole
    stored tickets collection, in stored order, when the store resolves the
    current user's id to a record that is not a Merchant's. *)
Theorem non_merchant_full_visibility (w : World) (user : User.t) :
  currentUser (state w) = Some user ->
  User.role user <> Merchant ->
  result getAccessibleTerminals w = Normal (stored_terminals w) /\
  (forall stored,
     result (getUserById (User.id user)) w = Normal (Some stored) ->
     User.role stored <> Merchant ->
     result getAccessibleTickets w = Normal (stored_tickets w)).
Proof.
  intros Hcur Hrole. split.
  - unfold result. rewrite (getAccessibleTerminals_run w user Hcur).
    destruct (role_is (User.role user) "Merchant") eqn:E; [|done].
    by apply role_is_Merchant in E.
  - intros stored Hfind Hstored. rewrite getUserById_result in Hfind.
    injection Hfind as Hfind.
    unfold result at 1. rewrite (getAccessibleTickets_run w user Hcur).
    fold (result (getTicketsByUser (User.id user)) w).
    rewrite getTicketsByUser_result, Hfind.
    destruct (role_is (User.role stored) "Merchant") eqn:E; [|done].
    by apply role_is_Merchant in E.
Qed.

(** C9 (anonymous).  Without a current user, [getAccessibleTerminals()] and
    [getAccessibleTickets()] both return the empty sequence, whatever is
    stored; neither throws. *)
Theorem anonymous_sees_nothing (w : World) :
  currentUser (state w) = None ->
  result getAccessibleTerminals w = Normal [] /\
  result getAccessibleTickets w = Normal [].
Proof.
  intros Hcur.
  unfold result, getAccessibleTerminals, getAccessibleTickets, useState,
    mbind, M_bind, bind.
  by rewrite Hcur.
Qed.

(** C10 (dangling session).  When the current user's id matches no stored
    user, [getAccessibleTickets()] returns the empty sequence while
    [getAccessibleTerminals()] returns every stored terminal. *)
Theorem dangling_session_scoping (w : World) (user : User.t) :
  currentUser (state w) = Some user ->
  result (getUserById (User.id user)) w = Normal None ->
  result getAccessibleTickets w = Normal [] /\
  result getAccessibleTerminals w = Normal (stored_terminals w).
Proof.
  intros Hcur Hfind. rewrite getUserById_result in Hfind. injection Hfind as Hfind.
  split.
  - unfold result at 1. rewrite (getAccessibleTickets_run w user Hcur).
    fold (result (getTicketsByUser (User.id user)) w).
    by rewrite getTicketsByUser_result, Hfind.
  - unfold result at 1. rewrite (getAccessibleTerminals_run w user Hcur).
    destruct (role_is (User.role user) "Merchant"); [|done].
    fold (result (getTerminalsByUser (User.id user)) w).
    by rewrite getTerminalsByUser_result, Hfind.
Qed.

(** ** Updates with an empty field set *)

Lemma user_assign_empty u now : User.assign u User.Partial.empty now = User.touch u now.
Proof. reflexivity. Qed.

Lemma terminal_assign_empty x now :
  Terminal.assign x Terminal.Partial.empty now = Terminal.touch x now.
Proof. reflexivity. Qed.

Lemma ticket_assign_empty x now :
  SupportTicket.assign x SupportTicket.Partial.empty now = SupportTicket.touch x now.
Proof. reflexivity. Qed.

Lemma user_touch_same u : User.touch u (User.updatedAt u) = u.
Proof. by destruct u. Qed.

Lemma terminal_touch_same x : Terminal.touch x (Terminal.updatedAt x) = x.
Proof. by destruct x. Qed.

Lemma ticket_touch_same x : SupportTicket.touch x (SupportTicket.updatedAt x) = x.
Proof. by destruct x. Qed.


Lemma updateUser_empty w id i old :
  first_at (has_id id) (stored_users w) i old ->
  wp (updateUser id User.Partial.empty)
     (fun r w' =>
        (exists now, r = Some (User.touch old now)) /\
        exists now, stored_users w' = <[i := User.touch old now]> (stored_users w)) w.
Proof.
  intros Hat. eapply wp_updateUser; [exact Hat|].
  intros w' _ _ _ Hls. split; [eexists; reflexivity|].
  unfold stored_users at 1. rewrite Hls. destruct (accepts _ _).
  - eexists. reflexivity.
  - exists (User.updatedAt old). rewrite user_touch_same.
    symmetry. apply list_insert_id, (first_at_lookup _ _ _ _ Hat).
Qed.

Lemma updateUser_empty_twice w id i old :
  first_at (has_id id) (stored_users w) i old ->
  let update := updateUser id User.Partial.empty in
  let once := after update w in
  let twice := after update once in
  (exists now, result update w = Normal (Some (User.touch old now))) /\
  (exists now, stored_users once = <[i := User.touch old now]> (stored_users w)) /\
  (exists now, result update once = Normal (Some (User.touch old now))) /\
  (exists now, stored_users twice = <[i := User.touch old now]> (stored_users w)).
Proof.
  intros Hat. cbv zeta.
  destruct (wp_elim _ _ _ (updateUser_empty w id i old Hat))
    as (r1 & Hr1 & (t1 & ->) & (t1' & Hs1)).
  pose proof (first_at_insert _ _ _ _ (User.touch old t1') Hat) as Hat1.
  rewrite <- Hs1 in Hat1. specialize (Hat1 ltac:(by destruct Hat as (_ & ? & _))).
  destruct (wp_elim _ _ _ (updateUser_empty _ id i _ Hat1))
    as (r2 & Hr2 & (t2 & ->) & (t2' & Hs2)).
  split; [by exists t1|]. split; [by exists t1'|]. split; [by exists t2|].
  exists t2'. rewrite Hs2, Hs1. apply list_insert_insert_eq.
Qed.

Lemma updateTerminal_empty w id i old :
  first_at (terminal_has_id id) (stored_terminals w) i old ->
  wp (updateTerminal id Terminal.Partial.empty)
     (fun r w' =>
        (exists now, r = Some (Terminal.touch old now)) /\
        exists now, stored_terminals w' = <[i := Terminal.touch old now]> (stored_terminals w)) w.
Proof.
  intros Hat. eapply wp_updateTerminal; [exact Hat|].
  intros w' _ _ _ Hls. split; [eexists; reflexivity|].
  unfold stored_terminals at 1. rewrite Hls. destruct (accepts _ _).
  - eexists. reflexivity.
  - exists (Terminal.updatedAt old). rewrite terminal_touch_same.
    symmetry. apply list_insert_id, (first_at_lookup _ _ _ _ Hat).
Qed.

Lemma updateTerminal_empty_twice w id i old :
  first_at (terminal_has_id id) (stored_terminals w) i old ->
  let update := updateTerminal id Terminal.Partial.empty in
  let once := after update w in
  let twice := after update once in
  (exists now, result update w = Normal (Some (Terminal.touch old now))) /\
  (exists now, stored_terminals once = <[i := Terminal.touch old now]> (stored_terminals w)) /\
  (exists now, result update once = Normal (Some (Terminal.touch old now))) /\
  (exists now, stored_terminals twice = <[i := Terminal.touch old now]> (stored_terminals w)).
Proof.
  intros Hat. cbv zeta.
  destruct (wp_elim _ _ _ (updateTerminal_empty w id i old Hat))
    as (r1 & Hr1 & (t1 & ->) & (t1' & Hs1)).
  pose proof (first_at_insert _ _ _ _ (Terminal.touch old t1') Hat) as Hat1.
  rewrite <- Hs1 in Hat1. specialize (Hat1 ltac:(by destruct Hat as (_ & ? & _))).
  destruct (wp_elim _ _ _ (updateTerminal_empty _ id i _ Hat1))
    as (r2 & Hr2 & (t2 & ->) & (t2' & Hs2)).
  split; [by exists t1|]. split; [by exists t1'|]. split; [by exists t2|].
  exists t2'. rewrite Hs2, Hs1. apply list_insert_insert_eq.
Qed.

Lemma updateTicket_empty w id i old :
  first_at (ticket_has_id id) (stored_tickets w) i old ->
  wp (updateTicket id SupportTicket.Partial.empty)
     (fun r w' =>
        (exists now, r = Some (SupportTicket.touch old now)) /\
        exists now, stored_tickets w' = <[i := SupportTicket.touch old now]> (stored_tickets w)) w.
Proof.
  intros Hat. eapply wp_updateTicket; [exact Hat|].
  intros w' _ _ _ Hls. split; [eexists; reflexivity|].
  unfold stored_tickets at 1. rewrite Hls. destruct (accepts _ _).
  - eexists. reflexivity.
  - exists (SupportTicket.updatedAt old). rewrite ticket_touch_same.
    symmetry. apply list_insert_id, (first_at_lookup _ _ _ _ Hat).
Qed.

Lemma updateTicket_empty_twice w id i old :
  first_at (ticket_has_id id) (stored_tickets w) i old ->
  let update := updateTicket id SupportTicket.Partial.empty in
  let once := after update w in
  let twice := after update once in
  (exists now, result update w = Normal (Some (SupportTicket.touch old now))) /\
  (exists now, stored_tickets once = <[i := SupportTicket.touch old now]> (stored_tickets w)) /\
  (exists now, result update once = Normal (Some (SupportTicket.touch old now))) /\
  (exists now, stored_tickets twice = <[i := SupportTicket.touch old now]> (stored_tickets w)).
Proof.
  intros Hat. cbv zeta.
  destruct (wp_elim _ _ _ (updateTicket_empty w id i old Hat))
    as (r1 & Hr1 & (t1 & ->) & (t1' & Hs1)).
  pose proof (first_at_insert _ _ _ _ (SupportTicket.touch old t1') Hat) as Hat1.
  rewrite <- Hs1 in Hat1. specialize (Hat1 ltac:(by destruct Hat as (_ & ? & _))).
  destruct (wp_elim _ _ _ (updateTicket_empty _ id i _ Hat1))
    as (r2 & Hr2 & (t2 & ->) & (t2' & Hs2)).
  split; [by exists t1|]. split; [by exists t1'|]. split; [by exists t2|].
  exists t2'. rewrite Hs2, Hs1. apply list_insert_insert_eq.
Qed.

(** C7 (update with an empty field set).  Let [old] be the stored entity an
    id resolves to, at index [i] of its collection.  After [update(id, {})],
    called once or twice in a row, the collection is the one before the
    calls with [old] replaced, at [i], by [old] with another [updatedAt]:
    no other field of the entity and no other entity changes.  Each call
    returns [old] with another [updatedAt].  This holds for users, terminals
    and tickets. *)
Theorem empty_update_changes_only_updatedAt (w : World) (id : string) (i : nat) :
  (forall old,
     first_at (has_id id) (stored_users w) i old ->
     let update := updateUser id User.Partial.empty in
     let once := after update w in
     let twice := after update once in
     (exists now, result update w = Normal (Some (User.touch old now))) /\
     (exists now, stored_users once = <[i := User.touch old now]> (stored_users w)) /\
     (exists now, result update once = Normal (Some (User.touch old now))) /\
     (exists now, stored_users twice = <[i := User.touch old now]> (stored_users w))) /\
  (forall old,
     first_at (terminal_has_id id) (stored_terminals w) i old ->
     let update := updateTerminal id Terminal.Partial.empty in
     let once := after update w in
     let twice := after update once in
     (exists now, result update w = Normal (Some (Terminal.touch old now))) /\
     (exists now,
        stored_terminals once = <[i := Terminal.touch old now]> (stored_terminals w)) /\
     (exists now, result update once = Normal (Some (Terminal.touch old now))) /\
     (exists now,
        stored_terminals twice = <[i := Terminal.touch old now]> (stored_terminals w))) /\
  (forall old,
     first_at (ticket_has_id id) (stored_tickets w) i old ->
     let update := updateTicket id SupportTicket.Partial.empty in
     let once := after update w in
     let twice := after update once in
     (exists now, result update w = Normal (Some (SupportTicket.touch old now))) /\
     (exists now,
        stored_tickets once = <[i := SupportTicket.touch old now]> (stored_tickets w)) /\
     (exists now, result update once = Normal (Some (SupportTicket.touch old now))) /\
     (exists now,
        stored_tickets twice = <[i := SupportTicket.touch old now]> (stored_tickets w))).
Proof.
  split; [|split]; intros old Hat.
  - by apply updateUser_empty_twice.
  - by apply updateTerminal_empty_twice.
  - by apply updateTicket_empty_twice.
Qed.

(** ** Which keys the service touches *)

Section Within.
Context (S : Access -> Prop).

Lemma extends_refl w : extends S w w.
Proof. by exists []. Qed.

Lemma extends_trans w1 w2 w3 : extends S w1 w2 -> extends S w2 w3 -> extends S w1 w3.
Proof.
  intros (n1 & H1 & F1) (n2 & H2 & F2). exists (n2 ++ n1)%list. split.
  - by rewrite H2, H1, app_assoc.
  - by apply Forall_app.
Qed.

(** A step that leaves the trace of accesses as it was. *)
Lemma within_silent {A} (m : M A) :
  (forall w, exists a w', m w = (Normal a, w') /\ accesses w' = accesses w) ->
  within S m.
Proof.
  intros H w. unfold wp. destruct (H w) as (a & w' & -> & Hacc).
  exists []. by rewrite Hacc.
Qed.

Lemma within_ret {A} (a : A) : within S (ret a).
Proof. intros w. apply extends_refl. Qed.

Lemma within_bind {A B} (m : M A) (k : A -> M B) :
  within S m -> (forall a, within S (k a)) -> within S (m ≫= k).
Proof.
  intros Hm Hk w. apply wp_bind. eapply wp_mono; [apply Hm|].
  intros a w1 H1. eapply wp_mono; [apply Hk|].
  intros b w2 H2. exact (extends_trans _ _ _ H1 H2).
Qed.

Lemma within_getItem k : S (GetItem, STORAGE_KEYS k) -> within S (getItem k).
Proof. intros H w. exists [(GetItem, STORAGE_KEYS k)]. split; [done|]. by constructor. Qed.

Lemma within_setItem k data : S (SetItem, STORAGE_KEYS k) -> within S (setItem k data).
Proof.
  intros H w. apply wp_setItem; intros _;
    (exists [(SetItem, STORAGE_KEYS k)]; split; [done|]; by constructor).
Qed.

Lemma within_removeItem k : S (RemoveItem, STORAGE_KEYS k) -> within S (removeItem k).
Proof.
  intros H w. exists [(RemoveItem, STORAGE_KEYS k)]. split; [done|]. by constructor.
Qed.

Lemma within_Date_now : within S Date_now.
Proof. apply within_silent. intros w. by eexists _, _. Qed.

Lemma within_new_Date : within S new_Date.
Proof. apply within_silent. intros w. by eexists _, _. Qed.

Lemma within_Math_random : within S Math_random.
Proof. apply within_silent. intros w. by eexists _, _. Qed.

Lemma within_toString36 n : within S (toString36 n).
Proof. apply within_silent. intros w. by eexists _, _. Qed.

Lemma within_toISODate ms : within S (toISODate ms).
Proof. apply within_silent. intros w. by eexists _, _. Qed.

Lemma within_forEach {A} (arr : list A) (f : A -> M unit) :
  Forall (fun x => within S (f x)) arr -> within S (forEach arr f).
Proof.
  induction 1 as [|x arr Hx _ IH]; [apply within_ret|].
  cbn [forEach]. by apply within_bind.
Qed.
End Within.

Lemma allowed_data c kind k : In (STORAGE_KEYS k) data_keys -> allowed c (kind, STORAGE_KEYS k).
Proof. by left. Qed.

(** One step of a proof that a computation stays within its keys. *)
Ltac within_step :=
  lazymatch goal with
  | |- within _ (mbind _ _) => apply within_bind; [|intros ?]
  | |- within _ (ret _) => apply within_ret
  | |- within _ (getItem _) => apply within_getItem
  | |- within _ (setItem _ _) => apply within_setItem
  | |- within _ (removeItem _) => apply within_removeItem
  | |- within _ Date_now => apply within_Date_now
  | |- within _ new_Date => apply within_new_Date
  | |- within _ Math_random => apply within_Math_random
  | |- within _ (toString36 _) => apply within_toString36
  | |- within _ (toISODate _) => apply within_toISODate
  | |- within _ (let _ := _ in _) => cbv zeta
  | |- within _ (match ?x with _ => _ end) => destruct x
  end.

Ltac data_key := cbn; tauto.

Section DataKeys.
Context (S : Access -> Prop).
Hypothesis Hdata : forall kind k, In (STORAGE_KEYS k) data_keys -> S (kind, STORAGE_KEYS k).

Local Ltac within_data := repeat within_step; apply Hdata; data_key.

Lemma within_random_floor a b : within S (random_floor a b).
Proof using Type. unfold random_floor. repeat within_step. Qed.

Lemma within_random_scaled a b : within S (random_scaled a b).
Proof using Type. unfold random_scaled. repeat within_step. Qed.

Lemma within_sampleMetrics_entry today i : within S (sampleMetrics_entry today i).
Proof using Type.
  unfold sampleMetrics_entry.
  repeat first
    [ within_step
    | lazymatch goal with
      | |- within _ (random_floor _ _) => apply within_random_floor
      | |- within _ (random_scaled _ _) => apply within_random_scaled
      end ].
Qed.

Lemma within_sampleMetrics_loop today i metrics :
  within S (sampleMetrics_loop today i metrics).
Proof using Type.
  revert metrics. induction i as [|i IH]; intros metrics; cbn [sampleMetrics_loop].
  - apply within_bind; [apply within_sampleMetrics_entry|intros ?; apply within_ret].
  - apply within_bind; [apply within_sampleMetrics_entry|intros ?; apply IH].
Qed.

Lemma within_generateSampleMetrics : within S generateSampleMetrics.
Proof using Type.
  unfold generateSampleMetrics. apply within_bind; [apply within_Date_now|].
  intros ?. apply within_sampleMetrics_loop.
Qed.

Lemma within_generateSampleTerminals : within S generateSampleTerminals.
Proof using Type. unfold generateSampleTerminals. repeat within_step. Qed.

Lemma within_generateSampleTickets : within S generateSampleTickets.
Proof using Type. unfold generateSampleTickets. repeat within_step. Qed.

Lemma within_generateSampleAlerts : within S generateSampleAlerts.
Proof using Type. unfold generateSampleAlerts. repeat within_step. Qed.

Lemma within_initializeData : within S initializeData.
Proof using Hdata.
  unfold initializeData.
  repeat first
    [ within_step
    | lazymatch goal with
      | |- within _ generateSampleTerminals => apply within_generateSampleTerminals
      | |- within _ generateSampleTickets => apply within_generateSampleTickets
      | |- within _ generateSampleAlerts => apply within_generateSampleAlerts
      | |- within _ generateSampleMetrics => apply within_generateSampleMetrics
      end ]; apply Hdata; data_key.
Qed.

(** Every method but [clearAllData] stays on the data keys. *)
Lemma within_call_data c : c <> Call_clearAllData -> within S (call c).
Proof using Hdata.
  intros Hc. destruct c; [..|done]; unfold call;
    repeat first
      [ within_step
      | progress unfold getUsers, getUserById, getUserByUsername, createUser,
          updateUser, deleteUser, getCurrentUser, setCurrentUser, getTerminals,
          getTerminalById, getTerminalsByUser, updateTerminal, updateTerminalStatus,
          getTickets, getTicketsByUser, createTicket, updateTicket, getAlerts,
          createAlert, getMetrics ];
    apply Hdata; data_key.
Qed.
End DataKeys.

Lemma within_clearAllData : within (allowed Call_clearAllData) clearAllData.
Proof.
  unfold clearAllData. apply within_bind.
  - apply within_forEach. unfold STORAGE_KEYS_values.
    repeat constructor; apply within_removeItem;
      first [ apply allowed_data; data_key | by right ].
  - intros _. apply within_initializeData. intros kind k. apply allowed_data.
Qed.

Lemma within_call c : within (allowed c) (call c).
Proof.
  assert (c = Call_clearAllData \/ c <> Call_clearAllData) as [->|Hc]
    by (destruct c; first [by left | by right]).
  - unfold call. apply within_bind; [apply within_clearAllData|].
    intros _. apply within_ret.
  - apply within_call_data; [|done]. intros kind k. apply allowed_data.
Qed.

Lemma on_data_keys_allowed c a : allowed c a -> on_data_keys a.
Proof.
  intros [Hin|[-> _]]; [by right|by left].
Qed.

Lemma within_weaken {A} (S S' : Access -> Prop) (m : M A) :
  (forall a, S a -> S' a) -> within S m -> within S' m.
Proof.
  intros HS Hm w. eapply wp_mono; [apply Hm|].
  intros _ w' (new & Hnew & Hall). exists new. split; [done|].
  eapply Forall_impl; [exact Hall|exact HS].
Qed.

(** C8 (persisted state layout).  The values are kept under six distinct
    keys: one per collection (users, terminals, tickets, alerts, metrics)
    and one for the current session; each of the six is read by a method of
    the service.  Every method of the service, and the constructor,
    completes without throwing, and every [getItem] and [setItem] it
    issues is under one of the six keys. *)
Theorem storage_keys_layout :
  List.length data_keys = 6%nat /\
  NoDup data_keys /\
  (forall key, In key data_keys ->
     exists c, forall w, In (GetItem, key) (accesses (after (call c) w))) /\
  (forall c, within on_data_keys (call c)) /\
  within on_data_keys LocalStorageService_new.
Proof.
  split; [done|]. split; [|split; [|split]].
  - apply (bool_decide_unpack _). by vm_compute.
  - intros key Hin. cbn in Hin.
    destruct Hin as [<-|[<-|[<-|[<-|[<-|[<-|[]]]]]]];
      [exists Call_getUsers|exists Call_getTerminals|exists Call_getTickets
      |exists Call_getAlerts|exists Call_getMetrics|exists Call_getCurrentUser];
      intros w; left; reflexivity.
  - intros c. eapply within_weaken; [apply on_data_keys_allowed|apply within_call].
  - apply within_initializeData. intros kind k H. by right.
Qed.

(** ** Persistence failures *)

Lemma call_total c w : exists v, result (call c) w = Normal v.
Proof.
  destruct (wp_elim _ _ _ (within_call c w)) as (v & Hv & _). by exists v.
Qed.

Ltac run_call :=
  unfold result, after, call, logged, unlimited;
  unfold updateTerminalStatus, getTerminalsByUser, getTicketsByUser, getTerminalById,
    getUserById, getUserByUsername, createUser, updateUser, deleteUser,
    getCurrentUser, setCurrentUser, updateTerminal, createTicket, updateTicket,
    createAlert;
  unfold getUsers, getTerminals, getTickets, getAlerts, getMetrics;
  unfold removeItem, getItem, setItem, try_catch,
    localStorage_getItem, localStorage_setItem, localStorage_removeItem,
    console_error, new_Date, Date_now, Math_random, toString36,
    mbind, M_bind, bind, mret, M_ret, ret;
  cbn [fst snd env localStorage console accesses state ticks draws writes
       touched with_storage with_console with_accesses with_state with_ticks
       with_draws with_writes with_env clock random radix36 isoDate accepts
       negb].

Ltac split_call :=
  repeat
    (match goal with
     | |- context [accepts (env ?w) (writes ?w)] =>
         destruct (accepts (env w) (writes w)) eqn:?
     | |- context [Z.eqb ?a ?b] => destruct (Z.eqb a b) eqn:?
     | |- context [match Array.get ?l ?i with _ => _ end] =>
         destruct (Array.get l i) eqn:?
     | |- context [match Array.find ?p ?l with _ => _ end] =>
         destruct (Array.find p l) eqn:?
     | |- context [role_is ?r ?n] => destruct (role_is r n) eqn:?
     | |- context [match ?u with Some _ => _ | None => _ end] => is_var u; destruct u
     end;
     cbn [fst snd env localStorage console accesses state ticks draws writes
          touched with_storage with_console with_accesses with_state with_ticks
          with_draws with_writes with_env clock random radix36 isoDate accepts
          negb]).


Lemma clearAllData_returns w : result (call Call_clearAllData) w = Normal Void_.
Proof.
  assert (wp (call Call_clearAllData) (fun v _ => v = Void_) w) as H.
  { unfold call. apply wp_bind. eapply wp_mono; [apply within_clearAllData|]. done. }
  by destruct (wp_elim _ _ _ H) as (v & -> & ->).
Qed.

Ltac finish_call :=
  eexists; split; [reflexivity|split; [reflexivity|]];
  cbn [mutating]; first [done | intros _; auto].

(** C6 (persistence failure).  Every operation of the record store
    completes without throwing, on any browser, with the value it returns
    on the same browser with a store that accepts every write.  An
    operation that creates, updates or deletes a record or sets the session
    slot serialises at most once; when that write is refused, the failure
    is logged on the console and the store is left as it was. *)
Theorem persistence_failure_is_swallowed (c : StoreCall) (w : World) :
  exists v,
    result (call c) w = Normal v /\
    result (call c) (unlimited w) = Normal v /\
    (mutating c = true -> logged w (after (call c) w)).
Proof.
  destruct c; try (run_call; split_call; finish_call; fail).
  exists Void_. split; [|split; [|done]].
  - apply clearAllData_returns.
  - apply clearAllData_returns.
Qed.

(** ** The statements at work on the sample data *)

Lemma demo_world_healthy : healthy demo_world.
Proof. intros n. vm_compute. reflexivity. Qed.

(** C1 on the seeded administrator: three wrong passwords, then the right one. *)
Lemma lockout_after_three_failures_witness :
  healthy demo_world /\
  result (getUserByUsername (User.username sample_admin)) demo_world
    = Normal (Some sample_admin) /\
  result (getUserById (User.id sample_admin)) demo_world = Normal (Some sample_admin) /\
  User.failedLoginAttempts sample_admin = 0 /\
  User.status sample_admin = Active /\
  "wrong" <> User.password sample_admin /\
  let w3 := after (login (User.username sample_admin) "wrong")
              (after (login (User.username sample_admin) "wrong")
                 (after (login (User.username sample_admin) "wrong") demo_world)) in
  (exists locked,
     result (getUserById (User.id sample_admin)) w3 = Normal (Some locked) /\
     User.status locked = Locked /\ User.failedLoginAttempts locked = 3) /\
  result (login (User.username sample_admin) (User.password sample_admin)) w3
    = Normal false.
Proof.
  pose proof demo_world_healthy as H1.
  assert (result (getUserByUsername (User.username sample_admin)) demo_world
          = Normal (Some sample_admin)) as H2 by (vm_compute; reflexivity).
  assert (result (getUserById (User.id sample_admin)) demo_world
          = Normal (Some sample_admin)) as H3 by (vm_compute; reflexivity).
  assert ("wrong" <> User.password sample_admin) as H4 by discriminate.
  destruct (lockout_after_three_failures demo_world sample_admin "wrong" "wrong" "wrong"
              H1 H2 H3 eq_refl eq_refl H4 H4 H4)
    as (_ & _ & _ & (locked & Hl & _ & Hs & Ha) & Hr & _).
  split; [exact H1|]. split; [exact H2|]. split; [exact H3|].
  split; [exact eq_refl|]. split; [exact eq_refl|]. split; [exact H4|].
  split; [|exact Hr].
  exists locked. split; [exact Hl|]. split; [exact Hs|exact Ha].
Defined.

(** C5 on the administrator after two failed attempts. *)
Lemma login_success_resets_counter_witness :
  exists u,
    healthy two_failures_world /\
    result (getUserByUsername (User.username u)) two_failures_world = Normal (Some u) /\
    result (getUserById (User.id u)) two_failures_world = Normal (Some u) /\
    User.status u = Active /\
    User.failedLoginAttempts u = 2 /\
    User.username u = User.username sample_admin /\
    result (login (User.username u) (User.password u)) two_failures_world = Normal true.
Proof.
  assert (exists u, result (getUserById (User.id sample_admin)) two_failures_world
                    = Normal (Some u)) as [u Hu].
  { eexists. vm_compute. reflexivity. }
  exists u.
  vm_compute in Hu. injection Hu as <-.
  assert (healthy two_failures_world) as H1 by (intros n; vm_compute; reflexivity).
  match goal with
  | |- _ /\ ?A /\ ?B /\ _ =>
      assert A as H2 by (vm_compute; reflexivity);
      assert B as H3 by (vm_compute; reflexivity)
  end.
  split; [exact H1|]. split; [exact H2|]. split; [exact H3|].
  split; [exact eq_refl|]. split; [exact eq_refl|]. split; [exact eq_refl|].
  exact (proj1 (login_success_resets_counter two_failures_world _ H1 H2 H3
                  eq_refl eq_refl)).
Defined.

(** C2 on the seeded merchant: one terminal out of five. *)
Lemma merchant_scoping_witness :
  exists user,
    currentUser (state merchant_world) = Some user /\
    User.role user = Merchant /\
    result (getUserById (User.id user)) merchant_world = Normal (Some user) /\
    User.assignedTerminals user = Some ["T001"] /\
    List.length (stored_terminals merchant_world) = 5%nat /\
    result getAccessibleTerminals merchant_world =
      Normal (List.filter (fun terminal => String.eqb (Terminal.id terminal) "T001")
                          (stored_terminals merchant_world)) /\
    map Terminal.id
        (List.filter (fun terminal => String.eqb (Terminal.id terminal) "T001")
                     (stored_terminals merchant_world)) = ["T001"].
Proof.
  assert (exists u, currentUser (state merchant_world) = Some u) as [user Hcur].
  { eexists. vm_compute. reflexivity. }
  exists user.
  pose proof Hcur as Hu. vm_compute in Hu. injection Hu as <-.
  assert (result (getUserById "user-merchant-001") merchant_world = _) as Hstored
    by (vm_compute; reflexivity).
  destruct (merchant_scoping merchant_world _ _ Hcur eq_refl Hstored eq_refl)
    as (_ & _ & Hone).
  split; [exact Hcur|]. split; [exact eq_refl|]. split; [exact Hstored|].
  split; [exact eq_refl|]. split; [vm_compute; reflexivity|].
  split; [exact (Hone eq_refl)|]. vm_compute. reflexivity.
Defined.

(** C3 on the signed-in administrator and on the page before any login. *)
Lemma manage_users_permission_witness :
  (exists user,
     currentUser (state admin_world) = Some user /\
     User.role user = Administrator /\
     result (hasPermission "manage_users") admin_world = Normal true) /\
  currentUser (state demo_world) = None /\
  result (hasPermission "system_admin") demo_world = Normal false.
Proof.
  assert (exists u, currentUser (state admin_world) = Some u) as [user Hcur].
  { eexists. vm_compute. reflexivity. }
  pose proof Hcur as Hu. vm_compute in Hu. injection Hu as <-.
  split; [eexists; split; [exact Hcur|split; [reflexivity|]]|split; [reflexivity|]].
  - exact (proj1 (manage_users_permission admin_world) _ Hcur).
  - exact (proj2 (manage_users_permission demo_world) eq_refl "system_admin").
Defined.

(** C4, amended, on the signed-in administrator. *)
Lemma non_merchant_full_visibility_witness :
  exists user,
    currentUser (state admin_world) = Some user /\
    User.role user <> Merchant /\
    result (getUserById (User.id user)) admin_world = Normal (Some user) /\
    result getAccessibleTerminals admin_world = Normal (stored_terminals admin_world) /\
    result getAccessibleTickets admin_world = Normal (stored_tickets admin_world).
Proof.
  assert (exists u, currentUser (state admin_world) = Some u) as [user Hcur].
  { eexists. vm_compute. reflexivity. }
  exists user.
  pose proof Hcur as Hu. vm_compute in Hu. injection Hu as <-.
  assert (result (getUserById "user-admin-001") admin_world = _) as Hstored
    by (vm_compute; reflexivity).
  destruct (non_merchant_full_visibility admin_world _ Hcur ltac:(discriminate))
    as (Hterminals & Htickets).
  split; [exact Hcur|]. split; [discriminate|]. split; [exact Hstored|].
  split; [exact Hterminals|]. apply (Htickets _ Hstored). discriminate.
Defined.

(** C6 on a full store: the update returns the record, logs, stores nothing. *)
Lemma persistence_failure_is_swallowed_witness :
  mutating (Call_updateUser "user-admin-001" User.Partial.empty) = true /\
  accepts (env full_world) (writes full_world) = false /\
  exists v,
    result (call (Call_updateUser "user-admin-001" User.Partial.empty)) full_world
      = Normal v /\
    result (call (Call_updateUser "user-admin-001" User.Partial.empty))
           (unlimited full_world) = Normal v /\
    logged full_world
      (after (call (Call_updateUser "user-admin-001" User.Partial.empty)) full_world).
Proof.
  split; [reflexivity|]. split; [vm_compute; reflexivity|].
  destruct (persistence_failure_is_swallowed
              (Call_updateUser "user-admin-001" User.Partial.empty) full_world)
    as (v & H1 & H2 & H3).
  exists v. split; [exact H1|]. split; [exact H2|]. exact (H3 eq_refl).
Defined.

(** C7 on the seeded administrator, the first terminal and the ticket. *)
Lemma empty_update_changes_only_updatedAt_witness :
  first_at (has_id "user-admin-001") (stored_users demo_world) 0 sample_admin /\
  (exists now,
     stored_users
       (after (updateUser "user-admin-001" User.Partial.empty)
          (after (updateUser "user-admin-001" User.Partial.empty) demo_world)) =
     <[0%nat := User.touch sample_admin now]> (stored_users demo_world)) /\
  (exists terminal,
     first_at (terminal_has_id "T001") (stored_terminals demo_world) 0 terminal /\
     exists now,
       stored_terminals
         (after (updateTerminal "T001" Terminal.Partial.empty)
            (after (updateTerminal "T001" Terminal.Partial.empty) demo_world)) =
       <[0%nat := Terminal.touch terminal now]> (stored_terminals demo_world)) /\
  (exists ticket,
     first_at (ticket_has_id "TKT-2025-001") (stored_tickets demo_world) 0 ticket /\
     exists now,
       stored_tickets
         (after (updateTicket "TKT-2025-001" SupportTicket.Partial.empty)
            (after (updateTicket "TKT-2025-001" SupportTicket.Partial.empty) demo_world)) =
       <[0%nat := SupportTicket.touch ticket now]> (stored_tickets demo_world)).
Proof.
  assert (first_at (has_id "user-admin-001") (stored_users demo_world) 0 sample_admin)
    as Hu.
  { split; [vm_compute; reflexivity|]. split; [reflexivity|]. intros j y Hj. lia. }
  assert (exists terminal,
            first_at (terminal_has_id "T001") (stored_terminals demo_world) 0 terminal)
    as [terminal Ht].
  { eexists. split; [vm_compute; reflexivity|]. split; [reflexivity|]. intros j y Hj. lia. }
  assert (exists ticket,
            first_at (ticket_has_id "TKT-2025-001") (stored_tickets demo_world) 0 ticket)
    as [ticket Hk].
  { eexists. split; [vm_compute; reflexivity|]. split; [reflexivity|]. intros j y Hj. lia. }
  split; [exact Hu|]. split; [|split].
  - destruct (proj1 (empty_update_changes_only_updatedAt demo_world "user-admin-001" 0)
                sample_admin Hu) as (_ & _ & _ & H).
    exact H.
  - exists terminal. split; [exact Ht|].
    destruct (proj1 (proj2 (empty_update_changes_only_updatedAt demo_world "T001" 0))
                terminal Ht) as (_ & _ & _ & H).
    exact H.
  - exists ticket. split; [exact Hk|].
    destruct (proj2 (proj2 (empty_update_changes_only_updatedAt demo_world
                              "TKT-2025-001" 0))
                ticket Hk) as (_ & _ & _ & H).
    exact H.
Defined.

(** C8 on [clearAllData] from an empty store. *)
Lemma storage_keys_layout_witness :
  wp (call Call_clearAllData)
     (fun _ w' => extends on_data_keys (blank demo_env) w')
     (blank demo_env).
Proof.
  exact (proj1 (proj2 (proj2 (proj2 storage_keys_layout)))
           Call_clearAllData (blank demo_env)).
Defined.

(** C9 on the page before any login. *)
Lemma anonymous_sees_nothing_witness :
  currentUser (state demo_world) = None /\
  stored_terminals demo_world <> [] /\
  result getAccessibleTerminals demo_world = Normal [] /\
  result getAccessibleTickets demo_world = Normal [].
Proof.
  split; [reflexivity|]. split; [vm_compute; discriminate|].
  exact (anonymous_sees_nothing demo_world eq_refl).
Defined.

(** C10 on the administrator whose record was deleted while signed in. *)
Lemma dangling_session_scoping_witness :
  exists user,
    currentUser (state dangling_world) = Some user /\
    result (getUserById (User.id user)) dangling_world = Normal None /\
    List.length (stored_terminals dangling_world) = 5%nat /\
    stored_tickets dangling_world <> [] /\
    result getAccessibleTickets dangling_world = Normal [] /\
    result getAccessibleTerminals dangling_world = Normal (stored_terminals dangling_world).
Proof.
  assert (exists u, currentUser (state dangling_world) = Some u) as [user Hcur].
  { eexists. vm_compute. reflexivity. }
  exists user.
  pose proof Hcur as Hu. vm_compute in Hu. injection Hu as <-.
  assert (result (getUserById "user-admin-001") dangling_world = Normal None) as Hnone
    by (vm_compute; reflexivity).
  destruct (dangling_session_scoping dangling_world _ Hcur Hnone) as (Htickets & Hterminals).
  split; [exact Hcur|]. split; [exact Hnone|]. split; [vm_compute; reflexivity|].
  split; [vm_compute; discriminate|]. split; [exact Htickets|exact Hterminals].
Defined.

(** * Further properties of the record store *)

Lemma find_app_last {A} (p : A -> bool) (l : list A) (x : A) :
  Array.find p (l ++ [x]) =
  match Array.find p l with
  | Some y => Some y
  | None => if p x then Some x else None
  end.
Proof.
  induction l as [|y l IH]; cbn [app Array.find]; [done|].
  by destruct (p y).
Qed.

Lemma find_filter_out {A} (p : A -> bool) (l : list A) :
  Array.find p (Array.filter (fun x => negb (p x)) l) = None.
Proof.
  unfold Array.filter. induction l as [|y l IH]; [done|].
  cbn [List.filter]. destruct (p y) eqn:Hy; cbn [negb]; [done|].
  cbn [Array.find]. by rewrite Hy.
Qed.

Lemma filter_length_all {A} (p : A -> bool) (l : list A) :
  List.length (List.filter p l) = List.length l <-> forall x, In x l -> p x = true.
Proof.
  induction l as [|y l IH]; cbn [List.filter List.length]; [by split|].
  pose proof (filter_length_le p l) as Hle.
  destruct (p y) eqn:Hy; cbn [List.length].
  - split.
    + intros Hlen x [<-|Hin]; [done|]. apply IH; [lia|done].
    + intros Hall. f_equal. apply IH. intros x Hin. apply Hall. by right.
  - split; [lia|]. intros Hall. specialize (Hall y (or_introl eq_refl)). congruence.
Qed.

Lemma filter_filter_same {A} (p : A -> bool) (l : list A) :
  List.filter p (List.filter p l) = List.filter p l.
Proof.
  induction l as [|y l IH]; [done|]. cbn [List.filter].
  destruct (p y) eqn:Hy; [|done]. cbn [List.filter]. by rewrite Hy, IH.
Qed.

Lemma user_id_decide (id : string) (users : list User.t) :
  (exists user, In user users /\ User.id user = id) \/
  (forall user, In user users -> User.id user <> id).
Proof.
  induction users as [|y l [(user & Hin & Hid)|Hno]].
  - right. intros user [].
  - left. exists user. split; [by right|done].
  - destruct (String.eqb_spec (User.id y) id) as [Heq|Hne].
    + left. exists y. split; [by left|done].
    + right. intros user [<-|Hin]; [done|by apply Hno].
Qed.

(** What [deleteUser] evaluates to. *)
Lemma deleteUser_run id w :
  deleteUser id w =
    let kept := Array.filter (fun user => negb (has_id id user)) (stored_users w) in
    if Array.length kept =? Array.length (stored_users w)
    then (Normal false, touched GetItem USERS w)
    else (Normal true, after (setItem USERS kept) (touched GetItem USERS w)).
Proof.
  unfold deleteUser, mbind, M_bind, bind, after.
  change (getUsers w) with (Normal (stored_users w), touched GetItem USERS w).
  cbv zeta. cbn [fst snd].
  change (fun user => negb (String.eqb (User.id user) id))
    with (fun user => negb (has_id id user)).
  destruct (_ =? _); [done|].
  unfold setItem, try_catch, localStorage_setItem, console_error.
  by destruct (accepts _ _).
Qed.

Lemma setItem_healthy k data w :
  healthy w ->
  localStorage (after (setItem k data) w) = put_item (localStorage w) k (Some data) /\
  env (after (setItem k data) w) = env w /\
  state (after (setItem k data) w) = state w.
Proof.
  intros H. unfold after, setItem, try_catch, localStorage_setItem, console_error.
  by rewrite (H (writes w)).
Qed.

Lemma healthy_env w w' : env w' = env w -> healthy w -> healthy w'.
Proof. intros He H n. rewrite He. apply H. Qed.

(** X1 ([deleteUser]).  [deleteUser(id)] returns [true] exactly when some
    stored user has that id, and [false] leaves the store as it was.  On a
    store that accepts writes, after a [true] every user with the id is
    gone and no other: [getUserById(id)] finds nothing and a second
    [deleteUser(id)] returns [false]. *)
Theorem deleteUser_then_get (w : World) (id : string) :
  let w' := after (deleteUser id) w in
  (result (deleteUser id) w = Normal true <->
   exists user, In user (stored_users w) /\ User.id user = id) /\
  (result (deleteUser id) w = Normal false <->
   forall user, In user (stored_users w) -> User.id user <> id) /\
  (result (deleteUser id) w = Normal false -> localStorage w' = localStorage w) /\
  (healthy w ->
   result (deleteUser id) w = Normal true ->
   stored_users w' =
     List.filter (fun user => negb (String.eqb (User.id user) id)) (stored_users w) /\
   result (getUserById id) w' = Normal None /\
   result (deleteUser id) w' = Normal false).
Proof.
  cbv zeta.
  set (users := stored_users w).
  set (kept := Array.filter (fun user => negb (has_id id user)) users).
  assert (Array.length kept = Array.length users <->
          forall user, In user users -> User.id user <> id) as Hall.
  { unfold Array.length, kept, Array.filter. rewrite Nat2Z.inj_iff, filter_length_all.
    split; intros H user Hin; specialize (H user Hin).
    - unfold has_id in H. intros <-. by rewrite String.eqb_refl in H.
    - unfold has_id. by destruct (String.eqb_spec (User.id user) id). }
  pose proof (deleteUser_run id w) as Hrun. cbv zeta in Hrun.
  fold users in Hrun. fold kept in Hrun.
  assert (result (deleteUser id) w =
          Normal (negb (Array.length kept =? Array.length users))) as Hres.
  { unfold result. rewrite Hrun. by destruct (_ =? _). }
  rewrite Hres.
  destruct (Z.eqb_spec (Array.length kept) (Array.length users)) as [Heq|Hne];
    cbn [negb].
  - assert (after (deleteUser id) w = touched GetItem USERS w) as ->.
    { unfold after. by rewrite Hrun. }
    split; [split; [done|]|].
    { intros (user & Hin & Hid). by destruct (proj1 Hall Heq user Hin). }
    split; [split; [intros _; by apply Hall|done]|]. split; [done|]. done.
  - assert (after (deleteUser id) w = after (setItem USERS kept) (touched GetItem USERS w))
      as ->.
    { unfold after at 1. by rewrite Hrun. }
    split; [split; [intros _|done]|].
    { destruct (user_id_decide id users) as [|Hno]; [done|].
      destruct Hne. by apply Hall. }
    split; [split; [done|]|].
    { intros H. destruct Hne. by apply Hall. }
    split; [done|]. intros Hw _.
    destruct (setItem_healthy USERS kept (touched GetItem USERS w))
      as (Hls & Henv & _); [done|].
    set (w' := after (setItem USERS kept) (touched GetItem USERS w)) in *.
    assert (stored_users w' = kept) as Hstored.
    { unfold stored_users. by rewrite Hls. }
    split; [exact Hstored|]. split.
    + rewrite getUserById_result, Hstored. f_equal. apply find_filter_out.
    + unfold result. rewrite deleteUser_run. cbv zeta. rewrite Hstored.
      unfold kept, Array.filter at 1. rewrite filter_filter_same.
      fold (Array.filter (fun user => negb (has_id id user)) users).
      by rewrite Z.eqb_refl.
Qed.

Lemma wp_Date_now Q w :
  Q (clock (env w) (ticks w)) (with_ticks (S (ticks w)) w) -> wp Date_now Q w.
Proof. done. Qed.

Lemma wp_Math_random Q w :
  Q (random (env w) (draws w)) (with_draws (S (draws w)) w) -> wp Math_random Q w.
Proof. done. Qed.

Lemma wp_toString36 n Q w : Q (radix36 (env w) n) w -> wp (toString36 n) Q w.
Proof. done. Qed.

Lemma wp_useState Q w : Q (state w) w -> wp useState Q w.
Proof. done. Qed.

Lemma getTerminalById_result id w :
  result (getTerminalById id) w =
  Normal (Array.find (terminal_has_id id) (stored_terminals w)).
Proof. done. Qed.

Lemma getCurrentUser_result w :
  result getCurrentUser w = Normal (current_user_item (localStorage w)).
Proof. done. Qed.

(** X2 (update of an unknown id).  When no stored record has the id,
    [updateUser], [updateTerminal] and [updateTicket] return [null] and do
    not write: the store, the write counter and the console are as before. *)
Theorem update_unknown_id_is_noop (w : World) (id : string) :
  (forall updates,
     result (getUserById id) w = Normal None ->
     let w' := after (updateUser id updates) w in
     result (updateUser id updates) w = Normal None /\
     localStorage w' = localStorage w /\ writes w' = writes w /\
     console w' = console w) /\
  (forall updates,
     result (getTerminalById id) w = Normal None ->
     let w' := after (updateTerminal id updates) w in
     result (updateTerminal id updates) w = Normal None /\
     localStorage w' = localStorage w /\ writes w' = writes w /\
     console w' = console w) /\
  (forall updates,
     Array.find (ticket_has_id id) (stored_tickets w) = None ->
     let w' := after (updateTicket id updates) w in
     result (updateTicket id updates) w = Normal None /\
     localStorage w' = localStorage w /\ writes w' = writes w /\
     console w' = console w).
Proof.
  split; [|split]; intros updates Hnone; cbv zeta.
  - rewrite getUserById_result in Hnone. injection Hnone as Hnone.
    apply find_None_findIndex in Hnone.
    unfold result, after, updateUser, mbind, M_bind, bind.
    change (getUsers w) with (Normal (stored_users w), touched GetItem USERS w).
    change (fun user => String.eqb (User.id user) id) with (has_id id).
    cbv beta iota zeta. by rewrite Hnone.
  - rewrite getTerminalById_result in Hnone. injection Hnone as Hnone.
    apply find_None_findIndex in Hnone.
    unfold result, after, updateTerminal, mbind, M_bind, bind.
    change (getTerminals w)
      with (Normal (stored_terminals w), touched GetItem TERMINALS w).
    change (fun terminal => String.eqb (Terminal.id terminal) id)
      with (terminal_has_id id).
    cbv beta iota zeta. by rewrite Hnone.
  - apply find_None_findIndex in Hnone.
    unfold result, after, updateTicket, mbind, M_bind, bind.
    change (getTickets w) with (Normal (stored_tickets w), touched GetItem TICKETS w).
    change (fun ticket => String.eqb (SupportTicket.id ticket) id)
      with (ticket_has_id id).
    cbv beta iota zeta. by rewrite Hnone.
Qed.

(** [createUser] on a store that accepts writes. *)
Lemma wp_createUser w userData (Q : User.t -> World -> Prop) :
  healthy w ->
  (forall id created updated w',
     env w' = env w -> state w' = state w ->
     localStorage w' =
       put_item (localStorage w) USERS
         (Some (stored_users w ++ [User.create id userData created updated])%list) ->
     Q (User.create id userData created updated) w') ->
  wp (createUser userData) Q w.
Proof.
  intros Hw HQ. unfold createUser.
  apply wp_bind, wp_getUsers, wp_bind, wp_Date_now, wp_bind, wp_Math_random,
    wp_bind, wp_toString36, wp_bind, wp_new_Date, wp_bind, wp_new_Date.
  cbv zeta. apply wp_bind, wp_setItem; [intros _|by rewrite (Hw _)].
  apply wp_ret. by apply HQ.
Qed.

(** X3 ([createUser]).  On a store that accepts writes, [createUser]
    returns a record with the fields it was given and stores it after the
    users already there.  It checks neither the username nor the id: every
    username and every id that resolved to a record before the call
    resolves to the same record after it, so a user created under a
    username that is taken is never the one [getUserByUsername] returns. *)
Theorem createUser_appends (w : World) (userData : User.Draft.t) :
  healthy w ->
  let w' := after (createUser userData) w in
  exists id created updated,
    let newUser := User.create id userData created updated in
    result (createUser userData) w = Normal newUser /\
    stored_users w' = (stored_users w ++ [newUser])%list /\
    (forall username user,
       result (getUserByUsername username) w = Normal (Some user) ->
       result (getUserByUsername username) w' = Normal (Some user)) /\
    (forall id' user,
       result (getUserById id') w = Normal (Some user) ->
       result (getUserById id') w' = Normal (Some user)) /\
    (result (getUserById id) w = Normal None ->
     result (getUserById id) w' = Normal (Some newUser)).
Proof.
  intros Hw. cbv zeta.
  assert (wp (createUser userData)
            (fun r w' => exists id created updated,
               r = User.create id userData created updated /\
               stored_users w' = (stored_users w ++ [r])%list) w) as H.
  { apply wp_createUser; [done|]. intros id created updated w' _ _ Hls.
    exists id, created, updated. split; [done|]. unfold stored_users at 1. by rewrite Hls. }
  destruct (wp_elim _ _ _ H) as (r & Hr & id & created & updated & -> & Hstored).
  exists id, created, updated. cbv zeta. split; [done|]. split; [done|].
  split; [|split].
  - intros username user. rewrite !getUserByUsername_result, Hstored.
    intros [= Hf]. by rewrite find_app_last, Hf.
  - intros id' user. rewrite !getUserById_result, Hstored.
    intros [= Hf]. by rewrite find_app_last, Hf.
  - rewrite !getUserById_result, Hstored.
    intros [= Hf]. rewrite find_app_last, Hf. unfold has_id. cbn [User.create User.id].
    by rewrite String.eqb_refl.
Qed.

(** X4 ([updateTerminalStatus]).  It returns [false] and changes nothing
    when no stored terminal has the id.  Otherwise it returns [true]; on a
    store that accepts writes the first terminal with the id then has the
    new status and a [lastSeen] equal to the clock reading taken by the
    call, its identity and counters are as before, and no other terminal
    changes. *)
Theorem updateTerminalStatus_sets_status (w : World) (id : string) (status : TerminalStatus) :
  let w' := after (updateTerminalStatus id status) w in
  (result (getTerminalById id) w = Normal None ->
   result (updateTerminalStatus id status) w = Normal false /\
   localStorage w' = localStorage w) /\
  (forall i old,
     first_at (terminal_has_id id) (stored_terminals w) i old ->
     result (updateTerminalStatus id status) w = Normal true /\
     (healthy w ->
      exists new,
        stored_terminals w' = <[i := new]> (stored_terminals w) /\
        Terminal.status new = status /\
        Terminal.lastSeen new = DateAt (clock (env w) (ticks w)) /\
        Terminal.id new = Terminal.id old /\
        Terminal.location new = Terminal.location old /\
        Terminal.merchant new = Terminal.merchant old /\
        Terminal.uptime new = Terminal.uptime old /\
        Terminal.transactionsToday new = Terminal.transactionsToday old /\
        Terminal.createdAt new = Terminal.createdAt old)).
Proof.
  cbv zeta. split.
  - intros Hnone. rewrite getTerminalById_result in Hnone. injection Hnone as Hnone.
    apply find_None_findIndex in Hnone.
    unfold result, after, updateTerminalStatus, updateTerminal, new_Date, Date_now,
      mbind, M_bind, bind, ret.
    change (getTerminals (with_ticks (S (ticks w)) w))
      with (Normal (stored_terminals w),
            touched GetItem TERMINALS (with_ticks (S (ticks w)) w)).
    change (fun terminal => String.eqb (Terminal.id terminal) id)
      with (terminal_has_id id).
    cbv beta iota zeta. by rewrite Hnone.
  - intros i old Hat.
    assert (wp (updateTerminalStatus id status)
              (fun r w' =>
                 r = true /\
                 (healthy w ->
                  exists new,
                    stored_terminals w' = <[i := new]> (stored_terminals w) /\
                    new = Terminal.assign old
                            (Terminal.Partial.status_lastSeen status
                               (DateAt (clock (env w) (ticks w))))
                            (DateAt (clock (env w) (S (ticks w)))))) w) as H.
    { unfold updateTerminalStatus. apply wp_bind, wp_new_Date, wp_bind.
      eapply wp_updateTerminal; [exact Hat|].
      intros w' _ _ _ Hls. apply wp_ret. split; [done|]. intros Hw.
      eexists. split; [|reflexivity].
      world_simpl. rewrite Hls, (Hw _). reflexivity. }
    destruct (wp_elim _ _ _ H) as (r & Hr & -> & Hnew).
    split; [done|]. intros Hw. destruct (Hnew Hw) as (new & Hstored & ->).
    eexists. split; [exact Hstored|]. done.
Qed.

(** ** Seeding and reset *)

Section Keeps.
Context (R : World -> World -> Prop).
Hypothesis R_refl : forall w, R w w.
Hypothesis R_trans : forall w1 w2 w3, R w1 w2 -> R w2 w3 -> R w1 w3.

Lemma keeps_ret {A} (a : A) : keeps R (ret a).
Proof using R_refl. intros w. apply R_refl. Qed.

Lemma keeps_bind {A B} (m : M A) (k : A -> M B) :
  keeps R m -> (forall a, keeps R (k a)) -> keeps R (m ≫= k).
Proof using R_trans.
  intros Hm Hk w. apply wp_bind. eapply wp_mono; [apply Hm|].
  intros a w1 H1. eapply wp_mono; [apply Hk|].
  intros b w2 H2. exact (R_trans _ _ _ H1 H2).
Qed.
End Keeps.

Lemma quiet_refl w : quiet w w.
Proof. by repeat split. Qed.

Lemma quiet_trans w1 w2 w3 : quiet w1 w2 -> quiet w2 w3 -> quiet w1 w3.
Proof.
  intros (? & ? & ? & ? & ?) (? & ? & ? & ? & ?). repeat split; congruence.
Qed.

Ltac quiet_step :=
  lazymatch goal with
  | |- keeps quiet (mbind _ _) =>
      apply (keeps_bind quiet quiet_trans); [|intros ?]
  | |- keeps quiet (ret _) => apply (keeps_ret quiet quiet_refl)
  | |- keeps quiet (let _ := _ in _) => cbv zeta
  | |- keeps quiet _ => by (intros ?; repeat split)
  end.

Lemma quiet_sampleMetrics_entry today i : keeps quiet (sampleMetrics_entry today i).
Proof.
  unfold sampleMetrics_entry, random_floor, random_scaled. repeat quiet_step.
Qed.

Lemma quiet_sampleMetrics_loop today i metrics :
  keeps quiet (sampleMetrics_loop today i metrics).
Proof.
  revert metrics. induction i as [|i IH]; intros metrics; cbn [sampleMetrics_loop];
    (apply (keeps_bind quiet quiet_trans); [apply quiet_sampleMetrics_entry|intros ?]);
    cbv zeta; [apply (keeps_ret quiet quiet_refl)|apply IH].
Qed.

Lemma quiet_generateSampleMetrics : keeps quiet generateSampleMetrics.
Proof.
  unfold generateSampleMetrics.
  apply (keeps_bind quiet quiet_trans); [by (intros ?; repeat split)|].
  intros ?. apply quiet_sampleMetrics_loop.
Qed.

Lemma quiet_generateSampleTerminals : keeps quiet generateSampleTerminals.
Proof. unfold generateSampleTerminals. repeat quiet_step. Qed.

Lemma quiet_generateSampleTickets : keeps quiet generateSampleTickets.
Proof. unfold generateSampleTickets. repeat quiet_step. Qed.

Lemma quiet_generateSampleAlerts : keeps quiet generateSampleAlerts.
Proof. unfold generateSampleAlerts. repeat quiet_step. Qed.

Lemma generateSampleTerminals_ids w :
  wp generateSampleTerminals
     (fun data _ => map Terminal.id data = ["T001"; "T002"; "T003"; "T004"; "T005"]) w.
Proof. done. Qed.

Lemma generateSampleTickets_ids w :
  wp generateSampleTickets
     (fun data _ => map SupportTicket.id data = ["TKT-2025-001"]) w.
Proof. done. Qed.

Lemma wp_and {A} (m : M A) (Q1 Q2 : A -> World -> Prop) w :
  wp m Q1 w -> wp m Q2 w -> wp m (fun a w' => Q1 a w' /\ Q2 a w') w.
Proof. unfold wp. by destruct (m w) as [[a|e] w']. Qed.

Lemma item_put_item_ne s k k' v : k <> k' -> item (put_item s k v) k' = item s k'.
Proof. by destruct k, k'. Qed.

Lemma item_put_item_eq s k v : item (put_item s k v) k = v.
Proof. by destruct k. Qed.

Lemma present_items_kept_refl w : present_items_kept w w.
Proof. by intros k _. Qed.

Lemma present_items_kept_trans w1 w2 w3 :
  present_items_kept w1 w2 -> present_items_kept w2 w3 -> present_items_kept w1 w3.
Proof.
  intros H1 H2 k Hk. rewrite <- (H1 k Hk). apply H2.
  destruct Hk as [Hk|Hk]; [left|by right]. by rewrite (H1 k (or_introl Hk)).
Qed.

Lemma setItem_writes_only k data : writes_only k (setItem k data).
Proof.
  intros w. apply wp_setItem; intros _ k' Hk'; world_simpl; [|done].
  apply item_put_item_ne. congruence.
Qed.

Lemma generate_writes_only k (gen : M (payload k)) :
  keeps quiet gen -> writes_only k (data ← gen; setItem k data).
Proof.
  intros Hgen w. apply wp_bind. eapply wp_mono; [apply Hgen|].
  intros data w1 (Hls & _). eapply wp_mono; [apply setItem_writes_only|].
  intros ? w2 H k' Hk'. cbv beta in H. by rewrite (H k' Hk'), Hls.
Qed.

(** One [if (!this.getItem(k)) this.setItem(k, ...)] of [initializeData]. *)
Lemma seed_keeps_present k (write : M unit) :
  k <> CURRENT_USER -> k <> COMMENTS ->
  writes_only k write ->
  keeps present_items_kept
    (stored ← getItem k; if stored is None then write else ret tt).
Proof.
  intros Hk1 Hk2 Hwrite w. apply wp_bind, wp_getItem.
  destruct (item (localStorage w) k) as [v|] eqn:Hitem.
  - apply wp_ret. intros k' _. done.
  - eapply wp_mono; [apply Hwrite|]. intros ? w1 H k' Hk'. cbv beta in H.
    world_simpl. apply H. intros Heq. subst k'.
    destruct Hk' as [Hk'|[Hk'|Hk']]; congruence.
Qed.

Lemma seed_then_keeps_present k (write : M unit) {B} (rest : M B) :
  k <> CURRENT_USER -> k <> COMMENTS ->
  writes_only k write ->
  keeps present_items_kept rest ->
  keeps present_items_kept
    (stored ← getItem k; (if stored is None then write else ret tt);; rest).
Proof.
  intros Hk1 Hk2 Hwrite Hrest w. apply wp_bind, wp_getItem.
  destruct (item (localStorage w) k) as [v|] eqn:Hitem; apply wp_bind.
  - apply wp_ret. eapply wp_mono; [apply Hrest|]. intros b w2 H2 k' Hk'.
    by apply H2.
  - eapply wp_mono; [apply Hwrite|]. intros ? w1 H1. cbv beta in H1.
    eapply wp_mono; [apply Hrest|]. intros b w2 H2. cbv beta in H2.
    apply (present_items_kept_trans _ w1); [|done].
    intros k' Hk'. world_simpl. apply H1. intros Heq. subst k'.
    destruct Hk' as [Hk'|[Hk'|Hk']]; congruence.
Qed.

Lemma initializeData_keeps : keeps present_items_kept initializeData.
Proof.
  unfold initializeData.
  apply seed_then_keeps_present; [done..|apply setItem_writes_only|].
  apply seed_then_keeps_present;
    [done..|apply generate_writes_only, quiet_generateSampleTerminals|].
  apply seed_then_keeps_present;
    [done..|apply generate_writes_only, quiet_generateSampleTickets|].
  apply seed_then_keeps_present;
    [done..|apply generate_writes_only, quiet_generateSampleAlerts|].
  apply seed_keeps_present;
    [done..|apply generate_writes_only, quiet_generateSampleMetrics].
Qed.

(** X5 ([initializeData]).  The constructor of the service leaves every
    collection item that holds an array, an empty one included, as it is:
    it writes only where [getItem] finds nothing.  The session and
    comments items are never touched, and nothing is thrown.  (A store
    holds values, not texts: an item that [JSON.parse] rejects or reads as
    [null] is not covered.) *)
Theorem initializeData_keeps_present_items : keeps present_items_kept initializeData.
Proof. exact initializeData_keeps. Qed.

Lemma removeAll_items w :
  wp (forEach STORAGE_KEYS_values (fun key => removeItem key))
     (fun _ w' =>
        localStorage w' = empty_storage /\ env w' = env w /\ state w' = state w) w.
Proof. done. Qed.

Section SeedAbsent.
Context (k : StorageKey) (gen : M (payload k)) (G : payload k -> Prop).
Context (w : World).
Hypothesis Hhealthy : healthy w.
Hypothesis Habsent : item (localStorage w) k = None.
Hypothesis Hquiet : keeps quiet gen.
Hypothesis Hgen : wp gen (fun data _ => G data) (touched GetItem k w).

Lemma wp_generate_and_set (Q : unit -> World -> Prop) :
  (forall data w',
     G data -> localStorage w' = put_item (localStorage w) k (Some data) ->
     env w' = env w -> state w' = state w -> Q tt w') ->
  wp (data ← gen; setItem k data) Q (touched GetItem k w).
Proof using Hhealthy Hquiet Hgen.
  intros HQ. apply wp_bind.
  eapply wp_mono; [apply (wp_and _ _ _ _ (Hquiet _) Hgen)|].
  intros data w1 ((Hls & Henv & Hst & _) & HG). world_simpl.
  apply wp_setItem; [intros _|by rewrite Henv, (Hhealthy _)].
  apply (HQ data); world_simpl; congruence.
Qed.

Lemma wp_seed_absent_then {B} (rest : M B) (Q : B -> World -> Prop) :
  (forall data w',
     G data -> localStorage w' = put_item (localStorage w) k (Some data) ->
     env w' = env w -> state w' = state w -> wp rest Q w') ->
  wp (stored ← getItem k;
      (if stored is None then data ← gen; setItem k data else ret tt);; rest) Q w.
Proof using Hhealthy Habsent Hquiet Hgen.
  intros HQ. apply wp_bind, wp_getItem. rewrite Habsent. apply wp_bind.
  by apply wp_generate_and_set.
Qed.

Lemma wp_seed_absent (Q : unit -> World -> Prop) :
  (forall data w',
     G data -> localStorage w' = put_item (localStorage w) k (Some data) ->
     env w' = env w -> state w' = state w -> Q tt w') ->
  wp (stored ← getItem k;
      if stored is None then data ← gen; setItem k data else ret tt) Q w.
Proof using Hhealthy Habsent Hquiet Hgen.
  intros HQ. apply wp_bind, wp_getItem. rewrite Habsent.
  by apply wp_generate_and_set.
Qed.
End SeedAbsent.

Lemma wp_trivial {A} (m : M A) (R : World -> World -> Prop) :
  keeps R m -> forall w, wp m (fun _ _ => True) w.
Proof. intros H w. eapply wp_mono; [apply H|done]. Qed.

(** [initializeData] on an empty store that accepts writes; [G] is what is
    known of the sample metrics. *)
Lemma initializeData_on_empty (G : list PerformanceMetrics.t -> Prop) w :
  healthy w ->
  localStorage w = empty_storage ->
  (forall w0, env w0 = env w -> wp generateSampleMetrics (fun data _ => G data) w0) ->
  wp initializeData
     (fun _ w' =>
        stored_users w' = generateSampleUsers /\
        map Terminal.id (stored_terminals w') = ["T001"; "T002"; "T003"; "T004"; "T005"] /\
        map SupportTicket.id (stored_tickets w') = ["TKT-2025-001"] /\
        current_user_item (localStorage w') = None /\
        comments_item (localStorage w') = None /\
        env w' = env w /\ state w' = state w /\
        G (default [] (metrics_item (localStorage w')))) w.
Proof.
  intros Hw Hempty Hmetrics. unfold initializeData.
  apply wp_bind, wp_getItem. rewrite Hempty. cbn [item empty_storage users_item].
  apply wp_bind, wp_setItem; [intros _|by rewrite (Hw _)].
  set (w1 := with_storage _ _).
  assert (localStorage w1 = put_item empty_storage USERS (Some generateSampleUsers))
    as Hls1 by (unfold w1; world_simpl; by rewrite Hempty).
  assert (env w1 = env w) as Henv1 by done.
  assert (state w1 = state w) as Hst1 by done.
  clearbody w1.
  apply (wp_seed_absent_then TERMINALS _
           (fun data => map Terminal.id data = ["T001"; "T002"; "T003"; "T004"; "T005"]));
    [by eapply healthy_env|by rewrite Hls1|apply quiet_generateSampleTerminals
    |apply generateSampleTerminals_ids|].
  intros d2 w2 Hd2 Hls2 Henv2 Hst2.
  apply (wp_seed_absent_then TICKETS _
           (fun data => map SupportTicket.id data = ["TKT-2025-001"]));
    [eapply healthy_env; [|exact Hw]; congruence|by rewrite Hls2, Hls1
    |apply quiet_generateSampleTickets|apply generateSampleTickets_ids|].
  intros d3 w3 Hd3 Hls3 Henv3 Hst3.
  apply (wp_seed_absent_then ALERTS _ (fun _ => True));
    [eapply healthy_env; [|exact Hw]; congruence|by rewrite Hls3, Hls2, Hls1
    |apply quiet_generateSampleAlerts
    |apply (wp_trivial _ _ quiet_generateSampleAlerts)|].
  intros d4 w4 _ Hls4 Henv4 Hst4.
  apply (wp_seed_absent METRICS _ G);
    [eapply healthy_env; [|exact Hw]; congruence|by rewrite Hls4, Hls3, Hls2, Hls1
    |apply quiet_generateSampleMetrics
    |apply Hmetrics; cbn [env touched with_accesses]; congruence|].
  intros d5 w5 Hd5 Hls5 Henv5 Hst5.
  unfold stored_users, stored_terminals, stored_tickets.
  rewrite Hls5, Hls4, Hls3, Hls2, Hls1.
  cbn [put_item item users_item terminals_item tickets_item current_user_item
       comments_item metrics_item empty_storage default from_option].
  do 5 (split; [done|]). split; [congruence|]. split; [congruence|]. exact Hd5.
Qed.

(** [clearAllData] on a store that accepts writes. *)
Lemma wp_clearAllData (G : list PerformanceMetrics.t -> Prop) w :
  healthy w ->
  (forall w0, env w0 = env w -> wp generateSampleMetrics (fun data _ => G data) w0) ->
  wp clearAllData
     (fun _ w' =>
        stored_users w' = generateSampleUsers /\
        map Terminal.id (stored_terminals w') = ["T001"; "T002"; "T003"; "T004"; "T005"] /\
        map SupportTicket.id (stored_tickets w') = ["TKT-2025-001"] /\
        current_user_item (localStorage w') = None /\
        comments_item (localStorage w') = None /\
        state w' = state w /\
        G (default [] (metrics_item (localStorage w')))) w.
Proof.
  intros Hw Hmetrics. unfold clearAllData. apply wp_bind.
  eapply wp_mono; [apply removeAll_items|].
  intros ? w1 (Hls & Henv & Hst).
  eapply wp_mono.
  { apply (initializeData_on_empty G); [by eapply healthy_env|done|].
    intros w0 Hw0. apply Hmetrics. congruence. }
  intros ? w2 (H1 & H2 & H3 & H4 & H5 & _ & H7 & H8). cbv beta.
  split; [exact H1|]. split; [exact H2|]. split; [exact H3|]. split; [exact H4|].
  split; [exact H5|]. split; [congruence|exact H8].
Qed.

(** X6 ([clearAllData]).  On a store that accepts writes, [clearAllData]
    leaves the four sample users as the stored users, the five sample
    terminals and the sample ticket, and no session and no comments item,
    whatever was stored before.  It does not touch the reducer: a user who
    was signed in stays the current user of the page. *)
Theorem clearAllData_resets_store (w : World) :
  healthy w ->
  let w' := after clearAllData w in
  result clearAllData w = Normal tt /\
  stored_users w' = generateSampleUsers /\
  map Terminal.id (stored_terminals w') = ["T001"; "T002"; "T003"; "T004"; "T005"] /\
  map SupportTicket.id (stored_tickets w') = ["TKT-2025-001"] /\
  result getCurrentUser w' = Normal None /\
  comments_item (localStorage w') = None /\
  state w' = state w.
Proof.
  intros Hw. cbv zeta.
  assert (wp clearAllData
            (fun _ w' =>
               stored_users w' = generateSampleUsers /\
               map Terminal.id (stored_terminals w')
                 = ["T001"; "T002"; "T003"; "T004"; "T005"] /\
               map SupportTicket.id (stored_tickets w') = ["TKT-2025-001"] /\
               current_user_item (localStorage w') = None /\
               comments_item (localStorage w') = None /\
               state w' = state w) w) as H.
  { eapply wp_mono.
    { apply (wp_clearAllData (fun _ => True)); [done|].
      intros w0 _. apply (wp_trivial _ _ quiet_generateSampleMetrics). }
    intros ? w2 (H1 & H2 & H3 & H4 & H5 & H6 & _). cbv beta.
    split; [exact H1|]. split; [exact H2|]. split; [exact H3|]. split; [exact H4|].
    split; [exact H5|exact H6]. }
  destruct (wp_elim _ _ _ H) as ([] & Hr & H1 & H2 & H3 & H4 & H5 & H6).
  rewrite getCurrentUser_result, H4. done.
Qed.

(** * Further properties of the session layer *)

Lemma find_some_in {A} (p : A -> bool) (l : list A) x :
  Array.find p l = Some x -> In x l /\ p x = true.
Proof.
  induction l as [|y l IH]; [done|]. cbn [Array.find].
  destruct (p y) eqn:Hy.
  - intros [= ->]. split; [by left|done].
  - intros H. destruct (IH H). split; [by right|done].
Qed.

Lemma in_first_at {A} (p : A -> bool) (l : list A) x :
  In x l -> p x = true -> exists i y, first_at p l i y.
Proof.
  intros Hin Hp. destruct (Array.find p l) as [y|] eqn:Hf.
  - destruct (find_first_at _ _ _ Hf) as [i Hi]. by exists i, y.
  - exfalso. induction l as [|z l IH]; [done|]. cbn [Array.find] in Hf.
    destruct (p z) eqn:Hz; [done|]. destruct Hin as [->|Hin]; [congruence|by apply IH].
Qed.

(** The record a username resolves to is stored, so its id resolves too. *)
Lemma username_then_id username user users :
  Array.find (has_username username) users = Some user ->
  exists i old, first_at (has_id (User.id user)) users i old.
Proof.
  intros Hf. destruct (find_some_in _ _ _ Hf) as [Hin _].
  apply (in_first_at _ _ user Hin). apply String.eqb_refl.
Qed.

Lemma first_at_id old i users id :
  first_at (has_id id) users i old -> User.id old = id.
Proof. intros (_ & H & _). by apply String.eqb_eq in H. Qed.

Ltac proj_simpl :=
  cbn [env localStorage console accesses state ticks draws writes
       touched with_storage with_console with_accesses with_state with_ticks
       with_draws with_writes with_env] in *.

(** [login], branch by branch, on any browser. *)
Lemma login_spec username password w :
  wp (login username password)
     (fun r w' => env w' = env w /\ loading (state w') = false /\
                  login_outcome username password w r w') w.
Proof.
  unfold login.
  apply wp_bind, wp_dispatch, wp_try, wp_bind, wp_getUserByUsername. world_simpl.
  change (default [] (users_item (localStorage w))) with (stored_users w).
  destruct (Array.find (has_username username) (stored_users w)) as [user|] eqn:Hfind.
  2:{ apply wp_bind, wp_dispatch, wp_ret. split; [done|]. split; [done|]. by apply login_unknown. }
  destruct (User.status user) eqn:Hst.
  2:{ change (status_is Locked "Locked") with true. cbv iota.
      apply wp_bind, wp_dispatch, wp_ret. split; [done|]. split; [done|].
      by eapply login_locked_out. }
  change (status_is Active "Locked") with false. cbv iota.
  destruct (username_then_id _ _ _ Hfind) as (i & old & Hat).
  destruct (String.eqb_spec (User.password user) password) as [Hpw|Hpw]; cbn [negb].
  - (* the password matches *)
    apply wp_bind, wp_new_Date, wp_bind.
    eapply wp_updateUser with (i := i); [exact Hat|].
    intros w1 Henv1 Hstate1 Hticks1 Hls1. proj_simpl.
    unfold setCurrentUser. apply wp_bind, wp_setItem; intros Hacc2;
      apply wp_bind, wp_dispatch, wp_ret; proj_simpl; (split; [congruence|]); (split; [done|]);
      (eapply login_accepted; [exact Hfind|exact Hst|exact Hpw|exact Hat|..]).
    + intros k Hk1 Hk2. proj_simpl. rewrite item_put_item_ne by congruence.
      rewrite Hls1. destruct (accepts _ _); [|done].
      by rewrite item_put_item_ne by congruence.
    + eexists. split; [reflexivity|]. intros Hw. world_simpl.
      rewrite Hls1, (Hw _). by world_simpl.
    + intros k Hk1 Hk2. proj_simpl.
      rewrite Hls1. destruct (accepts _ _); [|done].
      by rewrite item_put_item_ne by congruence.
    + eexists. split; [reflexivity|]. intros Hw.
      rewrite Henv1, (Hw _) in Hacc2. done.
  - (* the password does not match *)
    apply wp_bind. eapply wp_updateUser; [exact Hat|].
    intros w1 Henv1 Hstate1 Hticks1 Hls1. proj_simpl.
    apply wp_bind. rewrite assign_failedLoginAttempts.
    assert (forall k, k <> USERS ->
                      item (localStorage w1) k = item (localStorage w) k) as Hframe1.
    { intros k Hk. rewrite Hls1. destruct (accepts _ _); [|done].
      by apply item_put_item_ne. }
    assert (exists old1, first_at (has_id (User.id user)) (stored_users w1) i old1 /\
              (healthy w ->
               old1 = User.assign old
                        (User.Partial.with_failedLoginAttempts
                           (User.failedLoginAttempts user + 1) User.Partial.empty)
                        (DateAt (clock (env w) (ticks w))) /\
               stored_users w1 = <[i := old1]> (stored_users w)))
      as (old1 & Hat1 & Hold1).
    { destruct (accepts (env w) (writes w)) eqn:Hacc.
      - eexists. split.
        + unfold stored_users at 1. rewrite Hls1. cbn [put_item item users_item default].
          eapply first_at_insert; [exact Hat|]. by destruct Hat as (_ & ? & _).
        + intros _. split; [reflexivity|].
          unfold stored_users at 1. by rewrite Hls1.
      - exists old. split; [|intros Hw; by rewrite (Hw _) in Hacc].
        unfold stored_users. rewrite Hls1. exact Hat. }
    destruct (Z.leb_spec 3 (User.failedLoginAttempts user + 1)) as [Hge|Hlt].
    + apply wp_bind. eapply wp_updateUser; [exact Hat1|].
      intros w2 Henv2 Hstate2 _ Hls2. apply wp_dispatch, wp_ret. proj_simpl.
      split; [congruence|]. split; [done|].
      eapply login_rejected; [exact Hfind|exact Hst|exact Hpw|exact Hat|..].
      * intros k Hk. proj_simpl. rewrite Hls2.
        destruct (accepts (env w1) (writes w1)); [|by apply Hframe1].
        rewrite item_put_item_ne by congruence. by apply Hframe1.
      * done.
      * intros Hw. destruct (Hold1 Hw) as (-> & Hs1). eexists.
        unfold rejected_updates. destruct (Z.leb_spec 3 (User.failedLoginAttempts user + 1)); [|lia].
        unfold stored_users at 1. proj_simpl. rewrite Hls2, Henv1, (Hw _).
        cbn [put_item item users_item default].
        rewrite Hs1, list_insert_insert_eq. reflexivity.
    + apply wp_dispatch, wp_ret. proj_simpl. split; [congruence|]. split; [done|].
      eapply login_rejected; [exact Hfind|exact Hst|exact Hpw|exact Hat|..].
      * intros k Hk. proj_simpl. by apply Hframe1.
      * done.
      * intros Hw. destruct (Hold1 Hw) as (-> & Hs1). eexists.
        unfold rejected_updates. destruct (Z.leb_spec 3 (User.failedLoginAttempts user + 1)); [lia|].
        unfold stored_users at 1. proj_simpl.
        change (default [] (users_item (localStorage w1))) with (stored_users w1).
        rewrite Hs1. reflexivity.
Qed.

Lemma wp_result {A} (m : M A) Q w :
  wp m Q w -> exists a, result m w = Normal a /\ Q a (after m w).
Proof.
  unfold wp, result, after. destruct (m w) as [[a|e] w']; [|done].
  intros H. by exists a.
Qed.

(** X7. Whatever the browser, [login] returns (it never throws), and it
    returns [true] exactly when the username resolves to a stored account
    that is active and whose password is the one given. *)
Theorem login_succeeds_iff (w : World) (username password : string) :
  exists r,
    result (login username password) w = Normal r /\
    (r = true <->
     exists user,
       Array.find (has_username username) (stored_users w) = Some user /\
       User.status user = Active /\
       User.password user = password).
Proof.
  destruct (wp_result _ _ _ (login_spec username password w)) as (r & Hr & _ & _ & Hout).
  exists r. split; [exact Hr|]. split.
  - intros ->. inversion Hout; subst. by exists user.
  - intros (user & Hfind & Hst & Hpw).
    inversion Hout; subst; try done; congruence.
Qed.

(** X8. A [login] that returns [false] signs the reducer out, whoever was
    signed in, but writes to no item other than the users: the persisted
    session is as it was, so the next page load signs its user in again.
    When the username is unknown or the account is locked the store as a
    whole is unchanged. *)
Theorem failed_login_keeps_persisted_session (w : World) (username password : string) :
  result (login username password) w = Normal false ->
  let w' := after (login username password) w in
  currentUser (state w') = None /\
  (forall k, k <> USERS -> item (localStorage w') k = item (localStorage w) k) /\
  result getCurrentUser w' = result getCurrentUser w /\
  ((Array.find (has_username username) (stored_users w) = None \/
    exists user, Array.find (has_username username) (stored_users w) = Some user /\
                 User.status user = Locked) ->
   localStorage w' = localStorage w).
Proof.
  intros Hr w'.
  destruct (wp_result _ _ _ (login_spec username password w)) as (r & Hr' & _ & _ & Hout).
  rewrite Hr in Hr'. injection Hr' as <-. fold w' in Hout.
  assert (currentUser (state w') = None /\
          (forall k, k <> USERS -> item (localStorage w') k = item (localStorage w) k))
    as [Hcur Hframe].
  { inversion Hout; subst; split; try done; intros k _; congruence. }
  split; [exact Hcur|]. split; [exact Hframe|]. split.
  - rewrite !getCurrentUser_result. f_equal. by apply (Hframe CURRENT_USER).
  - intros Hcase. inversion Hout; subst; try done.
    destruct Hcase as [?|(user' & ? & ?)]; congruence.
Qed.

Lemma In_insert {A} (l : list A) i x y : In y (<[i := x]> l) -> y = x \/ In y l.
Proof.
  revert i. induction l as [|z l IH]; intros [|i]; cbn; try tauto.
  - intros [->|H]; tauto.
  - intros [->|H]; [tauto|]. destruct (IH _ H); tauto.
Qed.

(** X9. On a browser that accepts writes, [login] keeps the store free of
    accounts that have three or more failed attempts and are not locked:
    if there was none before the call there is none after it, whatever the
    credentials. *)
Theorem login_keeps_locked_at_three (w : World) (username password : string) :
  healthy w ->
  locked_at_three (stored_users w) ->
  locked_at_three (stored_users (after (login username password) w)).
Proof.
  intros Hw Hinv.
  destruct (wp_result _ _ _ (login_spec username password w)) as (r & _ & _ & _ & Hout).
  inversion Hout as [w' Hf Hls|u w' Hf Hst Hls|u i old w' Hf Hst Hpw Hat Hfr Hcur Hus
                    |u i old w' Hf Hst Hpw Hat Hfr Hus]; subst.
  - unfold stored_users. rewrite Hls. exact Hinv.
  - unfold stored_users. rewrite Hls. exact Hinv.
  - destruct (Hus Hw) as (now & ->). intros x Hin Hx.
    apply In_insert in Hin as [->|Hin]; [|by apply Hinv].
    revert Hx. unfold rejected_updates.
    destruct (Z.leb_spec 3 (User.failedLoginAttempts u + 1)); cbn; [done|lia].
  - destruct Hus as (now & _ & Hus). destruct (Hus Hw) as [-> _]. intros x Hin Hx.
    apply In_insert in Hin as [->|Hin]; [|by apply Hinv].
    cbn in Hx. lia.
Qed.

(** *** Page load *)

Lemma same_session_refl w : same_session w w.
Proof. done. Qed.

Lemma same_session_trans w1 w2 w3 :
  same_session w1 w2 -> same_session w2 w3 -> same_session w1 w3.
Proof. intros [? ?] [? ?]. split; congruence. Qed.

Lemma quiet_same_session {A} (m : M A) : keeps quiet m -> keeps same_session m.
Proof.
  intros H w. eapply wp_mono; [apply H|]. by intros a w' (_ & ? & ? & _).
Qed.

Lemma same_session_setItem k data : keeps same_session (setItem k data).
Proof. intros w. by apply wp_setItem. Qed.

Lemma same_session_seed k (gen : M (payload k)) {B} (rest : M B) :
  keeps same_session gen ->
  keeps same_session rest ->
  keeps same_session
    (stored ← getItem k;
     (if stored is None then data ← gen; setItem k data else ret tt);; rest).
Proof.
  intros Hgen Hrest.
  apply (keeps_bind _ same_session_trans); [by intros ?|]. intros stored.
  apply (keeps_bind _ same_session_trans); [|by intros ?].
  destruct stored; [apply (keeps_ret _ same_session_refl)|].
  apply (keeps_bind _ same_session_trans); [exact Hgen|].
  intros ?. apply same_session_setItem.
Qed.

Lemma same_session_initializeData : keeps same_session initializeData.
Proof.
  unfold initializeData.
  apply (keeps_bind _ same_session_trans); [by intros ?|]. intros stored.
  apply (keeps_bind _ same_session_trans);
    [destruct stored; [apply (keeps_ret _ same_session_refl)|apply same_session_setItem]|].
  intros _.
  apply same_session_seed; [apply quiet_same_session, quiet_generateSampleTerminals|].
  apply same_session_seed; [apply quiet_same_session, quiet_generateSampleTickets|].
  apply same_session_seed; [apply quiet_same_session, quiet_generateSampleAlerts|].
  apply (keeps_bind _ same_session_trans); [by intros ?|]. intros stored'.
  destruct stored'; [apply (keeps_ret _ same_session_refl)|].
  apply (keeps_bind _ same_session_trans);
    [apply quiet_same_session, quiet_generateSampleMetrics|].
  intros ?. apply same_session_setItem.
Qed.

Lemma wp_getCurrentUser (Q : option User.t -> World -> Prop) w :
  Q (current_user_item (localStorage w)) (touched GetItem CURRENT_USER w) ->
  wp getCurrentUser Q w.
Proof. done. Qed.

(** A page load signs in the user of the persisted session, if there is
    one, and leaves that item as it is. *)
Lemma page_load_spec w :
  wp page_load
     (fun _ w' =>
        env w' = env w /\
        current_user_item (localStorage w') = current_user_item (localStorage w) /\
        state w' =
          match current_user_item (localStorage w) with
          | Some user => authReducer (state w) (LOGIN_SUCCESS user)
          | None => state w
          end) w.
Proof.
  unfold page_load, LocalStorageService_new. apply wp_bind.
  eapply wp_mono;
    [apply (wp_and _ _ _ _ (initializeData_keeps w) (same_session_initializeData w))|].
  intros ? w1 [Hkept [Henv Hstate]]. cbv beta in *.
  pose proof (Hkept CURRENT_USER (or_intror (or_introl eq_refl))) as Hcur.
  change (item ?s CURRENT_USER) with (current_user_item s) in Hcur.
  unfold AuthProvider_mount. apply wp_bind, wp_getCurrentUser. proj_simpl.
  rewrite Hcur. destruct (current_user_item (localStorage w)) as [user|].
  - apply wp_dispatch. proj_simpl. by rewrite Hcur, Hstate.
  - apply wp_ret. proj_simpl. by rewrite Hcur, Hstate.
Qed.

(** X10. A page load (the service constructor, then the provider's mount
    effect, on a fresh reducer) never throws and signs in exactly the
    persisted session: the reducer's user is the session item, which is
    left as it was. *)
Theorem page_load_restores_session (w : World) :
  let w' := after page_load (reloaded w) in
  result page_load (reloaded w) = Normal tt /\
  currentUser (state w') = current_user_item (localStorage w) /\
  result getCurrentUser w' = result getCurrentUser w.
Proof.
  intros w'.
  destruct (wp_result _ _ _ (page_load_spec (reloaded w))) as ([] & Hr & _ & Hitem & Hcur).
  fold w' in Hitem, Hcur. unfold reloaded in Hitem, Hcur. proj_simpl.
  split; [exact Hr|]. split.
  - rewrite Hcur. by destruct (current_user_item (localStorage w)).
  - rewrite !getCurrentUser_result. by rewrite Hitem.
Qed.

(** X11. On a browser that accepts writes, a successful [login] survives a
    reload: the next page load signs the same record in. *)
Theorem login_survives_reload (w : World) (username password : string) :
  healthy w ->
  result (login username password) w = Normal true ->
  let w1 := after (login username password) w in
  let w2 := after page_load (reloaded w1) in
  exists user,
    currentUser (state w1) = Some user /\
    currentUser (state w2) = Some user /\
    loading (state w2) = false.
Proof.
  intros Hw Hr w1 w2.
  destruct (wp_result _ _ _ (login_spec username password w)) as (r & Hr' & _ & _ & Hout).
  rewrite Hr in Hr'. injection Hr' as <-. fold w1 in Hout.
  inversion Hout as [| | |u i old w' Hf Hst Hpw Hat Hfr Hex]; subst.
  destruct Hex as (now & Hcur & Hus). destruct (Hus Hw) as [_ Hitem].
  destruct (wp_result _ _ _ (page_load_spec (reloaded w1))) as ([] & _ & _ & _ & Hst2).
  fold w2 in Hst2. unfold reloaded in Hst2. proj_simpl. rewrite Hitem in Hst2.
  eexists. split; [exact Hcur|]. by rewrite Hst2.
Qed.

(** *** Signing out, guards and the current user *)

Lemma anonymous_results w :
  currentUser (state w) = None ->
  (forall permission, result (hasPermission permission) w = Normal false) /\
  result getAccessibleTerminals w = Normal [] /\
  result getAccessibleTickets w = Normal [].
Proof.
  intros H.
  unfold result, hasPermission, getAccessibleTerminals, getAccessibleTickets, useState,
    mbind, M_bind, bind.
  by rewrite H.
Qed.

(** X12. [logout] always ends the session, on any browser: the reducer is
    back at its initial state, the session item is gone and every other
    item is as it was; no permission is granted and nothing is listed; and
    the next page load stays signed out. *)
Theorem logout_signs_out (w : World) :
  let w1 := after logout w in
  let w2 := after page_load (reloaded w1) in
  result logout w = Normal tt /\
  state w1 = initialState /\
  result getCurrentUser w1 = Normal None /\
  (forall k, k <> CURRENT_USER -> item (localStorage w1) k = item (localStorage w) k) /\
  (forall permission, result (hasPermission permission) w1 = Normal false) /\
  result getAccessibleTerminals w1 = Normal [] /\
  result getAccessibleTickets w1 = Normal [] /\
  currentUser (state w2) = None.
Proof.
  intros w1 w2.
  assert (state w1 = initialState) as Hstate by done.
  assert (current_user_item (localStorage w1) = None) as Hitem by done.
  split; [done|]. split; [exact Hstate|]. split; [done|]. split.
  { intros k Hk. by destruct k. }
  destruct (anonymous_results w1) as (Hp & Ht & Hk); [by rewrite Hstate|].
  split; [exact Hp|]. split; [exact Ht|]. split; [exact Hk|].
  destruct (wp_result _ _ _ (page_load_spec (reloaded w1))) as ([] & _ & _ & _ & Hst2).
  fold w2 in Hst2. unfold reloaded in Hst2. proj_simpl. rewrite Hitem in Hst2.
  by rewrite Hst2.
Qed.

(** X13. On a browser that accepts writes, [updateCurrentUser] merges the
    updates into the stored record that has the id of the reducer's user,
    not into the reducer's copy, and leaves the store, the session item and
    the reducer holding the same merged record. *)
Theorem updateCurrentUser_syncs (w : World) (updates : User.Partial.t)
    (user old : User.t) (i : nat) :
  healthy w ->
  currentUser (state w) = Some user ->
  first_at (has_id (User.id user)) (stored_users w) i old ->
  let w' := after (updateCurrentUser updates) w in
  let merged := User.assign old updates (DateAt (clock (env w) (ticks w))) in
  result (updateCurrentUser updates) w = Normal tt /\
  currentUser (state w') = Some merged /\
  result getCurrentUser w' = Normal (Some merged) /\
  stored_users w' = <[i := merged]> (stored_users w) /\
  loading (state w') = loading (state w) /\
  error (state w') = error (state w).
Proof.
  intros Hw Hcur Hat w' merged.
  assert (wp (updateCurrentUser updates)
             (fun _ w' =>
                currentUser (state w') = Some merged /\
                current_user_item (localStorage w') = Some merged /\
                stored_users w' = <[i := merged]> (stored_users w) /\
                loading (state w') = loading (state w) /\
                error (state w') = error (state w)) w) as Hwp.
  { unfold updateCurrentUser. apply wp_bind, wp_useState. rewrite Hcur.
    apply wp_bind. eapply wp_updateUser; [exact Hat|].
    intros w1 Henv1 Hstate1 Hticks1 Hls1. rewrite (Hw _) in Hls1.
    unfold setCurrentUser. apply wp_bind, wp_setItem; intros Hacc.
    2:{ by rewrite Henv1, (Hw _) in Hacc. }
    apply wp_dispatch. proj_simpl. rewrite Hstate1.
    split; [done|]. split; [done|]. split; [|done].
    unfold stored_users at 1. proj_simpl. by rewrite Hls1. }
  apply wp_result in Hwp as ([] & Hr & H1 & H2 & H3 & H4 & H5). fold w' in H1, H2, H3, H4, H5.
  split; [exact Hr|]. split; [exact H1|]. split; [|done].
  rewrite getCurrentUser_result. by rewrite H2.
Qed.

(** The four role helpers, on a world whose reducer holds a given user. *)
Lemma role_helpers_run w :
  result isAdmin w =
    Normal (if currentUser (state w) is Some user
            then role_is (User.role user) "Administrator" else false) /\
  result isManager w =
    Normal (if currentUser (state w) is Some user
            then role_is (User.role user) "Service Desk Manager" else false) /\
  result isSupport w =
    Normal (if currentUser (state w) is Some user
            then role_is (User.role user) "Support Agent" else false) /\
  result isMerchant w =
    Normal (if currentUser (state w) is Some user
            then role_is (User.role user) "Merchant" else false).
Proof. done. Qed.

(** X14. The route [/user-management] renders its page exactly when the
    reducer is not loading and [hasPermission('manage_users')] holds, that
    is for an administrator or a service desk manager: the hard-coded role
    list of the route agrees with the permission table.  Rendering changes
    nothing. *)
Theorem user_management_route_guard (w : World) :
  (result user_management_route w = Normal (Page "UserManagement") <->
   loading (state w) = false /\
   result (hasPermission "manage_users") w = Normal true) /\
  (result (hasPermission "manage_users") w = Normal true <->
   result isAdmin w = Normal true \/ result isManager w = Normal true) /\
  after user_management_route w = w.
Proof.
  destruct w as [e ls co ac [[user|] [|] er] ti dr wr];
    try destruct (User.role user) eqn:Hrole;
    unfold user_management_route, PrivateRoute, RoleBasedRoute, hasPermission, isAdmin,
      isManager, useState, result, after, mbind, M_bind, bind; cbn; rewrite ?Hrole; cbn;
    intuition (auto; try discriminate).
Qed.

(** X15. Exactly one of [isAdmin], [isManager], [isSupport] and
    [isMerchant] holds for a signed-in user, and none when nobody is signed
    in; for a signed-in user the merchant helper decides which of the
    [view_own_*] and [view_all_*] permissions are granted. *)
Theorem role_helpers_partition (w : World) :
  exists admin manager support merchant : bool,
    result isAdmin w = Normal admin /\
    result isManager w = Normal manager /\
    result isSupport w = Normal support /\
    result isMerchant w = Normal merchant /\
    Z.b2z admin + Z.b2z manager + Z.b2z support + Z.b2z merchant =
      (if currentUser (state w) is Some _ then 1 else 0) /\
    (currentUser (state w) <> None ->
     result (hasPermission "view_own_terminals") w = Normal merchant /\
     result (hasPermission "view_own_tickets") w = Normal merchant /\
     result (hasPermission "view_all_terminals") w = Normal (negb merchant) /\
     result (hasPermission "view_all_tickets") w = Normal (negb merchant)).
Proof.
  destruct (role_helpers_run w) as (-> & -> & -> & ->).
  do 4 eexists. do 4 (split; [reflexivity|]).
  unfold result, hasPermission, useState, mbind, M_bind, bind. cbn.
  destruct (currentUser (state w)) as [user|]; [|done].
  by destruct (User.role user).
Qed.

(** X16. After [login] the private routes follow its result, whatever the
    browser and whoever was signed in before: when it returned [true] the
    dashboard route renders its page and the login route redirects to the
    dashboard; when it returned [false] the dashboard route redirects to
    the login page, which is shown.  The loading spinner is never left
    on. *)
Theorem login_then_routes (w : World) (username password : string) :
  exists r,
    result (login username password) w = Normal r /\
    let w' := after (login username password) w in
    result dashboard_route w' =
      Normal (if r then Page "Dashboard" else Navigate "/login") /\
    result login_route w' =
      Normal (if r then Navigate "/dashboard" else Page "LoginPage").
Proof.
  destruct (wp_result _ _ _ (login_spec username password w))
    as (r & Hr & _ & Hload & Hout).
  exists r. split; [exact Hr|]. intros w'. fold w' in Hload, Hout.
  assert (currentUser (state w') = None /\ r = false \/
          exists user, currentUser (state w') = Some user /\ r = true) as Hcases.
  { inversion Hout as [| | |u i old w0 Hf Hst Hpw Hat Hfr Hex]; subst; try (left; by split).
    destruct Hex as (now & Hcur & _). right. eauto. }
  unfold dashboard_route, login_route, PrivateRoute, result, useState,
    mbind, M_bind, bind. cbn.
  rewrite Hload.
  destruct Hcases as [[-> ->]|(user & -> & ->)]; done.
Qed.

(** ** Formatters *)

Lemma length_substring_0 (s : string) (n : nat) :
  (n <= String.length s)%nat -> String.length (substring 0 n s) = n.
Proof.
  revert n. induction s as [|c s IH]; intros [|n] H; cbn in *; try done; try lia.
  f_equal. apply IH. lia.
Qed.

Lemma string_length_app (s1 s2 : string) :
  String.length (s1 +:+ s2) = (String.length s1 + String.length s2)%nat.
Proof. induction s1 as [|c s1 IH]; simpl; [done|]. by rewrite IH. Qed.

Lemma substring_0_app (s1 s2 : string) :
  substring 0 (String.length s1) (s1 +:+ s2) = s1.
Proof. induction s1 as [|c s1 IH]; simpl; [by destruct s2|]. by rewrite IH. Qed.

(** X17. [truncate] keeps a text that fits; otherwise it returns the first
    [length] characters followed by three dots, which is three characters
    more than [length] and can be up to two more than the text
    had.  Truncating the result again to the same length changes nothing. *)
Theorem truncate_shape (text : string) (length : nat) :
  ((String.length text <= length)%nat -> formatters.truncate text length = text) /\
  ((length < String.length text)%nat ->
   formatters.truncate text length = substring 0 length text +:+ "..." /\
   String.length (formatters.truncate text length) = (length + 3)%nat) /\
  formatters.truncate (formatters.truncate text length) length =
    formatters.truncate text length.
Proof.
  unfold formatters.truncate.
  destruct (Nat.leb_spec (String.length text) length) as [Hle|Hlt].
  - split; [done|]. split; [lia|].
    destruct (Nat.leb_spec (String.length text) length); [done|lia].
  - assert (String.length (substring 0 length text) = length) as Hlen
      by (apply length_substring_0; lia).
    split; [lia|]. split.
    + intros _. split; [done|]. rewrite string_length_app, Hlen. done.
    + destruct (Nat.leb_spec (String.length (substring 0 length text +:+ "...")) length)
        as [Hle'|_].
      * rewrite string_length_app, Hlen in Hle'. cbn in Hle'. lia.
      * f_equal. rewrite <- Hlen at 1. apply substring_0_app.
Qed.

(** X18. From one day on, [duration] shows days and hours only: the
    minutes beyond the last whole hour do not appear in the text. *)
Theorem duration_drops_minutes (minutes : Z) :
  1440 <= minutes ->
  formatters.duration minutes = formatters.duration (minutes / 60 * 60).
Proof.
  intros H. unfold formatters.duration.
  assert (24 <= minutes / 60) as Hh by (apply Z.div_le_lower_bound; lia).
  destruct (Z.ltb_spec minutes 60); [lia|].
  destruct (Z.ltb_spec (minutes / 60 * 60) 60); [lia|].
  rewrite Z.div_mul by lia.
  destruct (Z.ltb_spec (minutes / 60) 24); [lia|]. reflexivity.
Qed.

(** ** One collection per call *)

(** X19. Apart from [clearAllData], a method of the record store writes
    at most the one item of its own collection and never the reducer: the
    getters write nothing, and creating, updating or deleting a user leaves
    the terminals, the tickets, the alerts and the persisted session as
    they were (deleting the signed-in user does not end the session). *)
Theorem store_call_writes_own_collection (c : StoreCall) (w : World) (k : StorageKey) :
  c <> Call_clearAllData ->
  collection c <> Some k ->
  item (localStorage (after (call c) w)) k = item (localStorage w) k /\
  state (after (call c) w) = state w.
Proof.
  intros Hc Hk.
  destruct c; try done; cbn [collection] in Hk;
    run_call; split_call; (split; [|reflexivity]);
    first [reflexivity | apply item_put_item_ne; congruence | by destruct k].
Qed.

(** ** Creating tickets and alerts *)

Lemma wp_getAlerts (Q : list SystemAlert.t -> World -> Prop) w :
  Q (default [] (alerts_item (localStorage w))) (touched GetItem ALERTS w) ->
  wp getAlerts Q w.
Proof. done. Qed.

Lemma getAlerts_result w :
  result getAlerts w = Normal (default [] (alerts_item (localStorage w))).
Proof. done. Qed.

Lemma wp_createTicket w ticketData (Q : SupportTicket.t -> World -> Prop) :
  healthy w ->
  (forall id created updated w',
     env w' = env w -> state w' = state w ->
     localStorage w' =
       put_item (localStorage w) TICKETS
         (Some (stored_tickets w ++ [SupportTicket.create id ticketData created updated])%list) ->
     Q (SupportTicket.create id ticketData created updated) w') ->
  wp (createTicket ticketData) Q w.
Proof.
  intros Hw HQ. unfold createTicket.
  apply wp_bind, wp_getTickets, wp_bind, wp_Date_now, wp_bind, wp_Math_random,
    wp_bind, wp_toString36, wp_bind, wp_new_Date, wp_bind, wp_new_Date.
  cbv zeta. apply wp_bind, wp_setItem; [intros _|by rewrite (Hw _)].
  apply wp_ret. by apply HQ.
Qed.

Lemma filter_app_last {A} (p : A -> bool) (l : list A) (x : A) :
  List.filter p (l ++ [x]) = (List.filter p l ++ if p x then [x] else [])%list.
Proof. by rewrite List.filter_app. Qed.

(** X20. On a browser that accepts writes, [createTicket] stores the new
    ticket after the tickets already there, and what a user's ticket list
    gains is decided by the role alone: a merchant gets the ticket when its
    terminal is one of the merchant's assigned terminals, whoever created
    it; any other stored user gets it; an id that is not stored still lists
    nothing. *)
Theorem createTicket_visibility (w : World) (ticketData : SupportTicket.Draft.t)
    (userId : string) :
  healthy w ->
  let w' := after (createTicket ticketData) w in
  exists newTicket before,
    result (createTicket ticketData) w = Normal newTicket /\
    SupportTicket.terminalId newTicket = SupportTicket.Draft.terminalId ticketData /\
    stored_tickets w' = (stored_tickets w ++ [newTicket])%list /\
    result (getTicketsByUser userId) w = Normal before /\
    result (getTicketsByUser userId) w' =
      Normal match Array.find (has_id userId) (stored_users w) with
             | None => []
             | Some user =>
                 if role_is (User.role user) "Merchant"
                 then if Array.includes (default [] (User.assignedTerminals user))
                                        (SupportTicket.Draft.terminalId ticketData)
                      then (before ++ [newTicket])%list
                      else before
                 else (before ++ [newTicket])%list
             end.
Proof.
  intros Hw. cbv zeta.
  assert (wp (createTicket ticketData)
            (fun r w' => exists id created updated,
               r = SupportTicket.create id ticketData created updated /\
               stored_users w' = stored_users w /\
               stored_tickets w' = (stored_tickets w ++ [r])%list) w) as H.
  { apply wp_createTicket; [done|]. intros id created updated w' _ _ Hls.
    exists id, created, updated. split; [done|].
    unfold stored_users, stored_tickets. by rewrite Hls. }
  destruct (wp_elim _ _ _ H) as (r & Hr & id & created & updated & -> & Husers & Hstored).
  eexists _, _. split; [exact Hr|]. split; [reflexivity|]. split; [exact Hstored|].
  split; [apply getTicketsByUser_result|].
  rewrite getTicketsByUser_result, Husers, Hstored. f_equal.
  destruct (Array.find (has_id userId) (stored_users w)) as [user|]; [|done].
  destruct (role_is (User.role user) "Merchant"); [|done].
  rewrite filter_app_last. cbn [SupportTicket.create SupportTicket.terminalId].
  destruct (Array.includes _ _) eqn:Hin.
  - rewrite bool_decide_eq_true_2; [done|]. by apply list_elem_of_In, includes_In.
  - rewrite bool_decide_eq_false_2; [by rewrite app_nil_r|].
    intros Hel. apply list_elem_of_In, includes_In in Hel. congruence.
Qed.

(** ** The user management page *)

Lemma first_at_unique {A} (p : A -> bool) (l : list A) i j x y :
  first_at p l i x -> first_at p l j y -> i = j /\ x = y.
Proof.
  intros (Hi & Hp & Hlt) (Hj & Hq & Hlt').
  assert (i = j) as ->.
  { destruct (lt_eq_lt_dec i j) as [[Hlt1|]|Hlt1]; [|done|].
    - rewrite (Hlt' i x Hlt1 Hi) in Hp. done.
    - rewrite (Hlt j y Hlt1 Hj) in Hq. done. }
  split; [done|]. congruence.
Qed.

(** X21. Unlocking an account from the user management page sets its
    status and nothing else: the failure counter stays where the lockout
    left it.  So when the counter had reached two or more, a single wrong
    password after the unlock locks the account again. *)
Theorem unlock_keeps_failed_attempts (w : World) (p : UserManagement.Page) (u : User.t)
    (i : nat) (password : string) :
  healthy w ->
  first_at (has_username (User.username u)) (stored_users w) i u ->
  first_at (has_id (User.id u)) (stored_users w) i u ->
  User.status u = Locked ->
  User.password u <> password ->
  let w1 := after (UserManagement.handleToggleUserStatus (User.id u) (User.status u) p) w in
  let w2 := after (login (User.username u) password) w1 in
  (exists unlocked,
     stored_users w1 !! i = Some unlocked /\
     User.status unlocked = Active /\
     User.failedLoginAttempts unlocked = User.failedLoginAttempts u) /\
  result (login (User.username u) password) w1 = Normal false /\
  (exists again,
     stored_users w2 !! i = Some again /\
     User.failedLoginAttempts again = User.failedLoginAttempts u + 1 /\
     (2 <= User.failedLoginAttempts u -> User.status again = Locked)).
Proof.
  intros Hw Hname Hid Hlocked Hpw w1 w2.
  set (unlocked := User.assign u (User.Partial.with_status Active User.Partial.empty)
                     (DateAt (clock (env w) (ticks w)))).
  assert (env w1 = env w /\ stored_users w1 = <[i := unlocked]> (stored_users w))
    as [Henv1 Hstored1].
  { assert (wp (UserManagement.handleToggleUserStatus (User.id u) (User.status u) p)
              (fun _ w1 => env w1 = env w /\
                           stored_users w1 = <[i := unlocked]> (stored_users w)) w) as H.
    { unfold UserManagement.handleToggleUserStatus. rewrite Hlocked.
      change (status_is Locked "Active") with false. cbv iota zeta.
      apply wp_bind. eapply wp_updateUser; [exact Hid|].
      intros w' Henv _ _ Hls. apply wp_ret. split; [done|].
      unfold stored_users at 1. by rewrite Hls, (Hw _). }
    by destruct (wp_result _ _ _ H) as (? & _ & ?). }
  assert (healthy w1) as Hw1 by (by apply (healthy_env w)).
  assert (first_at (has_username (User.username u)) (stored_users w1) i unlocked) as Hname1.
  { rewrite Hstored1. eapply first_at_insert; [exact Hname|]. apply String.eqb_refl. }
  assert (first_at (has_id (User.id u)) (stored_users w1) i unlocked) as Hid1.
  { rewrite Hstored1. eapply first_at_insert; [exact Hid|]. apply String.eqb_refl. }
  split.
  { exists unlocked. split; [by apply first_at_lookup in Hname1|]. done. }
  destruct (wp_result _ _ _ (login_spec (User.username u) password w1))
    as (r & Hr & _ & _ & Hout). fold w2 in Hout.
  pose proof (first_at_find _ _ _ _ Hname1) as Hfind.
  inversion Hout as [w' Hf|user w' Hf Hst|user j old w' Hf Hst Hpw' Hat Hfr Hcur Hus
                    |user j old w' Hf Hst Hpw' Hat]; subst;
    rewrite Hfind in Hf; try done; injection Hf as <-; try done.
  split; [exact Hr|].
  destruct (first_at_unique _ _ _ _ _ _ Hat Hid1) as [-> ->].
  destruct (Hus Hw1) as (now & Hstored2).
  eexists. split.
  { rewrite Hstored2. apply list_lookup_insert_eq.
    apply first_at_lookup in Hid1. by eapply lookup_lt_Some. }
  unfold rejected_updates. cbn [unlocked User.assign User.failedLoginAttempts
    User.Partial.with_status User.Partial.empty User.Partial.failedLoginAttempts default].
  destruct (Z.leb_spec 3 (User.failedLoginAttempts u + 1)); cbn; (split; [done|]);
    [done|lia].
Qed.

Lemma filter_all_id {A} (p : A -> bool) (l : list A) :
  (forall x, In x l -> p x = true) -> List.filter p l = l.
Proof.
  induction l as [|y l IH]; [done|]. intros H. cbn [List.filter].
  rewrite (H y (or_introl eq_refl)). f_equal. apply IH. intros x Hx. apply H. by right.
Qed.

Lemma wp_deleteUser id w (Q : bool -> World -> Prop) :
  (forall w',
     env w' = env w -> state w' = state w ->
     let kept := List.filter (fun user => negb (String.eqb (User.id user) id)) (stored_users w) in
     (healthy w -> stored_users w' = kept) ->
     Q (negb (Array.length kept =? Array.length (stored_users w))) w') ->
  wp (deleteUser id) Q w.
Proof.
  intros HQ. unfold wp. rewrite deleteUser_run. cbv zeta.
  change (fun user => negb (has_id id user))
    with (fun user => negb (String.eqb (User.id user) id)).
  unfold Array.filter.
  destruct (Z.eqb_spec
              (Array.length
                 (List.filter (fun user => negb (String.eqb (User.id user) id))
                    (stored_users w)))
              (Array.length (stored_users w))) as [Heq|Hne].
  - specialize (HQ (touched GetItem USERS w) eq_refl eq_refl). cbv zeta in HQ.
    rewrite (proj2 (Z.eqb_eq _ _) Heq) in HQ. apply HQ. intros _.
    change (stored_users (touched GetItem USERS w)) with (stored_users w).
    symmetry. apply filter_all_id, filter_length_all. unfold Array.length in Heq. lia.
  - match goal with |- context [after ?m ?w0] => set (w' := after m w0) end.
    specialize (HQ w'). cbv zeta in HQ.
    rewrite (proj2 (Z.eqb_neq _ _) Hne) in HQ. apply HQ.
    + unfold w', after, setItem, try_catch, localStorage_setItem, console_error.
      by destruct (accepts _ _).
    + unfold w', after, setItem, try_catch, localStorage_setItem, console_error.
      by destruct (accepts _ _).
    + intros Hw. unfold stored_users at 1. unfold w'.
      by rewrite (proj1 (setItem_healthy USERS _ (touched GetItem USERS w) Hw)).
Qed.

(** X22. Confirming the delete dialog keeps the page in step with the
    store on a browser that accepts writes: if the page listed the stored
    users before, it lists them after; every record with the chosen id is
    gone from both and no other; the dialog is closed.  An empty id is
    treated as no choice, and nothing is deleted. *)
Theorem confirmDeleteUser_page_follows_store (w : World) (p : UserManagement.Page)
    (id : string) :
  healthy w ->
  UserManagement.users p = stored_users w ->
  UserManagement.userId (UserManagement.deleteConfirm p) = Some id ->
  let w' := after (UserManagement.confirmDeleteUser p) w in
  exists p',
    result (UserManagement.confirmDeleteUser p) w = Normal p' /\
    UserManagement.users p' = stored_users w' /\
    UserManagement.deleteConfirm p' =
      {| UserManagement.isOpen := false; UserManagement.userId := None |} /\
    UserManagement.users p' =
      (if String.eqb id "" then UserManagement.users p
       else List.filter (fun u => negb (String.eqb (User.id u) id)) (UserManagement.users p)) /\
    state w' = state w.
Proof.
  intros Hw Hpage Hid w'.
  assert (wp (UserManagement.confirmDeleteUser p)
            (fun p' w' =>
               UserManagement.users p' = stored_users w' /\
               UserManagement.deleteConfirm p' =
                 {| UserManagement.isOpen := false; UserManagement.userId := None |} /\
               UserManagement.users p' =
                 (if String.eqb id "" then UserManagement.users p
                  else List.filter (fun u => negb (String.eqb (User.id u) id))
                         (UserManagement.users p)) /\
               state w' = state w) w) as H.
  { unfold UserManagement.confirmDeleteUser. rewrite Hid. unfold truthy.
    apply wp_bind.
    destruct (String.eqb id ""); cbn [negb].
    { apply wp_ret, wp_ret. done. }
    apply wp_bind, wp_deleteUser. intros w1 Henv1 Hstate1 kept Hkept.
    specialize (Hkept Hw).
    destruct (Z.eqb_spec (Array.length kept) (Array.length (stored_users w))) as [Heq|Hne];
      cbn [negb]; apply wp_ret, wp_ret.
    - assert (kept = stored_users w) as Hall.
      { apply filter_all_id, filter_length_all. unfold Array.length, kept in Heq. lia. }
      cbn [UserManagement.users UserManagement.deleteConfirm
             UserManagement.setDeleteConfirm UserManagement.setUsers].
      rewrite Hpage, Hkept. fold kept. rewrite Hall. done.
    - cbn [UserManagement.users UserManagement.deleteConfirm
             UserManagement.setDeleteConfirm UserManagement.setUsers].
      unfold Array.filter. rewrite Hpage, Hkept. done. }
  destruct (wp_result _ _ _ H) as (p' & Hr & H'). by exists p'.
Qed.

(** *** The user form *)

Lemma some_false {A} (p : A -> bool) (l : list A) :
  Array_some p l = false <-> forall x, In x l -> p x = false.
Proof.
  unfold Array_some. induction l as [|y l IH]; cbn; [by split|].
  rewrite orb_false_iff, IH. split.
  - intros [Hy Hl] x [<-|Hx]; [done|by apply Hl].
  - intros H. split; [apply H; by left|]. intros x Hx. apply H. by right.
Qed.

Lemma keys_empty {A} (m : gmap string A) :
  (Array.length (Object_keys m) =? 0) = true -> m = ∅.
Proof.
  intros H. apply Z.eqb_eq in H. unfold Array.length, Object_keys in H.
  rewrite length_fmap in H. apply map_to_list_empty_iff.
  destruct (map_to_list m); [done|]. cbn in H. lia.
Qed.

Lemma if_insert_empty {A} (b : bool) (k : string) (v : A) (m m' : gmap string A) :
  (if b then <[k := v]> m else m') = ∅ -> b = false /\ m' = ∅.
Proof. destruct b; [|done]. intros H. by apply insert_non_empty in H. Qed.

Lemma map_replace_insert {A} (key : A -> string) (l : list A) i x y :
  NoDup (map key l) ->
  l !! i = Some x ->
  map (fun u => if String.eqb (key u) (key x) then y else u) l = <[i := y]> l.
Proof.
  intros Hnodup Hi. apply list_eq. intros j. rewrite list_lookup_fmap.
  destruct (decide (j = i)) as [->|Hne].
  - rewrite Hi, list_lookup_insert_eq by (by eapply lookup_lt_Some). cbn.
    by rewrite String.eqb_refl.
  - rewrite list_lookup_insert_ne by done.
    destruct (l !! j) as [z|] eqn:Hj; [|done]. cbn.
    destruct (String.eqb_spec (key z) (key x)) as [Heq|]; [|done].
    exfalso. apply Hne. apply (proj1 (NoDup_alt _) Hnodup j i (key z)).
    + by rewrite list_lookup_fmap, Hj.
    + by rewrite list_lookup_fmap, Hi, Heq.
Qed.

Lemma NoDup_insert_fresh {A} (l : list A) i x :
  NoDup l ->
  (forall j, j <> i -> l !! j <> Some x) ->
  NoDup (<[i := x]> l).
Proof.
  intros Hnodup Hfresh. apply NoDup_alt. intros j k z Hj Hk.
  destruct (decide (j = i)) as [->|Hji], (decide (k = i)) as [->|Hki]; [done|..].
  - rewrite list_lookup_insert_ne in Hk by done.
    apply list_lookup_insert_Some in Hj as [(_ & <- & _)|[? _]]; [|done].
    by destruct (Hfresh k Hki).
  - rewrite list_lookup_insert_ne in Hj by done.
    apply list_lookup_insert_Some in Hk as [(_ & <- & _)|[? _]]; [|done].
    by destruct (Hfresh j Hji).
  - rewrite list_lookup_insert_ne in Hj, Hk by done.
    by apply (proj1 (NoDup_alt _) Hnodup j k z).
Qed.

Section UserForm.
Context (trim : string -> string) (email_format : string -> bool).

(** What a form that passes [validateForm] has been checked for. *)
Lemma validateForm_valid p p' :
  UserManagement.validateForm trim email_format p = (true, p') ->
  let form := UserManagement.newUserForm p in
  let other :=
    fun u => match UserManagement.editingUser p with
             | None => true
             | Some editingUser => negb (String.eqb (User.id u) (User.id editingUser))
             end in
  p' = UserManagement.setFormErrors ∅ p /\
  trim (UserManagement.fullName form) <> "" /\
  trim (UserManagement.username form) <> "" /\
  (forall u, In u (UserManagement.users p) ->
             User.username u = UserManagement.username form -> other u = false) /\
  trim (UserManagement.email form) <> "" /\
  email_format (UserManagement.email form) = true /\
  (forall u, In u (UserManagement.users p) ->
             User.email u = UserManagement.email form -> other u = false) /\
  (UserManagement.editingUser p = None ->
   (6 <= String.length (UserManagement.password form))%nat /\
   UserManagement.password form = UserManagement.confirmPassword form).
Proof.
  intros Hv. unfold UserManagement.validateForm in Hv. cbv zeta in Hv.
  pose proof (f_equal fst Hv) as Hkeys. pose proof (f_equal snd Hv) as Hpage.
  cbn [fst snd] in Hkeys, Hpage. clear Hv. apply keys_empty in Hkeys.
  rewrite Hkeys in Hpage. cbv zeta. split; [done|]. clear Hpage.
  match type of Hkeys with
  | match _ with Some _ => ?errors | None => _ end = _ =>
      assert (errors = ∅ /\
              (UserManagement.editingUser p = None ->
               (6 <= String.length (UserManagement.password (UserManagement.newUserForm p)))%nat /\
               UserManagement.password (UserManagement.newUserForm p) =
                 UserManagement.confirmPassword (UserManagement.newUserForm p)))
        as [Hdef3 Hpassword]
  end.
  { revert Hkeys. destruct (UserManagement.editingUser p) as [editing|]; intros Hkeys.
    - split; [exact Hkeys|]. done.
    - apply if_insert_empty in Hkeys as [Hconfirm Hkeys].
      apply if_insert_empty in Hkeys as [Hrequired Hkeys].
      apply if_insert_empty in Hkeys as [Hshort Hkeys].
      split; [exact Hkeys|]. intros _.
      apply negb_false_iff, String.eqb_eq in Hconfirm.
      apply Nat.ltb_ge in Hshort. done. }
  clear Hkeys.
  apply if_insert_empty in Hdef3 as [Hmail Hdef3].
  apply if_insert_empty in Hdef3 as [Hformat Hdef3].
  apply if_insert_empty in Hdef3 as [Hmailtaken Hdef3].
  apply if_insert_empty in Hdef3 as [Hname Hdef3].
  apply if_insert_empty in Hdef3 as [Htaken Hdef3].
  apply if_insert_empty in Hdef3 as [Hfull _].
  unfold truthy in *.
  apply negb_false_iff, negb_true_iff, String.eqb_neq in Hmail, Hname, Hfull.
  apply negb_false_iff in Hformat.
  split; [done|]. split; [done|]. split.
  { intros u Hu Heq. apply some_false with (x := u) in Htaken; [|done].
    apply String.eqb_eq in Heq. by rewrite Heq in Htaken. }
  split; [done|]. split; [done|]. split; [|done].
  intros u Hu Heq. apply some_false with (x := u) in Hmailtaken; [|done].
  apply String.eqb_eq in Heq. by rewrite Heq in Hmailtaken.
Qed.

(** X23. Submitting the form for a new user never stores a username a
    second time.  On a browser that accepts writes, with a page that lists
    the stored users in any order and usernames that are all different, the
    usernames are all different afterwards and the page still lists the
    stored users.  A valid form stores one new account, with the form's
    username and password, no failed attempts and no last login, after the
    others in the store and before them on the page; an invalid form
    changes neither the store nor the list. *)
Theorem handleSubmitUser_keeps_usernames_unique (w : World) (p : UserManagement.Page) :
  healthy w ->
  UserManagement.editingUser p = None ->
  Permutation (UserManagement.users p) (stored_users w) ->
  NoDup (map User.username (stored_users w)) ->
  let form := UserManagement.newUserForm p in
  let w' := after (UserManagement.handleSubmitUser trim email_format p) w in
  exists p',
    result (UserManagement.handleSubmitUser trim email_format p) w = Normal p' /\
    NoDup (map User.username (stored_users w')) /\
    Permutation (UserManagement.users p') (stored_users w') /\
    if fst (UserManagement.validateForm trim email_format p) then
      exists newUser,
        stored_users w' = (stored_users w ++ [newUser])%list /\
        UserManagement.users p' = newUser :: UserManagement.users p /\
        User.username newUser = UserManagement.username form /\
        User.password newUser = UserManagement.password form /\
        User.failedLoginAttempts newUser = 0 /\
        User.lastLogin newUser = None /\
        UserManagement.showCreateModal p' = false /\
        UserManagement.formErrors p' = ∅
    else
      w' = w /\ UserManagement.users p' = UserManagement.users p.
Proof.
  intros Hw Hedit Hperm Hnodup form w'.
  destruct (UserManagement.validateForm trim email_format p) as [valid p1] eqn:Hv.
  assert (UserManagement.users p1 = UserManagement.users p /\
          UserManagement.editingUser p1 = None /\
          UserManagement.newUserForm p1 = form) as (Husers1 & Hedit1 & Hform1).
  { unfold UserManagement.validateForm in Hv. cbv zeta in Hv. injection Hv as _ <-.
    by rewrite <- Hedit. }
  assert (UserManagement.handleSubmitUser trim email_format p =
          if negb valid then ret p1
          else
            try_catch
              (p2 ← (newUser ← createUser
                        (User.Draft.mk (UserManagement.fullName form)
                           (UserManagement.username form) (UserManagement.email form)
                           (UserManagement.password form) (UserManagement.role form)
                           (UserManagement.status form) 0 None None None);
                     ret (UserManagement.setUsers (newUser :: UserManagement.users p1) p1));
               ret (UserManagement.setEditingUser None
                      (UserManagement.setShowCreateModal false
                         (UserManagement.resetForm p2))))
              (fun error =>
                 console_error "Error saving user:";;
                 ret (UserManagement.alert "Error saving user. Please try again." p1)))
    as Hrun.
  { unfold UserManagement.handleSubmitUser. rewrite Hv. by rewrite Hedit1, Hform1. }
  unfold w'. rewrite Hrun. clear Hrun. cbn [fst]. destruct valid; cbn [negb].
  2:{ exists p1. split; [done|]. split; [done|]. split; [by rewrite Husers1|]. done. }
  destruct (validateForm_valid p p1 Hv) as (_ & _ & _ & Hfresh & _).
  cbv zeta in Hfresh. rewrite Hedit in Hfresh.
  match goal with |- context [result ?m w] => set (submit := m) end.
  assert (wp submit
            (fun p' w' =>
               exists newUser,
                 stored_users w' = (stored_users w ++ [newUser])%list /\
                 UserManagement.users p' = newUser :: UserManagement.users p /\
                 User.username newUser = UserManagement.username form /\
                 User.password newUser = UserManagement.password form /\
                 User.failedLoginAttempts newUser = 0 /\
                 User.lastLogin newUser = None /\
                 UserManagement.showCreateModal p' = false /\
                 UserManagement.formErrors p' = ∅) w) as H.
  { unfold submit. apply wp_try, wp_bind, wp_bind, wp_createUser; [done|].
    intros id created updated w1 _ _ Hls. apply wp_ret, wp_ret.
    eexists. split; [unfold stored_users at 1; by rewrite Hls|].
    split; [by rewrite <- Husers1|]. done. }
  destruct (wp_result _ _ _ H) as (p' & Hr & newUser & Hstored & Hpage & Hname & Hrest).
  unfold form in *. exists p'. split; [exact Hr|]. split; [|split].
  - rewrite Hstored, map_app. apply NoDup_app. split; [done|]. split.
    + intros name Hin Hnew. cbn in Hnew. apply list_elem_of_singleton in Hnew. subst name.
      apply list_elem_of_fmap in Hin as (u & Hu & Hin). apply list_elem_of_In in Hin.
      assert (true = false) as Habs; [|done].
      apply (Hfresh u); [|congruence].
      apply (Permutation_in _ (Permutation_sym Hperm)), Hin.
    + apply NoDup_singleton.
  - rewrite Hstored, Hpage. rewrite Hperm. apply Permutation_cons_append.
  - exists newUser. by rewrite Hstored, Hpage.
Qed.

(** X24. Submitting the form for an existing user, on a browser that
    accepts writes and a page that lists the stored users, whose ids and
    usernames are all different: the stored record takes the name,
    username, e-mail, role and status of the form and keeps its id,
    password and failure counter; ids and usernames are still all
    different and the page still lists the stored users. *)
Theorem handleSubmitUser_edits_in_place (w : World) (p : UserManagement.Page)
    (editing old : User.t) (i : nat) :
  healthy w ->
  UserManagement.editingUser p = Some editing ->
  first_at (has_id (User.id editing)) (stored_users w) i old ->
  Permutation (UserManagement.users p) (stored_users w) ->
  NoDup (map User.id (stored_users w)) ->
  NoDup (map User.username (stored_users w)) ->
  fst (UserManagement.validateForm trim email_format p) = true ->
  let form := UserManagement.newUserForm p in
  let w' := after (UserManagement.handleSubmitUser trim email_format p) w in
  exists p' merged,
    result (UserManagement.handleSubmitUser trim email_format p) w = Normal p' /\
    stored_users w' = <[i := merged]> (stored_users w) /\
    User.username merged = UserManagement.username form /\
    User.status merged = UserManagement.status form /\
    User.role merged = UserManagement.role form /\
    User.id merged = User.id old /\
    User.password merged = User.password old /\
    User.failedLoginAttempts merged = User.failedLoginAttempts old /\
    NoDup (map User.id (stored_users w')) /\
    NoDup (map User.username (stored_users w')) /\
    Permutation (UserManagement.users p') (stored_users w') /\
    UserManagement.editingUser p' = None /\
    UserManagement.showCreateModal p' = false.
Proof.
  intros Hw Hedit Hat Hperm Hids Hnames Hvalid form w'.
  destruct (UserManagement.validateForm trim email_format p) as [valid p1] eqn:Hv.
  cbn [fst] in Hvalid. subst valid.
  assert (UserManagement.users p1 = UserManagement.users p /\
          UserManagement.editingUser p1 = Some editing /\
          UserManagement.newUserForm p1 = form) as (Husers1 & Hedit1 & Hform1).
  { unfold UserManagement.validateForm in Hv. cbv zeta in Hv.
    pose proof (f_equal snd Hv) as Hp. cbn [snd] in Hp. rewrite <- Hp.
    by rewrite <- Hedit. }
  destruct (validateForm_valid p p1 Hv) as (_ & _ & _ & Hfresh & _).
  cbv zeta in Hfresh. rewrite Hedit in Hfresh.
  pose proof (first_at_id _ _ _ _ Hat) as Hid.
  pose proof (first_at_lookup _ _ _ _ Hat) as Hi.
  set (updates := User.Partial.mk None (Some (UserManagement.fullName form))
                    (Some (UserManagement.username form)) (Some (UserManagement.email form))
                    None (Some (UserManagement.role form)) (Some (UserManagement.status form))
                    None None None None None None).
  set (merged := User.assign old updates (DateAt (clock (env w) (ticks w)))).
  assert (wp (UserManagement.handleSubmitUser trim email_format p)
            (fun p' w' =>
               stored_users w' = <[i := merged]> (stored_users w) /\
               UserManagement.users p' =
                 map (fun u => if String.eqb (User.id u) (User.id editing) then merged else u)
                     (UserManagement.users p) /\
               UserManagement.editingUser p' = None /\
               UserManagement.showCreateModal p' = false) w) as H.
  { unfold UserManagement.handleSubmitUser. rewrite Hv. cbn [negb]. rewrite Hedit1, Hform1.
    apply wp_try, wp_bind, wp_bind. eapply wp_updateUser; [exact Hat|].
    intros w1 _ _ _ Hls. apply wp_ret, wp_ret.
    split; [unfold stored_users at 1; by rewrite Hls, (Hw _)|].
    split; [|done]. cbn [UserManagement.users UserManagement.setEditingUser
      UserManagement.setShowCreateModal UserManagement.resetForm UserManagement.setUsers
      UserManagement.setShowPassword UserManagement.setFormErrors
      UserManagement.setNewUserForm].
    by rewrite Husers1. }
  destruct (wp_result _ _ _ H) as (p' & Hr & Hstored & Hpage & Hdone). fold w' in Hstored.
  exists p', merged. split; [exact Hr|]. split; [exact Hstored|].
  do 6 (split; [done|]).
  assert (map User.id (<[i := merged]> (stored_users w)) = map User.id (stored_users w))
    as Hsame_ids.
  { rewrite list_fmap_insert. apply list_insert_id. by rewrite list_lookup_fmap, Hi. }
  split; [by rewrite Hstored, Hsame_ids|]. split.
  - rewrite Hstored, list_fmap_insert. apply NoDup_insert_fresh; [done|].
    intros j Hj Hlook. rewrite list_lookup_fmap in Hlook.
    destruct (stored_users w !! j) as [z|] eqn:Hz; [|done]. injection Hlook as Hzname.
    assert (In z (UserManagement.users p)) as Hin.
    { apply (Permutation_in _ (Permutation_sym Hperm)).
      apply list_elem_of_In. by eapply list_elem_of_lookup_2. }
    specialize (Hfresh z Hin Hzname).
    apply negb_false_iff, String.eqb_eq in Hfresh.
    apply Hj. apply (proj1 (NoDup_alt _) Hids j i (User.id z)).
    + by rewrite list_lookup_fmap, Hz.
    + rewrite list_lookup_fmap, Hi. cbn. congruence.
  - split; [|done]. rewrite Hstored, Hpage, <- Hid.
    rewrite <- (map_replace_insert User.id _ _ old merged Hids Hi).
    by apply Permutation_map.
Qed.
End UserForm.

(** ** The tickets page *)

Section TicketHandlers.
Context (Date_parse : string -> Z).

(** X25. The ticket handlers never clear a resolution.  On a browser that
    accepts writes, [handleUpdateStatus] gives the stored ticket the new
    status; unless that status is Resolved, [resolvedAt] and
    [resolutionTime] stay as they were, so a reopened ticket still carries
    them.  Resolving stamps [resolvedAt] with the clock and computes
    [resolutionTime] from the page's copy of the ticket, in whole minutes.
    [handleAssignTicket] sets the assignee and puts the ticket In
    Progress whatever its status was, a resolved or closed one
    included. *)
Theorem ticket_handlers_keep_resolution (w : World) (id userId : string)
    (newStatus : TicketStatus) (tickets : list SupportTicket.t)
    (i : nat) (old : SupportTicket.t) :
  healthy w ->
  first_at (ticket_has_id id) (stored_tickets w) i old ->
  (exists new,
     stored_tickets (after (SupportTickets.handleUpdateStatus Date_parse id newStatus tickets) w)
       = <[i := new]> (stored_tickets w) /\
     SupportTicket.status new = newStatus /\
     SupportTicket.assignedTo new = SupportTicket.assignedTo old /\
     (newStatus <> Resolved ->
      SupportTicket.resolvedAt new = SupportTicket.resolvedAt old /\
      SupportTicket.resolutionTime new = SupportTicket.resolutionTime old) /\
     (newStatus = Resolved ->
      SupportTicket.resolvedAt new = Some (DateAt (clock (env w) (ticks w))) /\
      SupportTicket.resolutionTime new =
        match Array.find (ticket_has_id id) tickets with
        | Some ticket =>
            Some ((clock (env w) (S (ticks w))
                   - SupportTickets.getTime Date_parse (SupportTicket.createdAt ticket))
                  / 60000)
        | None => SupportTicket.resolutionTime old
        end)) /\
  (exists new,
     stored_tickets (after (SupportTickets.handleAssignTicket id userId tickets) w)
       = <[i := new]> (stored_tickets w) /\
     SupportTicket.status new = InProgress /\
     SupportTicket.assignedTo new = Some userId /\
     SupportTicket.resolvedAt new = SupportTicket.resolvedAt old /\
     SupportTicket.resolutionTime new = SupportTicket.resolutionTime old).
Proof.
  intros Hw Hat. split.
  - assert (wp (SupportTickets.handleUpdateStatus Date_parse id newStatus tickets)
              (fun _ w' => exists new,
                 stored_tickets w' = <[i := new]> (stored_tickets w) /\
                 SupportTicket.status new = newStatus /\
                 SupportTicket.assignedTo new = SupportTicket.assignedTo old /\
                 (newStatus <> Resolved ->
                  SupportTicket.resolvedAt new = SupportTicket.resolvedAt old /\
                  SupportTicket.resolutionTime new = SupportTicket.resolutionTime old) /\
                 (newStatus = Resolved ->
                  SupportTicket.resolvedAt new = Some (DateAt (clock (env w) (ticks w))) /\
                  SupportTicket.resolutionTime new =
                    match Array.find (ticket_has_id id) tickets with
                    | Some ticket =>
                        Some ((clock (env w) (S (ticks w))
                               - SupportTickets.getTime Date_parse
                                   (SupportTicket.createdAt ticket))
                              / 60000)
                    | None => SupportTicket.resolutionTime old
                    end)) w) as H.
    { unfold SupportTickets.handleUpdateStatus. apply wp_bind.
      change (fun t => String.eqb (SupportTicket.id t) id) with (ticket_has_id id).
      destruct newStatus;
        try (apply wp_ret, wp_bind; eapply wp_updateTicket; [exact Hat|];
             intros w1 _ _ _ Hls; apply wp_ret; eexists;
             (split; [unfold stored_tickets at 1; rewrite Hls, (Hw _); reflexivity|]);
             done).
      apply wp_bind, wp_new_Date.
      destruct (Array.find (ticket_has_id id) tickets) as [ticket|].
      + apply wp_bind, wp_new_Date, wp_ret, wp_bind.
        eapply wp_updateTicket; [exact Hat|].
        intros w1 _ _ _ Hls. apply wp_ret. eexists.
        split; [unfold stored_tickets at 1; rewrite Hls, (Hw _); reflexivity|]. done.
      + apply wp_ret, wp_bind. eapply wp_updateTicket; [exact Hat|].
        intros w1 _ _ _ Hls. apply wp_ret. eexists.
        split; [unfold stored_tickets at 1; rewrite Hls, (Hw _); reflexivity|]. done. }
    by destruct (wp_result _ _ _ H) as (? & _ & ?).
  - assert (wp (SupportTickets.handleAssignTicket id userId tickets)
              (fun _ w' => exists new,
                 stored_tickets w' = <[i := new]> (stored_tickets w) /\
                 SupportTicket.status new = InProgress /\
                 SupportTicket.assignedTo new = Some userId /\
                 SupportTicket.resolvedAt new = SupportTicket.resolvedAt old /\
                 SupportTicket.resolutionTime new = SupportTicket.resolutionTime old) w) as H.
    { unfold SupportTickets.handleAssignTicket. apply wp_bind.
      eapply wp_updateTicket; [exact Hat|].
      intros w1 _ _ _ Hls. apply wp_ret. eexists.
      split; [unfold stored_tickets at 1; rewrite Hls, (Hw _); reflexivity|]. done. }
    by destruct (wp_result _ _ _ H) as (? & _ & ?).
Qed.
End TicketHandlers.

(** ** The terminals page *)

Lemma NoDup_List_filter {A} (f : A -> bool) (l : list A) :
  NoDup l -> NoDup (List.filter f l).
Proof.
  induction 1 as [|x l Hx _ IH]; cbn [List.filter]; [constructor|].
  destruct (f x); [|done]. constructor; [|done].
  intros Hin. apply Hx. apply list_elem_of_In in Hin. apply filter_In in Hin as [Hin _].
  by apply list_elem_of_In.
Qed.

(** X26. Toggling a terminal in the selection flips its membership and no
    other: the id is selected afterwards exactly when it was not before, a
    selection without duplicates stays so, and toggling twice an id that
    was not selected gives back the same selection. *)
Theorem toggleTerminalSelection_flips (terminalId : string) (prev : list string) :
  let next := Terminals.toggleTerminalSelection terminalId prev in
  (In terminalId next <-> ~ In terminalId prev) /\
  (forall other, other <> terminalId -> (In other next <-> In other prev)) /\
  (NoDup prev -> NoDup next) /\
  (~ In terminalId prev -> Terminals.toggleTerminalSelection terminalId next = prev).
Proof.
  cbv zeta. unfold Terminals.toggleTerminalSelection, Array.filter.
  destruct (Array.includes prev terminalId) eqn:Hin.
  - apply includes_In in Hin. split; [|split; [|split]].
    + rewrite filter_In, String.eqb_refl. cbn. intuition congruence.
    + intros other Hne. rewrite filter_In.
      destruct (String.eqb_spec other terminalId); [done|]. cbn. tauto.
    + intros Hnd. apply NoDup_List_filter, Hnd.
    + tauto.
  - assert (~ In terminalId prev) as Hnot.
    { intros H. apply includes_In in H. congruence. }
    split; [|split; [|split]].
    + rewrite in_app_iff. cbn. tauto.
    + intros other Hne. rewrite in_app_iff. cbn. split; [|tauto].
      intros [?|[?|[]]]; [done|]. by subst.
    + intros Hnd. apply NoDup_app. split; [done|]. split; [|apply NoDup_singleton].
      intros x Hx Hx'. apply list_elem_of_singleton in Hx'. subst x.
      by apply list_elem_of_In in Hx.
    + intros _.
      assert (Array.includes (prev ++ [terminalId]) terminalId = true) as ->.
      { apply includes_In, in_app_iff. right. by left. }
      rewrite List.filter_app. cbn. rewrite String.eqb_refl. cbn. rewrite app_nil_r.
      apply filter_all_id. intros x Hx.
      destruct (String.eqb_spec x terminalId); [by subst|done].
Qed.

Lemma wp_updateTerminal_unknown w id updates (Q : option Terminal.t -> World -> Prop) :
  Array.find (terminal_has_id id) (stored_terminals w) = None ->
  Q None (touched GetItem TERMINALS w) ->
  wp (updateTerminal id updates) Q w.
Proof.
  intros Hnone HQ. apply find_None_findIndex in Hnone.
  unfold updateTerminal. apply wp_bind, wp_getTerminals.
  change (fun terminal => String.eqb (Terminal.id terminal) id) with (terminal_has_id id).
  rewrite Hnone. by apply wp_ret.
Qed.

Lemma Forall2_compose {A} (R1 R2 R3 : A -> A -> Prop) (l1 l2 l3 : list A) :
  (forall x y z, R1 x y -> R2 y z -> R3 x z) ->
  Forall2 R1 l1 l2 -> Forall2 R2 l2 l3 -> Forall2 R3 l1 l3.
Proof.
  intros HR H12. revert l3. induction H12 as [|x y l1 l2 Hxy _ IH]; intros l3 H23.
  - inversion H23. constructor.
  - inversion H23 as [|? z ? l3' Hyz H23']; subst. constructor; [by eapply HR|by apply IH].
Qed.

Lemma Forall2_same {A} (R : A -> A -> Prop) (l : list A) :
  (forall x, R x x) -> Forall2 R l l.
Proof. intros HR. induction l; by constructor. Qed.

(** The loop of [handleBulkRestart]. *)
Lemma bulk_restart_loop (selected : list string) (w : World) :
  healthy w ->
  NoDup (map Terminal.id (stored_terminals w)) ->
  wp (forEach selected
        (fun terminalId =>
           lastSeen ← new_Date;
           updateTerminal terminalId (Terminal.Partial.status_lastSeen Maintenance lastSeen);;
           ret tt))
     (fun _ w' =>
        env w' = env w /\ state w' = state w /\
        Forall2 (restarted selected) (stored_terminals w) (stored_terminals w')) w.
Proof.
  revert w. induction selected as [|id rest IH]; intros w Hw Hids.
  { apply wp_ret. split; [done|]. split; [done|]. apply Forall2_same. by intros x. }
  cbn [forEach]. apply wp_bind, wp_bind, wp_new_Date, wp_bind.
  assert (forall w1,
            env w1 = env w -> state w1 = state w ->
            Forall2 (restarted [id]) (stored_terminals w) (stored_terminals w1) ->
            wp (forEach rest
                  (fun terminalId =>
                     lastSeen ← new_Date;
                     updateTerminal terminalId
                       (Terminal.Partial.status_lastSeen Maintenance lastSeen);;
                     ret tt))
               (fun _ w' =>
                  env w' = env w /\ state w' = state w /\
                  Forall2 (restarted (id :: rest)) (stored_terminals w) (stored_terminals w'))
               w1) as Hrest.
  { intros w1 Henv1 Hstate1 Hstep.
    assert (map Terminal.id (stored_terminals w1) = map Terminal.id (stored_terminals w))
      as Hsame.
    { clear -Hstep. induction Hstep as [|x y l k [Hid _] _ IHl]; [done|].
      cbn. by rewrite Hid, IHl. }
    eapply wp_mono.
    { apply IH; [by apply (healthy_env w)|by rewrite Hsame]. }
    intros ? w2 (Henv2 & Hstate2 & Hloop). cbv beta.
    split; [congruence|]. split; [congruence|].
    eapply Forall2_compose; [|exact Hstep|exact Hloop].
    intros x y z (Hxy & Hin1 & Hout1) (Hyz & Hin2 & Hout2).
    split; [congruence|]. split.
    - intros [Heq|Hin].
      + destruct (in_dec string_dec (Terminal.id y) rest) as [Hy|Hy].
        * by apply Hin2.
        * rewrite (Hout2 Hy). apply Hin1. by left.
      + apply Hin2. by rewrite Hxy.
    - intros Hnot. rewrite Hout2, Hout1; [done|..].
      + intros [?|[]]. apply Hnot. by left.
      + rewrite Hxy. intros ?. apply Hnot. by right. }
  destruct (Array.find (terminal_has_id id) (stored_terminals w)) as [old|] eqn:Hfind.
  - destruct (find_first_at _ _ _ Hfind) as (i & Hat).
    eapply wp_updateTerminal; [exact Hat|].
    intros w1 Henv1 Hstate1 _ Hls. apply wp_ret.
    proj_simpl. rewrite (Hw _) in Hls. apply Hrest; [done..|].
    unfold stored_terminals at 2. rewrite Hls. cbn [put_item item terminals_item default].
    unfold Datatypes.id.
    change (stored_terminals (with_ticks (S (ticks w)) w)) with (stored_terminals w).
    pose proof (first_at_lookup _ _ _ _ Hat) as Hi.
    destruct Hat as (_ & Hold & _). apply String.eqb_eq in Hold.
    apply Forall2_same_length_lookup_2; [symmetry; apply length_insert|].
    intros j x y Hx Hy. destruct (decide (j = i)) as [->|Hne].
    + rewrite list_lookup_insert_eq in Hy by (by eapply lookup_lt_Some).
      injection Hy as <-. rewrite Hi in Hx. injection Hx as <-.
      split; [done|]. split; [done|]. intros Hnot. destruct Hnot. by left.
    + rewrite list_lookup_insert_ne in Hy by done. rewrite Hx in Hy. injection Hy as <-.
      split; [done|]. split; [|done]. intros [Heq|[]]. destruct Hne.
      apply (proj1 (NoDup_alt _) Hids j i (Terminal.id x)).
      * by rewrite list_lookup_fmap, Hx.
      * rewrite list_lookup_fmap, Hi. cbn. congruence.
  - apply wp_updateTerminal_unknown; [exact Hfind|]. apply wp_ret. proj_simpl.
    apply Hrest; [done..|].
    apply Forall2_same_length_lookup_2; [done|].
    intros j x y Hx Hy.
    change (stored_terminals (touched GetItem TERMINALS (with_ticks (S (ticks w)) w)))
      with (stored_terminals w) in Hy.
    rewrite Hx in Hy. injection Hy as <-.
    split; [done|]. split; [|done]. intros [Heq|[]]. exfalso.
    apply list_elem_of_lookup_2, list_elem_of_In in Hx.
    clear -Hfind Hx Heq. induction (stored_terminals w) as [|z l IHl]; [done|].
    cbn [Array.find] in Hfind. destruct (terminal_has_id id z) eqn:Hz; [done|].
    destruct Hx as [->|Hx]; [|by apply IHl].
    unfold terminal_has_id in Hz. rewrite <- Heq, String.eqb_refl in Hz. done.
Qed.

Lemma wp_intro {A} (m : M A) (Q : A -> World -> Prop) w a :
  result m w = Normal a -> Q a (after m w) -> wp m Q w.
Proof.
  unfold result, after, wp. destruct (m w) as [[b|e] w']; cbn; [|done].
  by intros [= ->].
Qed.

Lemma getTerminalsByUser_storage userId w :
  localStorage (after (getTerminalsByUser userId) w) = localStorage w.
Proof.
  unfold after, getTerminalsByUser, mbind, M_bind, bind.
  change (getUserById userId w)
    with (Normal (Array.find (has_id userId) (stored_users w)), touched GetItem USERS w).
  destruct (Array.find (has_id userId) (stored_users w)) as [user|]; [|done].
  by destruct (role_is (User.role user) "Merchant").
Qed.

(** X27. On a browser that accepts writes and a store whose terminal ids
    are all different, the bulk restart puts every stored terminal whose
    id is selected into maintenance and leaves every other terminal as it
    was; ids that are not stored are skipped.  The selection is cleared and
    the page shows what the signed-in user may see: every stored terminal
    for a user who is not a merchant, nothing when nobody is signed in
    (the store is updated all the same). *)
Theorem handleBulkRestart_restarts_selected (w : World) (selected : list string) :
  healthy w ->
  NoDup (map Terminal.id (stored_terminals w)) ->
  let w' := after (Terminals.handleBulkRestart selected) w in
  exists terminals,
    result (Terminals.handleBulkRestart selected) w = Normal ([], terminals) /\
    Forall2 (restarted selected) (stored_terminals w) (stored_terminals w') /\
    (forall user, currentUser (state w) = Some user -> User.role user <> Merchant ->
                  terminals = stored_terminals w') /\
    (currentUser (state w) = None -> terminals = []).
Proof.
  intros Hw Hids w'.
  assert (wp (Terminals.handleBulkRestart selected)
            (fun r w' => exists terminals,
               r = ([], terminals) /\
               Forall2 (restarted selected) (stored_terminals w) (stored_terminals w') /\
               (forall user, currentUser (state w) = Some user ->
                             User.role user <> Merchant ->
                             terminals = stored_terminals w') /\
               (currentUser (state w) = None -> terminals = [])) w) as H.
  { unfold Terminals.handleBulkRestart. apply wp_bind.
    eapply wp_mono; [by apply bulk_restart_loop|].
    intros ? w2 (Henv2 & Hstate2 & Hloop). cbv beta.
    apply wp_bind. unfold getAccessibleTerminals. apply wp_bind, wp_useState.
    rewrite Hstate2. destruct (currentUser (state w)) as [user|].
    - destruct (role_is (User.role user) "Merchant") eqn:Hrole.
      + eapply wp_intro; [apply getTerminalsByUser_result|]. apply wp_ret.
        eexists. split; [reflexivity|]. split.
        { unfold stored_terminals at 2. by rewrite getTerminalsByUser_storage. }
        split; [|done]. intros ? [= <-] Hne. apply role_is_Merchant in Hrole. done.
      + apply wp_getTerminals, wp_ret. eexists. split; [reflexivity|].
        split; [done|]. split; [|done]. by intros ? [= <-] _.
    - apply wp_ret, wp_ret. eexists. split; [reflexivity|]. split; [done|]. done. }
  destruct (wp_result _ _ _ H) as (r & Hr & terminals & -> & H'). by exists terminals.
Qed.

(** ** The sample metrics *)

Lemma floor_between (x : Q) (lo hi : Z) :
  (inject_Z lo <= x)%Q -> (x < inject_Z hi)%Q -> lo <= Math_floor x <= hi - 1.
Proof.
  intros Hlo Hhi. unfold Math_floor. split.
  - rewrite <- (Qfloor_Z lo). by apply Qfloor_resp_le.
  - assert (Qfloor x < hi); [|lia]. rewrite Zlt_Qlt.
    eapply Qle_lt_trans; [apply Qfloor_le|exact Hhi].
Qed.

Lemma floor_within (x : Q) (lo hi : Z) :
  (inject_Z lo <= x)%Q -> (x <= inject_Z hi)%Q -> lo <= Math_floor x <= hi.
Proof.
  intros Hlo Hhi. unfold Math_floor. split.
  - rewrite <- (Qfloor_Z lo). by apply Qfloor_resp_le.
  - rewrite <- (Qfloor_Z hi). by apply Qfloor_resp_le.
Qed.

Lemma wp_toISODate ms Q w : Q (isoDate (env w) ms) w -> wp (toISODate ms) Q w.
Proof. done. Qed.

Lemma wp_random_floor a b (Q : Z -> World -> Prop) w :
  Q (Math_floor (random (env w) (draws w) * a + b)%Q) (with_draws (S (draws w)) w) ->
  wp (random_floor a b) Q w.
Proof. done. Qed.

Lemma wp_random_scaled a b (Q : Q -> World -> Prop) w :
  Q (random (env w) (draws w) * a + b)%Q (with_draws (S (draws w)) w) ->
  wp (random_scaled a b) Q w.
Proof. done. Qed.

Lemma sampleMetrics_entry_plausible today i w :
  unit_random (env w) ->
  wp (sampleMetrics_entry today i) (fun entry w' => plausible entry /\ env w' = env w) w.
Proof.
  intros Hrandom. unfold sampleMetrics_entry. cbv zeta.
  apply wp_bind, wp_toISODate.
  do 4 (apply wp_bind, wp_random_floor). apply wp_bind, wp_random_scaled.
  do 3 (apply wp_bind, wp_random_floor). do 3 (apply wp_bind, wp_random_scaled).
  apply wp_ret. proj_simpl. split; [|done].
  unfold plausible. cbn [PerformanceMetrics.totalTerminals
    PerformanceMetrics.onlineTerminals PerformanceMetrics.offlineTerminals
    PerformanceMetrics.maintenanceTerminals PerformanceMetrics.errorTerminals
    PerformanceMetrics.averageUptime PerformanceMetrics.totalTickets
    PerformanceMetrics.openTickets PerformanceMetrics.resolvedTickets
    PerformanceMetrics.averageResolutionTime PerformanceMetrics.slaCompliance
    PerformanceMetrics.customerSatisfaction].
  split; [done|].
  repeat match goal with
         | |- context [random (env w) ?n] =>
             let r := fresh "r" in
             let Hr := fresh "Hr" in
             let Hr' := fresh "Hr" in
             pose proof (Hrandom n) as [Hr Hr'];
             set (r := random (env w) n) in *; clearbody r
         end.
  split; [apply (floor_within _ 12 20); unfold inject_Z; lra|].
  split; [apply (floor_within _ 0 4); unfold inject_Z; lra|].
  split; [apply (floor_within _ 0 3); unfold inject_Z; lra|].
  split; [apply (floor_within _ 0 3); unfold inject_Z; lra|].
  split; [split; lra|].
  split; [apply (floor_within _ 5 20); unfold inject_Z; lra|].
  split; [apply (floor_within _ 2 10); unfold inject_Z; lra|].
  split; [apply (floor_within _ 3 13); unfold inject_Z; lra|].
  split; [split; lra|]. split; split; lra.
Qed.

Lemma sampleMetrics_loop_plausible today i metrics w :
  unit_random (env w) ->
  Forall plausible metrics ->
  wp (sampleMetrics_loop today i metrics)
     (fun r w' =>
        Forall plausible r /\ List.length r = (List.length metrics + S i)%nat /\
        env w' = env w) w.
Proof.
  revert metrics w. induction i as [|i IH]; intros metrics w Hrandom Hall;
    cbn [sampleMetrics_loop]; apply wp_bind;
    (eapply wp_mono; [by apply sampleMetrics_entry_plausible|]);
    intros entry w1 [Hentry Henv]; cbv zeta; unfold Array.push.
  - apply wp_ret. split; [|split; [|done]].
    + apply Forall_app. split; [done|]. by constructor.
    + rewrite length_app. cbn. lia.
  - eapply wp_mono.
    { apply IH; [by rewrite Henv|]. apply Forall_app. split; [done|]. by constructor. }
    intros r w2 (Hr & Hlen & Henv2). cbv beta. split; [done|]. split; [|congruence].
    rewrite Hlen, length_app. cbn. lia.
Qed.

Lemma generateSampleMetrics_plausible w :
  unit_random (env w) ->
  wp generateSampleMetrics
     (fun r _ => List.length r = 31%nat /\ Forall plausible r) w.
Proof.
  intros Hrandom. unfold generateSampleMetrics. apply wp_bind, wp_Date_now.
  eapply wp_mono; [by apply sampleMetrics_loop_plausible|].
  intros r w' (Hr & Hlen & _). done.
Qed.

Lemma getMetrics_result w :
  result getMetrics w = Normal (default [] (metrics_item (localStorage w))).
Proof. done. Qed.

(** X28. The sample metrics.  With a random source that stays in
    [[0, 1)] and a store that accepts writes, [clearAllData] leaves 31 daily
    entries (the loop runs from 30 down to 0 inclusive), each with
    [totalTerminals = 20] and every drawn figure [r * a + b] between [b]
    and [a + b], ends included; so does the first construction of the
    service on an empty store. *)
Theorem sample_metrics_are_plausible (w : World) :
  healthy w ->
  unit_random (env w) ->
  (exists metrics,
     result getMetrics (after clearAllData w) = Normal metrics /\
     List.length metrics = 31%nat /\ Forall plausible metrics) /\
  (localStorage w = empty_storage ->
   exists metrics,
     result getMetrics (after LocalStorageService_new w) = Normal metrics /\
     List.length metrics = 31%nat /\ Forall plausible metrics).
Proof.
  intros Hw Hrandom.
  assert (forall w0, env w0 = env w ->
            wp generateSampleMetrics
               (fun data _ => List.length data = 31%nat /\ Forall plausible data) w0)
    as Hmetrics.
  { intros w0 Henv. apply generateSampleMetrics_plausible. by rewrite Henv. }
  split.
  - destruct (wp_result _ _ _ (wp_clearAllData _ w Hw Hmetrics))
      as (? & _ & _ & _ & _ & _ & _ & _ & HG).
    eexists. split; [apply getMetrics_result|]. exact HG.
  - intros Hempty. unfold LocalStorageService_new.
    destruct (wp_result _ _ _ (initializeData_on_empty _ w Hw Hempty Hmetrics))
      as (? & _ & _ & _ & _ & _ & _ & _ & _ & HG).
    eexists. split; [apply getMetrics_result|]. exact HG.
Qed.

(** ** The permission guard and the dashboard *)

(** X29. [ProtectedRoute] with the permission [manage_users] lets through
    exactly the users the role list of the [/user-management] route lets
    through.  Nobody signed in gets the fallback, or the log-in text when
    there is none, whatever is required; and an empty required role and
    permission are no requirement at all. *)
Theorem ProtectedRoute_agrees_with_role_list (w : World) :
  (result (ProtectedRoute (Some "manage_users") None None (ret (Page "UserManagement"))) w
     = Normal (Page "UserManagement") <->
   result (RoleBasedRoute ["Administrator"; "Service Desk Manager"]
             (ret (Page "UserManagement"))) w
     = Normal (Page "UserManagement")) /\
  (forall requiredPermission requiredRole fallback children,
     currentUser (state w) = None ->
     result (ProtectedRoute requiredPermission requiredRole fallback children) w
       = Normal (default (Text "Please log in to access this page.") fallback)) /\
  (forall fallback children,
     currentUser (state w) <> None ->
     ProtectedRoute (Some "") (Some "") fallback children w = children w).
Proof.
  destruct w as [e ls co ac [[user|] ld er] ti dr wr]; (split; [|split]).
  - destruct (User.role user) eqn:Hrole;
      unfold ProtectedRoute, RoleBasedRoute, hasPermission, useState, result,
        mbind, M_bind, bind; cbn; rewrite ?Hrole; cbn; intuition (auto; try discriminate).
  - intros ? ? ? ? H. discriminate H.
  - intros fallback children _. reflexivity.
  - unfold ProtectedRoute, RoleBasedRoute, useState, result, mbind, M_bind, bind; cbn.
    intuition (auto; try discriminate).
  - intros ? ? ? ? _. reflexivity.
  - intros ? ? H. by destruct H.
Qed.

Lemma status_buckets (terminals : list Terminal.t) :
  Array.length terminals =
    Array.length (Array.filter (Dashboard.terminal_is Online) terminals)
    + Array.length (Array.filter (Dashboard.terminal_is Offline) terminals)
    + Array.length (Array.filter (Dashboard.terminal_is Maintenance) terminals)
    + Array.length (Array.filter (Dashboard.terminal_is Error) terminals).
Proof.
  unfold Array.length, Array.filter.
  induction terminals as [|t l IH]; [done|]. cbn [List.filter List.length].
  assert (Z.b2z (Dashboard.terminal_is Online t) + Z.b2z (Dashboard.terminal_is Offline t)
          + Z.b2z (Dashboard.terminal_is Maintenance t)
          + Z.b2z (Dashboard.terminal_is Error t) = 1) as Hone
    by (unfold Dashboard.terminal_is; by destruct (Terminal.status t)).
  destruct (Dashboard.terminal_is Online t), (Dashboard.terminal_is Offline t),
    (Dashboard.terminal_is Maintenance t), (Dashboard.terminal_is Error t);
    cbn [List.length Z.b2z] in *; lia.
Qed.

Lemma ticket_buckets (tickets : list SupportTicket.t) :
  Array.length tickets =
    Array.length (Array.filter (Dashboard.ticket_is Open) tickets)
    + Array.length (Array.filter (Dashboard.ticket_is InProgress) tickets)
    + Array.length (Array.filter (Dashboard.ticket_is Resolved) tickets)
    + Array.length (Array.filter (Dashboard.ticket_is Scheduled) tickets)
    + Array.length (Array.filter (Dashboard.ticket_is Closed) tickets).
Proof.
  unfold Array.length, Array.filter.
  induction tickets as [|t l IH]; [done|]. cbn [List.filter List.length].
  assert (Z.b2z (Dashboard.ticket_is Open t) + Z.b2z (Dashboard.ticket_is InProgress t)
          + Z.b2z (Dashboard.ticket_is Resolved t)
          + Z.b2z (Dashboard.ticket_is Scheduled t)
          + Z.b2z (Dashboard.ticket_is Closed t) = 1) as Hone
    by (unfold Dashboard.ticket_is; by destruct (SupportTicket.status t)).
  destruct (Dashboard.ticket_is Open t), (Dashboard.ticket_is InProgress t),
    (Dashboard.ticket_is Resolved t), (Dashboard.ticket_is Scheduled t),
    (Dashboard.ticket_is Closed t);
    cbn [List.length Z.b2z] in *; lia.
Qed.

Lemma filter_and_length {A} (p q : A -> bool) (l : list A) :
  (List.length (List.filter (fun x => p x && q x) l)
   <= List.length (List.filter q l))%nat.
Proof.
  induction l as [|x l IH]; [done|]. cbn [List.filter].
  destruct (p x), (q x); cbn; lia.
Qed.

(** A share of a whole, as a rounded percentage. *)
Lemma percentage_range (part whole : Z) :
  0 <= part <= whole -> 0 < whole ->
  0 <= Math_round (inject_Z part / inject_Z whole * 100)%Q <= 100.
Proof.
  intros Hpart Hwhole.
  assert (0 < inject_Z whole)%Q as Hpos by (unfold Qlt; cbn; lia).
  assert (0 <= inject_Z part / inject_Z whole)%Q as Hlo.
  { apply Qle_shift_div_l; [done|]. unfold Qle. cbn. lia. }
  assert (inject_Z part / inject_Z whole <= 1)%Q as Hhi.
  { apply Qle_shift_div_r; [done|]. unfold Qle. cbn. lia. }
  set (share := (inject_Z part / inject_Z whole)%Q) in *.
  unfold Math_round.
  assert (0 <= Math_floor (share * 100 + (1 # 2))%Q <= 101 - 1) as H.
  { apply floor_between; unfold inject_Z; lra. }
  unfold Math_floor in H. lia.
Qed.

Lemma dashboard_load_anonymous w :
  currentUser (state w) = None ->
  result Dashboard.load w = Normal (Dashboard.dashboardData [] []).
Proof.
  destruct w as [e ls co ac [user ld er] ti dr wr]. cbn [state currentUser].
  intros ->. reflexivity.
Qed.

(** X30. The dashboard's figures.  Every terminal of the page is counted
    in exactly one of the four status figures, so they add up to the
    total, and the issues are the offline and error terminals; the ticket
    figures leave out the closed tickets only.  The online share and the
    SLA compliance are percentages between 0 and 100.  With no terminals
    the online share and the average uptime are 0; with no tickets the
    average resolution time is 3.5 and the SLA compliance 94.  When nobody
    is signed in the dashboard computes its figures from no terminals and
    no tickets, whatever is stored. *)
Theorem dashboard_figures (terminals : list Terminal.t) (tickets : list SupportTicket.t) :
  let d := Dashboard.dashboardData terminals tickets in
  Dashboard.totalTerminals d =
    Dashboard.onlineTerminals d + Dashboard.offlineTerminals d
    + Dashboard.maintenanceTerminals d + Dashboard.errorTerminals d /\
  Dashboard.issuesDetected d = Dashboard.offlineTerminals d + Dashboard.errorTerminals d /\
  Dashboard.totalTickets d =
    Dashboard.openTickets d + Dashboard.inProgressTickets d
    + Dashboard.resolvedTickets d + Dashboard.scheduledTickets d
    + Array.length (Array.filter (Dashboard.ticket_is Closed) tickets) /\
  0 <= Dashboard.onlinePercentage d <= 100 /\
  0 <= Dashboard.slaCompliance d <= 100 /\
  (terminals = [] -> Dashboard.onlinePercentage d = 0 /\ Dashboard.avgUptime d = 0) /\
  (tickets = [] ->
   Dashboard.avgResolutionTime d = (7 # 2)%Q /\ Dashboard.slaCompliance d = 94) /\
  (forall w, currentUser (state w) = None ->
             result Dashboard.load w = Normal (Dashboard.dashboardData [] [])).
Proof.
  cbv zeta. split; [|split; [|split; [|split; [|split; [|split; [|split]]]]]];
    [..|exact dashboard_load_anonymous];
    unfold Dashboard.dashboardData; cbv zeta;
  cbn [Dashboard.totalTerminals Dashboard.onlineTerminals Dashboard.offlineTerminals
       Dashboard.maintenanceTerminals Dashboard.errorTerminals Dashboard.issuesDetected
       Dashboard.totalTickets Dashboard.openTickets Dashboard.inProgressTickets
       Dashboard.resolvedTickets Dashboard.scheduledTickets Dashboard.onlinePercentage
       Dashboard.slaCompliance Dashboard.avgUptime Dashboard.avgResolutionTime].
  - apply status_buckets.
  - done.
  - apply ticket_buckets.
  - destruct (Z.ltb_spec 0 (Array.length terminals)); [|lia].
    apply percentage_range; [|done]. unfold Array.length, Array.filter.
    pose proof (filter_length_le (Dashboard.terminal_is Online) terminals). lia.
  - destruct (Z.ltb_spec 0
                (Array.length
                   (Array.filter (fun t => negb (Dashboard.ticket_is Open t)) tickets)));
      [|lia].
    apply percentage_range; [|done]. unfold Array.length, Array.filter.
    pose proof (filter_and_length (fun t => negb (SupportTicket.slaBreach t))
                  (fun t => negb (Dashboard.ticket_is Open t)) tickets) as Hle.
    cbv beta in Hle. lia.
  - intros ->. done.
  - intros ->. done.
Qed.

(** ** The further statements at work on the sample data *)

Lemma admin_world_healthy : healthy admin_world.
Proof. intros n. vm_compute. reflexivity. Qed.

Lemma locked_world_healthy : healthy locked_world.
Proof. intros n. vm_compute. reflexivity. Qed.

Lemma demo_world_unit_random : unit_random (env demo_world).
Proof. intros n. split; vm_compute; first [reflexivity | intros H; discriminate H]. Qed.

Lemma demo_users_locked_at_three : locked_at_three (stored_users demo_world).
Proof.
  intros user Hin. vm_compute in Hin.
  destruct Hin as [<-|[<-|[<-|[<-|[]]]]]; cbn; lia.
Qed.

Lemma demo_usernames_NoDup : NoDup (map User.username (stored_users demo_world)).
Proof. apply (bool_decide_unpack _). vm_compute. reflexivity. Qed.

Lemma demo_user_ids_NoDup : NoDup (map User.id (stored_users demo_world)).
Proof. apply (bool_decide_unpack _). vm_compute. reflexivity. Qed.

Lemma demo_terminal_ids_NoDup : NoDup (map Terminal.id (stored_terminals demo_world)).
Proof. apply (bool_decide_unpack _). vm_compute. reflexivity. Qed.

(** X3 on the demo: the new agent is stored after the four sample users. *)
Lemma createUser_appends_witness :
  healthy demo_world /\
  exists newUser,
    result (createUser new_agent) demo_world = Normal newUser /\
    stored_users (after (createUser new_agent) demo_world) =
      (stored_users demo_world ++ [newUser])%list.
Proof.
  pose proof demo_world_healthy as H1.
  destruct (createUser_appends demo_world new_agent H1)
    as (id & created & updated & Hr & Hs & _).
  split; [exact H1|].
  exists (User.create id new_agent created updated). split; [exact Hr|exact Hs].
Defined.

(** X6 with the administrator signed in: the store is reset, the reducer
    is not. *)
Lemma clearAllData_resets_store_witness :
  healthy admin_world /\
  stored_users (after clearAllData admin_world) = generateSampleUsers /\
  result getCurrentUser (after clearAllData admin_world) = Normal None /\
  state (after clearAllData admin_world) = state admin_world.
Proof.
  pose proof admin_world_healthy as H1.
  destruct (clearAllData_resets_store admin_world H1) as (_ & H2 & _ & _ & H3 & _ & H4).
  split; [exact H1|]. split; [exact H2|]. split; [exact H3|exact H4].
Defined.

(** X8 with the administrator signed in and a wrong password for the same
    account. *)
Lemma failed_login_keeps_persisted_session_witness :
  result (login "admin.mukamuri" "wrong") admin_world = Normal false /\
  currentUser (state (after (login "admin.mukamuri" "wrong") admin_world)) = None /\
  result getCurrentUser (after (login "admin.mukamuri" "wrong") admin_world)
    = result getCurrentUser admin_world.
Proof.
  assert (result (login "admin.mukamuri" "wrong") admin_world = Normal false) as H1
    by (vm_compute; reflexivity).
  destruct (failed_login_keeps_persisted_session admin_world "admin.mukamuri" "wrong" H1)
    as (H2 & _ & H3 & _).
  split; [exact H1|]. split; [exact H2|exact H3].
Defined.

(** X9 on the demo, for a wrong password. *)
Lemma login_keeps_locked_at_three_witness :
  healthy demo_world /\
  locked_at_three (stored_users demo_world) /\
  locked_at_three (stored_users (after (login "admin.mukamuri" "wrong") demo_world)).
Proof.
  pose proof demo_world_healthy as H1. pose proof demo_users_locked_at_three as H2.
  split; [exact H1|]. split; [exact H2|].
  exact (login_keeps_locked_at_three demo_world "admin.mukamuri" "wrong" H1 H2).
Defined.

(** X11 on the demo: the administrator signs in and reloads. *)
Lemma login_survives_reload_witness :
  healthy demo_world /\
  result (login "admin.mukamuri" "admin123") demo_world = Normal true /\
  exists user,
    currentUser (state (after (login "admin.mukamuri" "admin123") demo_world))
      = Some user /\
    currentUser
      (state (after page_load
                (reloaded (after (login "admin.mukamuri" "admin123") demo_world))))
      = Some user.
Proof.
  pose proof demo_world_healthy as H1.
  assert (result (login "admin.mukamuri" "admin123") demo_world = Normal true) as H2
    by (vm_compute; reflexivity).
  destruct (login_survives_reload demo_world "admin.mukamuri" "admin123" H1 H2)
    as (user & H3 & H4 & _).
  split; [exact H1|]. split; [exact H2|]. exists user. split; [exact H3|exact H4].
Defined.

(** X13 with the administrator signed in: an empty update of the current
    user. *)
Lemma updateCurrentUser_syncs_witness :
  exists user old,
    healthy admin_world /\
    currentUser (state admin_world) = Some user /\
    first_at (has_id (User.id user)) (stored_users admin_world) 0 old /\
    exists merged,
      currentUser (state (after (updateCurrentUser User.Partial.empty) admin_world))
        = Some merged /\
      result getCurrentUser (after (updateCurrentUser User.Partial.empty) admin_world)
        = Normal (Some merged).
Proof.
  pose proof admin_world_healthy as H1.
  assert (exists user old,
            currentUser (state admin_world) = Some user /\
            first_at (has_id (User.id user)) (stored_users admin_world) 0 old)
    as (user & old & H2 & H3).
  { eexists _, _. split; [vm_compute; reflexivity|].
    split; [vm_compute; reflexivity|]. split; [vm_compute; reflexivity|].
    intros j y Hj. lia. }
  destruct (updateCurrentUser_syncs admin_world User.Partial.empty user old 0 H1 H2 H3)
    as (_ & H4 & H5 & _).
  exists user, old. split; [exact H1|]. split; [exact H2|]. split; [exact H3|].
  eexists. split; [exact H4|exact H5].
Defined.

(** X18 for 25 hours and one minute. *)
Lemma duration_drops_minutes_witness :
  1440 <= 1501 /\
  formatters.duration 1501 = formatters.duration (1501 / 60 * 60).
Proof.
  assert (1440 <= 1501) as H1 by lia.
  split; [exact H1|]. exact (duration_drops_minutes 1501 H1).
Defined.

(** X19 with the administrator signed in: deleting the administrator's
    record leaves the persisted session. *)
Lemma store_call_writes_own_collection_witness :
  Call_deleteUser "user-admin-001" <> Call_clearAllData /\
  collection (Call_deleteUser "user-admin-001") <> Some CURRENT_USER /\
  item (localStorage (after (call (Call_deleteUser "user-admin-001")) admin_world))
       CURRENT_USER
    = item (localStorage admin_world) CURRENT_USER.
Proof.
  assert (Call_deleteUser "user-admin-001" <> Call_clearAllData) as H1 by discriminate.
  assert (collection (Call_deleteUser "user-admin-001") <> Some CURRENT_USER) as H2
    by discriminate.
  destruct (store_call_writes_own_collection (Call_deleteUser "user-admin-001")
              admin_world CURRENT_USER H1 H2) as [H3 _].
  split; [exact H1|]. split; [exact H2|exact H3].
Defined.

(** X20 on the demo: a new ticket for terminal T001, as the merchant sees
    it. *)
Lemma createTicket_visibility_witness :
  healthy demo_world /\
  exists newTicket,
    result (createTicket new_ticket) demo_world = Normal newTicket /\
    stored_tickets (after (createTicket new_ticket) demo_world)
      = (stored_tickets demo_world ++ [newTicket])%list.
Proof.
  pose proof demo_world_healthy as H1.
  destruct (createTicket_visibility demo_world new_ticket "user-merchant-001" H1)
    as (newTicket & before & H2 & _ & H3 & _).
  split; [exact H1|]. exists newTicket. split; [exact H2|exact H3].
Defined.

(** X21 on the administrator's account, locked by three wrong passwords,
    unlocked from the page, and tried once more. *)
Lemma unlock_keeps_failed_attempts_witness :
  exists u,
    healthy locked_world /\
    first_at (has_username (User.username u)) (stored_users locked_world) 0 u /\
    first_at (has_id (User.id u)) (stored_users locked_world) 0 u /\
    User.status u = Locked /\
    User.password u <> "wrong" /\
    User.failedLoginAttempts u = 3 /\
    result (login (User.username u) "wrong")
      (after (UserManagement.handleToggleUserStatus (User.id u) (User.status u)
                UserManagement.initialPage) locked_world)
      = Normal false.
Proof.
  pose proof locked_world_healthy as H1.
  assert (exists u,
            first_at (has_username (User.username u)) (stored_users locked_world) 0 u /\
            first_at (has_id (User.id u)) (stored_users locked_world) 0 u /\
            User.status u = Locked /\
            User.password u <> "wrong" /\
            User.failedLoginAttempts u = 3)
    as (u & H2 & H3 & H4 & H5 & H6).
  { eexists. split.
    { split; [vm_compute; reflexivity|]. split; [vm_compute; reflexivity|].
      intros j y Hj. lia. }
    split.
    { split; [vm_compute; reflexivity|]. split; [vm_compute; reflexivity|].
      intros j y Hj. lia. }
    split; [vm_compute; reflexivity|]. split; [|vm_compute; reflexivity].
    intros H. vm_compute in H. discriminate H. }
  destruct (unlock_keeps_failed_attempts locked_world UserManagement.initialPage u 0
              "wrong" H1 H2 H3 H4 H5) as (_ & H7 & _).
  exists u. split; [exact H1|]. split; [exact H2|]. split; [exact H3|].
  split; [exact H4|]. split; [exact H5|]. split; [exact H6|exact H7].
Defined.

(** X22 on the demo: the merchant's account is deleted from the page. *)
Lemma confirmDeleteUser_page_follows_store_witness :
  healthy demo_world /\
  UserManagement.users (UserManagement.handleDeleteUser "user-merchant-001" users_page)
    = stored_users demo_world /\
  UserManagement.userId
    (UserManagement.deleteConfirm
       (UserManagement.handleDeleteUser "user-merchant-001" users_page))
    = Some "user-merchant-001" /\
  exists p',
    result (UserManagement.confirmDeleteUser
              (UserManagement.handleDeleteUser "user-merchant-001" users_page))
           demo_world = Normal p' /\
    UserManagement.users p' =
      stored_users
        (after (UserManagement.confirmDeleteUser
                  (UserManagement.handleDeleteUser "user-merchant-001" users_page))
               demo_world).
Proof.
  pose proof demo_world_healthy as H1.
  assert (UserManagement.users
            (UserManagement.handleDeleteUser "user-merchant-001" users_page)
          = stored_users demo_world) as H2 by exact eq_refl.
  assert (UserManagement.userId
            (UserManagement.deleteConfirm
               (UserManagement.handleDeleteUser "user-merchant-001" users_page))
          = Some "user-merchant-001") as H3 by exact eq_refl.
  destruct (confirmDeleteUser_page_follows_store demo_world _ "user-merchant-001"
              H1 H2 H3) as (p' & H4 & H5 & _).
  split; [exact H1|]. split; [exact H2|]. split; [exact H3|].
  exists p'. split; [exact H4|exact H5].
Defined.

(** X23 on the demo: the form holds a new agent with a username that is
    free.  The host functions are a [trim] that changes nothing and a
    pattern that accepts every address. *)
Lemma handleSubmitUser_keeps_usernames_unique_witness :
  healthy demo_world /\
  UserManagement.editingUser new_agent_page = None /\
  Permutation (UserManagement.users new_agent_page) (stored_users demo_world) /\
  NoDup (map User.username (stored_users demo_world)) /\
  exists p',
    result (UserManagement.handleSubmitUser (fun s => s) (fun _ => true) new_agent_page)
           demo_world = Normal p' /\
    NoDup (map User.username
             (stored_users
                (after (UserManagement.handleSubmitUser (fun s => s) (fun _ => true)
                          new_agent_page) demo_world))).
Proof.
  pose proof demo_world_healthy as H1.
  assert (UserManagement.editingUser new_agent_page = None) as H2 by exact eq_refl.
  assert (Permutation (UserManagement.users new_agent_page) (stored_users demo_world))
    as H3 by exact (Permutation_refl _).
  pose proof demo_usernames_NoDup as H4.
  destruct (handleSubmitUser_keeps_usernames_unique (fun s => s) (fun _ => true)
              demo_world new_agent_page H1 H2 H3 H4) as (p' & H5 & H6 & _).
  split; [exact H1|]. split; [exact H2|]. split; [exact H3|]. split; [exact H4|].
  exists p'. split; [exact H5|exact H6].
Defined.

(** X24 on the demo: the administrator's record is opened in the form and
    saved as it is. *)
Lemma handleSubmitUser_edits_in_place_witness :
  healthy demo_world /\
  UserManagement.editingUser edit_admin_page = Some sample_admin /\
  first_at (has_id (User.id sample_admin)) (stored_users demo_world) 0 sample_admin /\
  Permutation (UserManagement.users edit_admin_page) (stored_users demo_world) /\
  NoDup (map User.id (stored_users demo_world)) /\
  NoDup (map User.username (stored_users demo_world)) /\
  fst (UserManagement.validateForm (fun s => s) (fun _ => true) edit_admin_page) = true /\
  exists merged,
    stored_users
      (after (UserManagement.handleSubmitUser (fun s => s) (fun _ => true)
                edit_admin_page) demo_world)
      = <[0%nat := merged]> (stored_users demo_world) /\
    User.password merged = User.password sample_admin.
Proof.
  pose proof demo_world_healthy as H1.
  assert (UserManagement.editingUser edit_admin_page = Some sample_admin) as H2
    by exact eq_refl.
  assert (first_at (has_id (User.id sample_admin)) (stored_users demo_world) 0 sample_admin)
    as H3.
  { split; [vm_compute; reflexivity|]. split; [vm_compute; reflexivity|].
    intros j y Hj. lia. }
  assert (Permutation (UserManagement.users edit_admin_page) (stored_users demo_world))
    as H4 by exact (Permutation_refl _).
  pose proof demo_user_ids_NoDup as H5. pose proof demo_usernames_NoDup as H6.
  assert (fst (UserManagement.validateForm (fun s => s) (fun _ => true) edit_admin_page)
          = true) as H7 by (vm_compute; reflexivity).
  destruct (handleSubmitUser_edits_in_place (fun s => s) (fun _ => true) demo_world
              edit_admin_page sample_admin sample_admin 0 H1 H2 H3 H4 H5 H6 H7)
    as (p' & merged & _ & H8 & _ & _ & _ & _ & H9 & _).
  split; [exact H1|]. split; [exact H2|]. split; [exact H3|]. split; [exact H4|].
  split; [exact H5|]. split; [exact H6|]. split; [exact H7|].
  exists merged. split; [exact H8|exact H9].
Defined.

(** X25 on the demo: the sample ticket is closed.  Date strings are given
    the time value 0. *)
Lemma ticket_handlers_keep_resolution_witness :
  exists old,
    healthy demo_world /\
    first_at (ticket_has_id "TKT-2025-001") (stored_tickets demo_world) 0 old /\
    exists new,
      stored_tickets
        (after (SupportTickets.handleUpdateStatus (fun _ => 0) "TKT-2025-001" Closed
                  (stored_tickets demo_world)) demo_world)
        = <[0%nat := new]> (stored_tickets demo_world) /\
      SupportTicket.status new = Closed /\
      SupportTicket.assignedTo new = SupportTicket.assignedTo old.
Proof.
  pose proof demo_world_healthy as H1.
  assert (exists old,
            first_at (ticket_has_id "TKT-2025-001") (stored_tickets demo_world) 0 old)
    as (old & H2).
  { eexists. split; [vm_compute; reflexivity|]. split; [vm_compute; reflexivity|].
    intros j y Hj. lia. }
  destruct (ticket_handlers_keep_resolution (fun _ => 0) demo_world "TKT-2025-001"
              "user-support-001" Closed (stored_tickets demo_world) 0 old H1 H2)
    as ((new & H3 & H4 & H5 & _) & _).
  exists old. split; [exact H1|]. split; [exact H2|].
  exists new. split; [exact H3|]. split; [exact H4|exact H5].
Defined.

(** X27 on the demo: two of the five terminals are restarted. *)
Lemma handleBulkRestart_restarts_selected_witness :
  healthy demo_world /\
  NoDup (map Terminal.id (stored_terminals demo_world)) /\
  exists terminals,
    result (Terminals.handleBulkRestart ["T001"; "T003"]) demo_world
      = Normal ([], terminals) /\
    Forall2 (restarted ["T001"; "T003"]) (stored_terminals demo_world)
      (stored_terminals (after (Terminals.handleBulkRestart ["T001"; "T003"]) demo_world)).
Proof.
  pose proof demo_world_healthy as H1. pose proof demo_terminal_ids_NoDup as H2.
  destruct (handleBulkRestart_restarts_selected demo_world ["T001"; "T003"] H1 H2)
    as (terminals & H3 & H4 & _).
  split; [exact H1|]. split; [exact H2|]. exists terminals. split; [exact H3|exact H4].
Defined.

(** X28 on the demo, whose random source always returns one half. *)
Lemma sample_metrics_are_plausible_witness :
  healthy demo_world /\
  unit_random (env demo_world) /\
  exists metrics,
    result getMetrics (after clearAllData demo_world) = Normal metrics /\
    List.length metrics = 31%nat /\ Forall plausible metrics.
Proof.
  pose proof demo_world_healthy as H1. pose proof demo_world_unit_random as H2.
  destruct (sample_metrics_are_plausible demo_world H1 H2) as [H3 _].
  split; [exact H1|]. split; [exact H2|exact H3].
Defined.
